(** * Verification of the client-side analytics manager (analytics.js)

    A shallow embedding of the [AnalyticsManager] class of the Application
    Insights demo: the purchase funnel (quote, application, policy), the
    metric counters, the A/B test simulator, the cohort tracker and the
    persistent user identity, together with the browser facilities the
    class reads and writes (local storage, form fields, buttons, status
    line, clock, random source, telemetry SDK).

    Conventions of the embedding
    - JavaScript numbers are the IEEE 754 doubles, each written as the exact
      rational it stands for, plus NaN and the two infinities; the result of
      every arithmetic operation and of every conversion from text is
      rounded to the nearest double, ties to even.  The two zeros are not
      told apart.  Counters are natural numbers and clock readings integers.
    - Strings are sequences of 8-bit characters.
    - The form fields give the method what the elements of the page give
      it: the [value] of an [<input type="number">] is empty unless the
      text is a valid floating-point number, that of a [<select>] is the
      value of one of its options.
    - [console] output, timers ([setTimeout], [setInterval]) and the
      [innerHTML] of the two detail panels are display only and are left
      out; every other effect of a method is threaded through the state. *)

From Stdlib Require Import Ascii QArith Qabs Qround.
From stdpp Require Import gmap strings list fin_maps pretty.

(** ** JavaScript primitives used by the class *)

Module Js.

(** *** Numbers *)

Inductive number :=
| NaN
| Infinity (negative : bool)
| Fin (q : Q).

(** Integral results ([Date.now()], [Math.floor], [parseInt]). *)
Inductive integral :=
| INaN
| IInfinity (negative : bool)
| Int (z : Z).

Definition of_integral (i : integral) : number :=
  match i with
  | INaN => NaN
  | IInfinity s => Infinity s
  | Int z => Fin (inject_Z z)
  end.

Definition of_Z (z : Z) : number := Fin (inject_Z z).
Definition of_nat (n : nat) : number := Fin (inject_Z (Z.of_nat n)).

(** Decimal literals of the source, as exact fractions. *)
Definition decimal (mantissa : Z) (exponent : Z) : Q :=
  Qred (inject_Z mantissa * (inject_Z 10 ^ exponent))%Q.

Definition Qis_zero (q : Q) : bool := (Qnum q =? 0)%Z.
Definition Qis_neg (q : Q) : bool := (Qnum q <? 0)%Z.

(** The integer nearest to [n / d] for a positive [d], the even one of two
    that are equally near. *)
Definition round_half_even (n d : Z) : Z :=
  let q := (n / d)%Z in
  match (2 * (n mod d) ?= d)%Z with
  | Lt => q
  | Gt => (q + 1)%Z
  | Eq => if Z.even q then q else (q + 1)%Z
  end.

(** The double nearest to a real number (binary64, round to nearest, ties
    to even): 53 significant bits, the exponent of the leading bit between
    -1022 and 1023, multiples of [2^-1074] below that, an infinity from
    [2^1024 - 2^970] on. *)
Definition round_double (x : Q) : number :=
  let n := Z.abs (Qnum x) in
  let d := Zpos (Qden x) in
  if (n =? 0)%Z then Fin 0
  else
    let e0 := (Z.log2 n - Z.log2 d)%Z in
    let below := if (0 <=? e0)%Z then (n <? d * 2 ^ e0)%Z else (n * 2 ^ (- e0) <? d)%Z in
    (* [2^e <= n/d < 2^(e+1)] *)
    let e := if below then (e0 - 1)%Z else e0 in
    (* the unit in the last place is [2^u] *)
    let u := (Z.max e (-1022) - 52)%Z in
    let m := if (0 <=? u)%Z then round_half_even n (d * 2 ^ u)
             else round_half_even (n * 2 ^ (- u)) d in
    if (1024 <=? e)%Z || (2 ^ 53 <=? m)%Z && (u =? 971)%Z then Infinity (Qnum x <? 0)%Z
    else Fin (Qred (inject_Z (Z.sgn (Qnum x) * m) * inject_Z 2 ^ u)).

(** The value of a numeric literal of the source such as [0.15]. *)
Definition literal (x : Q) : Q :=
  match round_double x with
  | Fin q => q
  | _ => x
  end.

Definition neg (x : number) : number :=
  match x with
  | NaN => NaN
  | Infinity s => Infinity (negb s)
  | Fin q => Fin (Qred (- q))
  end.

(** [x + y], [x - y] and [x * y]. *)
Definition add (x y : number) : number :=
  match x, y with
  | NaN, _ | _, NaN => NaN
  | Infinity s, Infinity t => if Bool.eqb s t then Infinity s else NaN
  | Infinity s, Fin _ | Fin _, Infinity s => Infinity s
  | Fin p, Fin q => round_double (p + q)
  end.

Definition sub (x y : number) : number := add x (neg y).

Definition mul (x y : number) : number :=
  match x, y with
  | NaN, _ | _, NaN => NaN
  | Infinity s, Infinity t => Infinity (xorb s t)
  | Infinity s, Fin q | Fin q, Infinity s =>
      if Qis_zero q then NaN else Infinity (xorb s (Qis_neg q))
  | Fin p, Fin q => round_double (p * q)
  end.

(** [x / d] for a positive integer constant [d]. *)
Definition div_pos (x : number) (d : positive) : number :=
  match x with
  | Fin q => round_double (q / inject_Z (Zpos d))
  | _ => x
  end.

(** The difference of two clock readings. *)
Definition sub_Z (a b : Z) : number := sub (of_Z a) (of_Z b).

Definition Math_floor (x : number) : integral :=
  match x with
  | NaN => INaN
  | Infinity s => IInfinity s
  | Fin q => Int (Qfloor q)
  end.

(** [x || 0] on numbers: NaN and zero are falsy. *)
Definition or_zero (x : number) : number :=
  match x with
  | NaN => Fin 0
  | Infinity _ => x
  | Fin q => if Qis_zero q then Fin 0 else x
  end.

(** [a < b], the comparison of [Math.random() < conversionRate]. *)
Definition Qltb (a b : Q) : bool := (Qnum a * Zpos (Qden b) <? Qnum b * Zpos (Qden a))%Z.

(** *** Truthiness *)

(** A string is truthy when it is not empty. *)
Definition truthy_string (s : string) : bool :=
  match s with
  | EmptyString => false
  | String _ _ => true
  end.

(** [null] (here [None]) is falsy; a string value follows the rule above. *)
Definition truthy (v : option string) : bool :=
  match v with
  | None => false
  | Some s => truthy_string s
  end.

(** *** Strings *)

Definition substr (start len : nat) (s : string) : string :=
  String.substring start len s.

Fixpoint replicate_string (n : nat) (a : ascii) : string :=
  match n with
  | O => EmptyString
  | S n' => String a (replicate_string n' a)
  end.

(** [s.padStart(target, c)] for a one-character pad string. *)
Definition padStart (target : nat) (c : ascii) (s : string) : string :=
  replicate_string (target - String.length s) c +:+ s.

Definition upper_ascii (a : ascii) : ascii :=
  let n := nat_of_ascii a in
  if (97 <=? n)%nat && (n <=? 122)%nat then ascii_of_nat (n - 32) else a.

Fixpoint toUpperCase (s : string) : string :=
  match s with
  | EmptyString => EmptyString
  | String a s' => String (upper_ascii a) (toUpperCase s')
  end.

(** [String(n)] for integral values (below 10^21 in magnitude, where
    JavaScript still writes all digits). *)
Definition integral_toString (i : integral) : string :=
  match i with
  | INaN => "NaN"
  | IInfinity false => "Infinity"
  | IInfinity true => "-Infinity"
  | Int z => pretty z
  end.

Definition Z_toString (z : Z) : string := pretty z.
Definition nat_toString (n : nat) : string := pretty (Z.of_nat n).

(** [x.toFixed(f)] for magnitudes below 10^21: the nearest multiple of
    [10^-f], ties upwards, printed with exactly [f] fraction digits. *)
Definition toFixed (f : nat) (x : number) : string :=
  match x with
  | NaN => "NaN"
  | Infinity false => "Infinity"
  | Infinity true => "-Infinity"
  | Fin q =>
      let a := Qabs q in
      let n := Qfloor (a * inject_Z (10 ^ Z.of_nat f) + (1 # 2))%Q in
      let ds := padStart (S f) "0" (pretty n) in
      let k := (String.length ds - f)%nat in
      let body :=
        match f with
        | O => ds
        | S _ => String.substring 0 k ds +:+ "." +:+ String.substring k f ds
        end in
      if Qis_neg q then "-" +:+ body else body
  end.

(** *** Number parsing *)

Definition is_digit (a : ascii) : bool :=
  let n := nat_of_ascii a in (48 <=? n)%nat && (n <=? 57)%nat.

Definition is_space (a : ascii) : bool :=
  let n := nat_of_ascii a in
  ((9 <=? n)%nat && (n <=? 13)%nat) || (n =? 32)%nat.

Definition digit_value (a : ascii) : Z := Z.of_nat (nat_of_ascii a - 48).

Fixpoint trimStart (s : string) : string :=
  match s with
  | String a s' => if is_space a then trimStart s' else s
  | EmptyString => s
  end.

(** Longest run of decimal digits at the front, and the rest. *)
Fixpoint span_digits (s : string) : list ascii * string :=
  match s with
  | String a s' =>
      if is_digit a then let '(ds, r) := span_digits s' in (a :: ds, r)
      else ([], s)
  | EmptyString => ([], s)
  end.

Definition digits_value (ds : list ascii) : Z :=
  fold_left (fun acc d => 10 * acc + digit_value d)%Z ds 0%Z.

(** An optional sign: [true] for a minus. *)
Definition take_sign (s : string) : bool * string :=
  match s with
  | String c s' =>
      if Ascii.eqb c "-" then (true, s')
      else if Ascii.eqb c "+" then (false, s')
      else (false, s)
  | EmptyString => (false, s)
  end.

(** The digits after a full stop, if the string starts with one. *)
Definition fraction_part (s : string) : list ascii * string :=
  match s with
  | String c r => if Ascii.eqb c "." then span_digits r else ([], s)
  | EmptyString => ([], s)
  end.

Fixpoint starts_with (p s : string) : bool :=
  match p, s with
  | EmptyString, _ => true
  | String a p', String b s' => Ascii.eqb a b && starts_with p' s'
  | String _ _, EmptyString => false
  end.

(** The exponent part [e[+-]digits] if one is present, else 0. *)
Definition exponent_part (s : string) : Z :=
  match s with
  | String c r =>
      if (Ascii.eqb c "e" || Ascii.eqb c "E")%bool then
        let '(neg, r') := take_sign r in
        let '(ds, _) := span_digits r' in
        match ds with
        | [] => 0
        | _ => if neg then - digits_value ds else digits_value ds
        end
      else 0
  | EmptyString => 0
  end%Z.

(** The double nearest to the value of the longest prefix of [s] that is
    an unsigned decimal literal, NaN when there is none. *)
Definition unsigned_literal (neg : bool) (s : string) : number :=
  if starts_with "Infinity" s then Infinity neg
  else
    let '(ip, r1) := span_digits s in
    let '(fp, r2) := fraction_part r1 in
    match ip ++ fp with
    | [] => NaN
    | ds =>
        let m := digits_value ds in
        let e := (exponent_part r2 - Z.of_nat (length fp))%Z in
        round_double (decimal (if neg then - m else m) e)
    end.

(** [parseFloat(s)]: white space, an optional sign and a decimal literal;
    what follows the literal is ignored. *)
Definition parseFloat (s : string) : number :=
  let '(neg, s1) := take_sign (trimStart s) in unsigned_literal neg s1.

Definition hex_value (a : ascii) : option Z :=
  let n := nat_of_ascii a in
  if (48 <=? n)%nat && (n <=? 57)%nat then Some (Z.of_nat (n - 48))
  else if (97 <=? n)%nat && (n <=? 102)%nat then Some (Z.of_nat (n - 87))
  else if (65 <=? n)%nat && (n <=? 70)%nat then Some (Z.of_nat (n - 55))
  else None.

Fixpoint span_hex (s : string) : list Z * string :=
  match s with
  | String a s' =>
      match hex_value a with
      | Some v => let '(ds, r) := span_hex s' in (v :: ds, r)
      | None => ([], s)
      end
  | EmptyString => ([], s)
  end.

(** The double nearest to an integer. *)
Definition round_integral (z : Z) : integral :=
  match round_double (inject_Z z) with
  | NaN => INaN
  | Infinity s => IInfinity s
  | Fin q => Int (Qfloor q)
  end.

(** [parseInt(s)] with no radix argument. *)
Definition parseInt (s : string) : integral :=
  let '(neg, s1) := take_sign (trimStart s) in
  let signed (z : Z) := round_integral (if neg then - z else z) in
  if (starts_with "0x" s1 || starts_with "0X" s1)%bool then
    match fst (span_hex (String.substring 2 (String.length s1 - 2) s1)) with
    | [] => INaN
    | ds => signed (fold_left (fun acc d => 16 * acc + d)%Z ds 0%Z)
    end
  else
    match fst (span_digits s1) with
    | [] => INaN
    | ds => signed (digits_value ds)
    end.

(** *** Dates *)

Local Open Scope Z_scope.

Definition msPerDay : Z := 86400000.

(** Year, month (1..12) and day of the month of a day number counted from
    1970-01-01, in the proleptic Gregorian calendar. *)
Definition civil_from_days (days : Z) : Z * Z * Z :=
  let z := days + 719468 in
  let era := z / 146097 in
  let doe := z - era * 146097 in
  let yoe := (doe - doe / 1460 + doe / 36524 - doe / 146096) / 365 in
  let doy := doe - (365 * yoe + yoe / 4 - yoe / 100) in
  let mp := (5 * doy + 2) / 153 in
  let d := doy - (153 * mp + 2) / 5 + 1 in
  let m := if mp <? 10 then mp + 3 else mp - 9 in
  let y := yoe + era * 400 + (if m <=? 2 then 1 else 0) in
  (y, m, d).

Definition YearFromTime (t : Z) : Z := (civil_from_days (t / msPerDay)).1.1.
(** Zero-based, as [Date.prototype.getMonth] returns it. *)
Definition MonthFromTime (t : Z) : Z := (civil_from_days (t / msPerDay)).1.2 - 1.
Definition DateFromTime (t : Z) : Z := (civil_from_days (t / msPerDay)).2.

Definition pad (width : nat) (z : Z) : string := padStart width "0" (pretty z).

(** [new Date(t).toISOString()]. *)
Definition toISOString (t : Z) : string :=
  let '(y, m, d) := civil_from_days (t / msPerDay) in
  let ms := t mod msPerDay in
  let year :=
    if (0 <=? y) && (y <=? 9999) then pad 4 y
    else (if y <? 0 then "-" else "+") +:+ pad 6 (Z.abs y) in
  year +:+ "-" +:+ pad 2 m +:+ "-" +:+ pad 2 d +:+ "T" +:+
  pad 2 (ms / 3600000) +:+ ":" +:+ pad 2 (ms / 60000 mod 60) +:+ ":" +:+
  pad 2 (ms / 1000 mod 60) +:+ "." +:+ pad 3 (ms mod 1000) +:+ "Z".

(** Day number of a date, the inverse of [civil_from_days]. *)
Definition days_from_civil (y m d : Z) : Z :=
  let y' := if m <=? 2 then y - 1 else y in
  let era := y' / 400 in
  let yoe := y' - era * 400 in
  let doy := (153 * (if m <=? 2 then m + 9 else m - 3) + 2) / 5 + d - 1 in
  let doe := yoe * 365 + yoe / 4 - yoe / 100 + doy in
  era * 146097 + doe - 719468.

(** The number a string of digits writes; none if it holds anything else. *)
Definition digits_only (s : string) : option Z :=
  match span_digits s with
  | ((_ :: _) as ds, EmptyString) => Some (digits_value ds)
  | _ => None
  end.

(** The time value of a string in the format of [toISOString] with a
    four-digit year, NaN for every other string.  Engines accept more
    formats; the class only ever stores this one. *)
Definition parse_ISO (s : string) : number :=
  let field (start len : nat) := digits_only (String.substring start len s) in
  let separators :=
    String.substring 4 1 s +:+ String.substring 7 1 s +:+ String.substring 10 1 s
    +:+ String.substring 13 1 s +:+ String.substring 16 1 s
    +:+ String.substring 19 1 s +:+ String.substring 23 2 s in
  if (String.length s =? 24)%nat && String.eqb separators "--T::.Z" then
    match field 0%nat 4%nat, field 5%nat 2%nat, field 8%nat 2%nat,
          field 11%nat 2%nat, field 14%nat 2%nat, field 17%nat 2%nat,
          field 20%nat 3%nat with
    | Some y, Some mo, Some d, Some h, Some mi, Some sec, Some ms =>
        Fin (inject_Z (days_from_civil y mo d * msPerDay
                       + h * 3600000 + mi * 60000 + sec * 1000 + ms))
    | _, _, _, _, _, _, _ => NaN
    end
  else NaN.

End Js.

(** ** Form controls of the page *)

(** What the [value] of a control is once a text has been put in it.  The
    page has a text input, a [<select>], an [<input type="number">] and a
    [<textarea>]. *)
Module Html.

Definition is_newline (a : ascii) : bool :=
  let n := nat_of_ascii a in (n =? 10)%nat || (n =? 13)%nat.

(** A text input strips line breaks. *)
Fixpoint strip_newlines (s : string) : string :=
  match s with
  | EmptyString => EmptyString
  | String a s' => if is_newline a then strip_newlines s' else String a (strip_newlines s')
  end.

(** A [<textarea>] gives every line break as a line feed. *)
Fixpoint normalize_newlines (s : string) : string :=
  match s with
  | EmptyString => EmptyString
  | String a s' =>
      if (nat_of_ascii a =? 13)%nat then
        match s' with
        | String b s'' =>
            if (nat_of_ascii b =? 10)%nat then String b (normalize_newlines s'')
            else String "010" (normalize_newlines s')
        | EmptyString => String "010" EmptyString
        end
      else String a (normalize_newlines s')
  end.

(** The exponent of a valid floating-point number: nothing, or [e] or [E],
    an optional sign and digits up to the end. *)
Definition valid_exponent (s : string) : bool :=
  match s with
  | EmptyString => true
  | String c r =>
      (Ascii.eqb c "e" || Ascii.eqb c "E")
      && match Js.span_digits (Js.take_sign r).2 with
         | (_ :: _, EmptyString) => true
         | _ => false
         end
  end.

(** Digits, or a full stop with digits after it, or both, then an optional
    exponent. *)
Definition valid_unsigned (s : string) : bool :=
  let '(ip, r1) := Js.span_digits s in
  match r1 with
  | String c r =>
      if Ascii.eqb c "." then
        let '(fp, r2) := Js.span_digits r in
        match fp with
        | [] => false
        | _ :: _ => valid_exponent r2
        end
      else
        match ip with
        | [] => false
        | _ :: _ => valid_exponent r1
        end
  | EmptyString =>
      match ip with
      | [] => false
      | _ :: _ => true
      end
  end.

(** A valid floating-point number: an optional minus and the above. *)
Definition valid_floating_point_number (s : string) : bool :=
  match s with
  | String c r => if Ascii.eqb c "-" then valid_unsigned r else valid_unsigned s
  | EmptyString => false
  end.

(** The value sanitization of [<input type="number">]. *)
Definition number_value (text : string) : string :=
  if valid_floating_point_number text then text else "".

(** The value of a [<select>] is that of the option chosen; a text that is
    the value of no option selects none. *)
Definition select_value (options : list string) (text : string) : string :=
  if existsb (String.eqb text) options then text else "".

End Html.

(** ** Data model *)

(** Values of telemetry properties. *)
Inductive value :=
| VNull
| VUndefined
| VBool (b : bool)
| VNum (n : Js.number)
| VStr (s : string).

Definition of_nullable (o : option string) : value :=
  match o with
  | None => VNull
  | Some s => VStr s
  end.

(** The argument of each tracking call of the SDK. *)
Inductive Telemetry :=
| TrackEvent (name : string) (properties : list (string * value))
    (measurements : list (string * Js.number))
| TrackPageView (name uri : string) (properties : list (string * value))
    (measurements : list (string * Js.number))
| TrackMetric (name : string) (val : Js.number) (properties : list (string * value))
| TrackException (message : string) (properties : list (string * value))
| TrackPageViewPerformance (name url : string) (timings : list (string * Js.number)).

Definition event_name (t : Telemetry) : string :=
  match t with
  | TrackEvent n _ _ => n
  | TrackPageView n _ _ _ => n
  | TrackMetric n _ _ => n
  | TrackException _ _ => "Exception"
  | TrackPageViewPerformance n _ _ => n
  end.

(** The telemetry initializer registered by [initializeTracking] tags every
    envelope with the ids of the manager that registered it. *)
Record Initializer := { tag_sessionId : string; tag_userId : string }.

(** The SDK object: the items handed to it, oldest first, and its
    initializers. *)
Record Sdk := { sent : list Telemetry; initializers : list Initializer }.

Record Panel := { className : string; textContent : string; display : string }.

(** The elements of the page the class touches, by element id. *)
Record Document := {
  pageViews_text : string;  (* textContent of #pageViews *)
  quoteRequests_text : string;
  applicationsStarted_text : string;
  applicationsCompleted_text : string;
  policiesSold_text : string;
  customerName : string;  (* value of the text input *)
  insuranceType : string;  (* value of the select *)
  coverageAmount : string;  (* value of the number input *)
  applicationId : string;  (* value of the read-only quote id input *)
  personalInfo : string;  (* value of the textarea *)
  startAppBtn : bool;  (* disabled *)
  completeAppBtn : bool;  (* disabled *)
  purchaseBtn : bool;  (* disabled *)
  statusDisplay : Panel;
  abTestResults : Panel;
  deviceInfo_display : string;  (* style.display of #deviceInfo *)
  cohortInfo_display : string;  (* style.display of #cohortInfo *)
}.

(** [this.metrics]. *)
Record Metrics := {
  pageViews : nat;
  quoteRequests : nat;
  applicationsStarted : nat;
  applicationsCompleted : nat;
  policiesSold : nat;
}.

(** The fields of an [AnalyticsManager] instance. *)
Record AnalyticsManager := {
  sessionId : string;
  userId : string;
  pageViewCount : nat;
  sessionStartTime : Z;
  currentQuoteId : option string;  (* null is None *)
  currentApplicationId : option string;
  metrics : Metrics;
}.

(** What [trackDeviceInfo] reads from [navigator], [screen], [window] and
    [Intl]. *)
Record Device := {
  userAgent : string;
  platform : string;
  language : string;
  screenResolution : string;
  viewport : string;
  colorDepth : Js.number;
  timeZone : string
}.

(** The browser around the instance: storage, page, SDK and the sources of
    time and randomness. *)
Record Browser := {
  localStorage : gmap string string;
  document : Document;
  appInsights : option Sdk;  (* window.appInsights; None when the SDK is not loaded *)
  clock : nat -> Z;  (* successive readings of the system clock, in ms *)
  ticks : nat;  (* clock readings consumed so far *)
  random : nat -> Q;  (* successive results of Math.random() *)
  draws : nat;  (* random draws consumed so far *)
  toString36 : Q -> string;  (* Number.prototype.toString(36), engine defined *)
  Date_parse : string -> Js.number;  (* time value of new Date(string), engine defined *)
  localTZA : Z -> Z;  (* offset of local time from UTC at a time value, in ms *)
  device : Device;
  location_href : string;
}.

Record World := { this : AnalyticsManager; window : Browser }.

(** *** Field updates *)

Definition set_pageViews_text (v : string) (d : Document) : Document :=
  {| pageViews_text := v; quoteRequests_text := quoteRequests_text d;
     applicationsStarted_text := applicationsStarted_text d;
     applicationsCompleted_text := applicationsCompleted_text d;
     policiesSold_text := policiesSold_text d;
     customerName := customerName d; insuranceType := insuranceType d;
     coverageAmount := coverageAmount d; applicationId := applicationId d;
     personalInfo := personalInfo d; startAppBtn := startAppBtn d;
     completeAppBtn := completeAppBtn d; purchaseBtn := purchaseBtn d;
     statusDisplay := statusDisplay d; abTestResults := abTestResults d;
     deviceInfo_display := deviceInfo_display d;
     cohortInfo_display := cohortInfo_display d |}.

Definition set_quoteRequests_text (v : string) (d : Document) : Document :=
  {| pageViews_text := pageViews_text d; quoteRequests_text := v;
     applicationsStarted_text := applicationsStarted_text d;
     applicationsCompleted_text := applicationsCompleted_text d;
     policiesSold_text := policiesSold_text d;
     customerName := customerName d; insuranceType := insuranceType d;
     coverageAmount := coverageAmount d; applicationId := applicationId d;
     personalInfo := personalInfo d; startAppBtn := startAppBtn d;
     completeAppBtn := completeAppBtn d; purchaseBtn := purchaseBtn d;
     statusDisplay := statusDisplay d; abTestResults := abTestResults d;
     deviceInfo_display := deviceInfo_display d;
     cohortInfo_display := cohortInfo_display d |}.

Definition set_applicationsStarted_text (v : string) (d : Document) : Document :=
  {| pageViews_text := pageViews_text d;
     quoteRequests_text := quoteRequests_text d;
     applicationsStarted_text := v;
     applicationsCompleted_text := applicationsCompleted_text d;
     policiesSold_text := policiesSold_text d;
     customerName := customerName d; insuranceType := insuranceType d;
     coverageAmount := coverageAmount d; applicationId := applicationId d;
     personalInfo := personalInfo d; startAppBtn := startAppBtn d;
     completeAppBtn := completeAppBtn d; purchaseBtn := purchaseBtn d;
     statusDisplay := statusDisplay d; abTestResults := abTestResults d;
     deviceInfo_display := deviceInfo_display d;
     cohortInfo_display := cohortInfo_display d |}.

Definition set_applicationsCompleted_text (v : string) (d : Document) : Document :=
  {| pageViews_text := pageViews_text d;
     quoteRequests_text := quoteRequests_text d;
     applicationsStarted_text := applicationsStarted_text d;
     applicationsCompleted_text := v;
     policiesSold_text := policiesSold_text d;
     customerName := customerName d; insuranceType := insuranceType d;
     coverageAmount := coverageAmount d; applicationId := applicationId d;
     personalInfo := personalInfo d; startAppBtn := startAppBtn d;
     completeAppBtn := completeAppBtn d; purchaseBtn := purchaseBtn d;
     statusDisplay := statusDisplay d; abTestResults := abTestResults d;
     deviceInfo_display := deviceInfo_display d;
     cohortInfo_display := cohortInfo_display d |}.

Definition set_policiesSold_text (v : string) (d : Document) : Document :=
  {| pageViews_text := pageViews_text d;
     quoteRequests_text := quoteRequests_text d;
     applicationsStarted_text := applicationsStarted_text d;
     applicationsCompleted_text := applicationsCompleted_text d;
     policiesSold_text := v; customerName := customerName d;
     insuranceType := insuranceType d; coverageAmount := coverageAmount d;
     applicationId := applicationId d; personalInfo := personalInfo d;
     startAppBtn := startAppBtn d; completeAppBtn := completeAppBtn d;
     purchaseBtn := purchaseBtn d; statusDisplay := statusDisplay d;
     abTestResults := abTestResults d;
     deviceInfo_display := deviceInfo_display d;
     cohortInfo_display := cohortInfo_display d |}.

Definition set_customerName (v : string) (d : Document) : Document :=
  {| pageViews_text := pageViews_text d;
     quoteRequests_text := quoteRequests_text d;
     applicationsStarted_text := applicationsStarted_text d;
     applicationsCompleted_text := applicationsCompleted_text d;
     policiesSold_text := policiesSold_text d; customerName := v;
     insuranceType := insuranceType d; coverageAmount := coverageAmount d;
     applicationId := applicationId d; personalInfo := personalInfo d;
     startAppBtn := startAppBtn d; completeAppBtn := completeAppBtn d;
     purchaseBtn := purchaseBtn d; statusDisplay := statusDisplay d;
     abTestResults := abTestResults d;
     deviceInfo_display := deviceInfo_display d;
     cohortInfo_display := cohortInfo_display d |}.

Definition set_insuranceType (v : string) (d : Document) : Document :=
  {| pageViews_text := pageViews_text d;
     quoteRequests_text := quoteRequests_text d;
     applicationsStarted_text := applicationsStarted_text d;
     applicationsCompleted_text := applicationsCompleted_text d;
     policiesSold_text := policiesSold_text d;
     customerName := customerName d; insuranceType := v;
     coverageAmount := coverageAmount d; applicationId := applicationId d;
     personalInfo := personalInfo d; startAppBtn := startAppBtn d;
     completeAppBtn := completeAppBtn d; purchaseBtn := purchaseBtn d;
     statusDisplay := statusDisplay d; abTestResults := abTestResults d;
     deviceInfo_display := deviceInfo_display d;
     cohortInfo_display := cohortInfo_display d |}.

Definition set_coverageAmount (v : string) (d : Document) : Document :=
  {| pageViews_text := pageViews_text d;
     quoteRequests_text := quoteRequests_text d;
     applicationsStarted_text := applicationsStarted_text d;
     applicationsCompleted_text := applicationsCompleted_text d;
     policiesSold_text := policiesSold_text d;
     customerName := customerName d; insuranceType := insuranceType d;
     coverageAmount := v; applicationId := applicationId d;
     personalInfo := personalInfo d; startAppBtn := startAppBtn d;
     completeAppBtn := completeAppBtn d; purchaseBtn := purchaseBtn d;
     statusDisplay := statusDisplay d; abTestResults := abTestResults d;
     deviceInfo_display := deviceInfo_display d;
     cohortInfo_display := cohortInfo_display d |}.

Definition set_applicationId (v : string) (d : Document) : Document :=
  {| pageViews_text := pageViews_text d;
     quoteRequests_text := quoteRequests_text d;
     applicationsStarted_text := applicationsStarted_text d;
     applicationsCompleted_text := applicationsCompleted_text d;
     policiesSold_text := policiesSold_text d;
     customerName := customerName d; insuranceType := insuranceType d;
     coverageAmount := coverageAmount d; applicationId := v;
     personalInfo := personalInfo d; startAppBtn := startAppBtn d;
     completeAppBtn := completeAppBtn d; purchaseBtn := purchaseBtn d;
     statusDisplay := statusDisplay d; abTestResults := abTestResults d;
     deviceInfo_display := deviceInfo_display d;
     cohortInfo_display := cohortInfo_display d |}.

Definition set_personalInfo (v : string) (d : Document) : Document :=
  {| pageViews_text := pageViews_text d;
     quoteRequests_text := quoteRequests_text d;
     applicationsStarted_text := applicationsStarted_text d;
     applicationsCompleted_text := applicationsCompleted_text d;
     policiesSold_text := policiesSold_text d;
     customerName := customerName d; insuranceType := insuranceType d;
     coverageAmount := coverageAmount d; applicationId := applicationId d;
     personalInfo := v; startAppBtn := startAppBtn d;
     completeAppBtn := completeAppBtn d; purchaseBtn := purchaseBtn d;
     statusDisplay := statusDisplay d; abTestResults := abTestResults d;
     deviceInfo_display := deviceInfo_display d;
     cohortInfo_display := cohortInfo_display d |}.

Definition set_startAppBtn (v : bool) (d : Document) : Document :=
  {| pageViews_text := pageViews_text d;
     quoteRequests_text := quoteRequests_text d;
     applicationsStarted_text := applicationsStarted_text d;
     applicationsCompleted_text := applicationsCompleted_text d;
     policiesSold_text := policiesSold_text d;
     customerName := customerName d; insuranceType := insuranceType d;
     coverageAmount := coverageAmount d; applicationId := applicationId d;
     personalInfo := personalInfo d; startAppBtn := v;
     completeAppBtn := completeAppBtn d; purchaseBtn := purchaseBtn d;
     statusDisplay := statusDisplay d; abTestResults := abTestResults d;
     deviceInfo_display := deviceInfo_display d;
     cohortInfo_display := cohortInfo_display d |}.

Definition set_completeAppBtn (v : bool) (d : Document) : Document :=
  {| pageViews_text := pageViews_text d;
     quoteRequests_text := quoteRequests_text d;
     applicationsStarted_text := applicationsStarted_text d;
     applicationsCompleted_text := applicationsCompleted_text d;
     policiesSold_text := policiesSold_text d;
     customerName := customerName d; insuranceType := insuranceType d;
     coverageAmount := coverageAmount d; applicationId := applicationId d;
     personalInfo := personalInfo d; startAppBtn := startAppBtn d;
     completeAppBtn := v; purchaseBtn := purchaseBtn d;
     statusDisplay := statusDisplay d; abTestResults := abTestResults d;
     deviceInfo_display := deviceInfo_display d;
     cohortInfo_display := cohortInfo_display d |}.

Definition set_purchaseBtn (v : bool) (d : Document) : Document :=
  {| pageViews_text := pageViews_text d;
     quoteRequests_text := quoteRequests_text d;
     applicationsStarted_text := applicationsStarted_text d;
     applicationsCompleted_text := applicationsCompleted_text d;
     policiesSold_text := policiesSold_text d;
     customerName := customerName d; insuranceType := insuranceType d;
     coverageAmount := coverageAmount d; applicationId := applicationId d;
     personalInfo := personalInfo d; startAppBtn := startAppBtn d;
     completeAppBtn := completeAppBtn d; purchaseBtn := v;
     statusDisplay := statusDisplay d; abTestResults := abTestResults d;
     deviceInfo_display := deviceInfo_display d;
     cohortInfo_display := cohortInfo_display d |}.

Definition set_statusDisplay (v : Panel) (d : Document) : Document :=
  {| pageViews_text := pageViews_text d;
     quoteRequests_text := quoteRequests_text d;
     applicationsStarted_text := applicationsStarted_text d;
     applicationsCompleted_text := applicationsCompleted_text d;
     policiesSold_text := policiesSold_text d;
     customerName := customerName d; insuranceType := insuranceType d;
     coverageAmount := coverageAmount d; applicationId := applicationId d;
     personalInfo := personalInfo d; startAppBtn := startAppBtn d;
     completeAppBtn := completeAppBtn d; purchaseBtn := purchaseBtn d;
     statusDisplay := v; abTestResults := abTestResults d;
     deviceInfo_display := deviceInfo_display d;
     cohortInfo_display := cohortInfo_display d |}.

Definition set_abTestResults (v : Panel) (d : Document) : Document :=
  {| pageViews_text := pageViews_text d;
     quoteRequests_text := quoteRequests_text d;
     applicationsStarted_text := applicationsStarted_text d;
     applicationsCompleted_text := applicationsCompleted_text d;
     policiesSold_text := policiesSold_text d;
     customerName := customerName d; insuranceType := insuranceType d;
     coverageAmount := coverageAmount d; applicationId := applicationId d;
     personalInfo := personalInfo d; startAppBtn := startAppBtn d;
     completeAppBtn := completeAppBtn d; purchaseBtn := purchaseBtn d;
     statusDisplay := statusDisplay d; abTestResults := v;
     deviceInfo_display := deviceInfo_display d;
     cohortInfo_display := cohortInfo_display d |}.

Definition set_deviceInfo_display (v : string) (d : Document) : Document :=
  {| pageViews_text := pageViews_text d;
     quoteRequests_text := quoteRequests_text d;
     applicationsStarted_text := applicationsStarted_text d;
     applicationsCompleted_text := applicationsCompleted_text d;
     policiesSold_text := policiesSold_text d;
     customerName := customerName d; insuranceType := insuranceType d;
     coverageAmount := coverageAmount d; applicationId := applicationId d;
     personalInfo := personalInfo d; startAppBtn := startAppBtn d;
     completeAppBtn := completeAppBtn d; purchaseBtn := purchaseBtn d;
     statusDisplay := statusDisplay d; abTestResults := abTestResults d;
     deviceInfo_display := v; cohortInfo_display := cohortInfo_display d |}.

Definition set_cohortInfo_display (v : string) (d : Document) : Document :=
  {| pageViews_text := pageViews_text d;
     quoteRequests_text := quoteRequests_text d;
     applicationsStarted_text := applicationsStarted_text d;
     applicationsCompleted_text := applicationsCompleted_text d;
     policiesSold_text := policiesSold_text d;
     customerName := customerName d; insuranceType := insuranceType d;
     coverageAmount := coverageAmount d; applicationId := applicationId d;
     personalInfo := personalInfo d; startAppBtn := startAppBtn d;
     completeAppBtn := completeAppBtn d; purchaseBtn := purchaseBtn d;
     statusDisplay := statusDisplay d; abTestResults := abTestResults d;
     deviceInfo_display := deviceInfo_display d; cohortInfo_display := v |}.

Definition set_pageViews (v : nat) (m : Metrics) : Metrics :=
  {| pageViews := v; quoteRequests := quoteRequests m;
     applicationsStarted := applicationsStarted m;
     applicationsCompleted := applicationsCompleted m;
     policiesSold := policiesSold m |}.

Definition set_quoteRequests (v : nat) (m : Metrics) : Metrics :=
  {| pageViews := pageViews m; quoteRequests := v;
     applicationsStarted := applicationsStarted m;
     applicationsCompleted := applicationsCompleted m;
     policiesSold := policiesSold m |}.

Definition set_applicationsStarted (v : nat) (m : Metrics) : Metrics :=
  {| pageViews := pageViews m; quoteRequests := quoteRequests m;
     applicationsStarted := v;
     applicationsCompleted := applicationsCompleted m;
     policiesSold := policiesSold m |}.

Definition set_applicationsCompleted (v : nat) (m : Metrics) : Metrics :=
  {| pageViews := pageViews m; quoteRequests := quoteRequests m;
     applicationsStarted := applicationsStarted m;
     applicationsCompleted := v; policiesSold := policiesSold m |}.

Definition set_policiesSold (v : nat) (m : Metrics) : Metrics :=
  {| pageViews := pageViews m; quoteRequests := quoteRequests m;
     applicationsStarted := applicationsStarted m;
     applicationsCompleted := applicationsCompleted m; policiesSold := v |}.

Definition set_pageViewCount (v : nat) (a : AnalyticsManager) : AnalyticsManager :=
  {| sessionId := sessionId a; userId := userId a; pageViewCount := v;
     sessionStartTime := sessionStartTime a;
     currentQuoteId := currentQuoteId a;
     currentApplicationId := currentApplicationId a; metrics := metrics a |}.

Definition set_currentQuoteId (v : option string) (a : AnalyticsManager) : AnalyticsManager :=
  {| sessionId := sessionId a; userId := userId a;
     pageViewCount := pageViewCount a;
     sessionStartTime := sessionStartTime a; currentQuoteId := v;
     currentApplicationId := currentApplicationId a; metrics := metrics a |}.

Definition set_currentApplicationId (v : option string) (a : AnalyticsManager) : AnalyticsManager :=
  {| sessionId := sessionId a; userId := userId a;
     pageViewCount := pageViewCount a;
     sessionStartTime := sessionStartTime a;
     currentQuoteId := currentQuoteId a; currentApplicationId := v;
     metrics := metrics a |}.

Definition set_metrics (v : Metrics) (a : AnalyticsManager) : AnalyticsManager :=
  {| sessionId := sessionId a; userId := userId a;
     pageViewCount := pageViewCount a;
     sessionStartTime := sessionStartTime a;
     currentQuoteId := currentQuoteId a;
     currentApplicationId := currentApplicationId a; metrics := v |}.

Definition set_localStorage (v : gmap string string) (b : Browser) : Browser :=
  {| localStorage := v; document := document b;
     appInsights := appInsights b; clock := clock b; ticks := ticks b;
     random := random b; draws := draws b; toString36 := toString36 b;
     Date_parse := Date_parse b; localTZA := localTZA b; device := device b;
     location_href := location_href b |}.

Definition set_document (v : Document) (b : Browser) : Browser :=
  {| localStorage := localStorage b; document := v;
     appInsights := appInsights b; clock := clock b; ticks := ticks b;
     random := random b; draws := draws b; toString36 := toString36 b;
     Date_parse := Date_parse b; localTZA := localTZA b; device := device b;
     location_href := location_href b |}.

Definition set_appInsights (v : option Sdk) (b : Browser) : Browser :=
  {| localStorage := localStorage b; document := document b;
     appInsights := v; clock := clock b; ticks := ticks b;
     random := random b; draws := draws b; toString36 := toString36 b;
     Date_parse := Date_parse b; localTZA := localTZA b; device := device b;
     location_href := location_href b |}.

Definition set_ticks (v : nat) (b : Browser) : Browser :=
  {| localStorage := localStorage b; document := document b;
     appInsights := appInsights b; clock := clock b; ticks := v;
     random := random b; draws := draws b; toString36 := toString36 b;
     Date_parse := Date_parse b; localTZA := localTZA b; device := device b;
     location_href := location_href b |}.

Definition set_draws (v : nat) (b : Browser) : Browser :=
  {| localStorage := localStorage b; document := document b;
     appInsights := appInsights b; clock := clock b; ticks := ticks b;
     random := random b; draws := v; toString36 := toString36 b;
     Date_parse := Date_parse b; localTZA := localTZA b; device := device b;
     location_href := location_href b |}.

Definition set_this (v : AnalyticsManager) (w : World) : World :=
  {| this := v; window := window w |}.

Definition set_window (v : Browser) (w : World) : World :=
  {| this := this w; window := v |}.

(** ** State threading *)

Definition State (S A : Type) : Type := S → A * S.

Global Instance State_ret {S} : MRet (State S) := λ A a s, (a, s).

Global Instance State_bind {S} : MBind (State S) :=
  λ A B k m s, let r := m s in k r.1 r.2.

Definition gets {S A} (f : S → A) : State S A := λ s, (f s, s).
Definition modify {S} (f : S → S) : State S unit := λ s, (tt, f s).
Definition when {S} (c : bool) (m : State S unit) : State S unit :=
  if c then m else mret tt.

(** The state after a computation, and its result. *)
Definition exec {S A} (m : State S A) (s : S) : S := (m s).2.
Definition eval {S A} (m : State S A) (s : S) : A := (m s).1.

(** A browser facility used from a method. *)
Definition lift {A} (m : State Browser A) : State World A :=
  λ w, let r := m (window w) in (r.1, set_window r.2 w).

Definition modify_this (f : AnalyticsManager → AnalyticsManager) : State World unit :=
  modify (λ w, set_this (f (this w)) w).

Definition modify_metrics (f : Metrics → Metrics) : State World unit :=
  modify_this (λ a, set_metrics (f (metrics a)) a).

(** ** Browser facilities *)

Definition Date_now : State Browser Z :=
  λ b, (clock b (ticks b), set_ticks (S (ticks b)) b).

(** The time value of [new Date()]. *)
Definition new_Date : State Browser Z := Date_now.

Definition Math_random : State Browser Q :=
  λ b, (random b (draws b), set_draws (S (draws b)) b).

Definition getItem (key : string) : State Browser (option string) :=
  gets (λ b, localStorage b !! key).

Definition setItem (key val : string) : State Browser unit :=
  modify (λ b, set_localStorage (<[key:=val]> (localStorage b)) b).

Definition removeItem (key : string) : State Browser unit :=
  modify (λ b, set_localStorage (delete key (localStorage b)) b).

(** The test [if (window.appInsights)]. *)
Definition window_appInsights : State Browser bool :=
  gets (λ b, match appInsights b with Some _ => true | None => false end).

(** A tracking call on the SDK object. *)
Definition track (t : Telemetry) : State Browser unit :=
  modify (λ b,
    set_appInsights
      (sdk ← appInsights b;
       Some {| sent := sent sdk ++ [t]; initializers := initializers sdk |}) b).

Definition addTelemetryInitializer (i : Initializer) : State Browser unit :=
  modify (λ b,
    set_appInsights
      (sdk ← appInsights b;
       Some {| sent := sent sdk; initializers := initializers sdk ++ [i] |}) b).

Definition modify_document (f : Document → Document) : State Browser unit :=
  modify (λ b, set_document (f (document b)) b).

(** The items handed to the SDK so far; none when it is not loaded. *)
Definition telemetry (b : Browser) : list Telemetry :=
  match appInsights b with
  | Some sdk => sent sdk
  | None => []
  end.

(** ** The class *)

(** [showStatus(message, type)]; the status line hides itself after five
    seconds through a timer. *)
Definition showStatus (message type : string) : State Browser unit :=
  modify_document
    (set_statusDisplay
       {| className := "status " +:+ type; textContent := message; display := "block" |}).

Definition generateSessionId : State Browser string :=
  now ← Date_now;
  r ← Math_random;
  str ← gets (λ b, toString36 b r);
  mret ("session_" +:+ Js.Z_toString now +:+ "_" +:+ Js.substr 2 9 str).

Definition getOrCreateUserId : State Browser string :=
  userId ← getItem "app_insights_user_id";
  if negb (Js.truthy userId) then
    now ← Date_now;
    r ← Math_random;
    str ← gets (λ b, toString36 b r);
    let userId := "user_" +:+ Js.Z_toString now +:+ "_" +:+ Js.substr 2 9 str in
    setItem "app_insights_user_id" userId;;
    mret userId
  else mret (default "" userId).

Definition trackDeviceInfo : State World unit :=
  dev ← lift (gets device);
  a ← gets this;
  sdk ← lift window_appInsights;
  when sdk (lift (track (TrackEvent "DeviceInfo"
    [("userAgent", VStr (userAgent dev)); ("platform", VStr (platform dev));
     ("language", VStr (language dev));
     ("screenResolution", VStr (screenResolution dev));
     ("viewport", VStr (viewport dev)); ("colorDepth", VNum (colorDepth dev));
     ("timeZone", VStr (timeZone dev)); ("sessionId", VStr (sessionId a))]
    [])));;
  lift (modify_document (set_deviceInfo_display "block")).

Definition initializeTracking : State World unit :=
  a ← gets this;
  sdk ← lift window_appInsights;
  when sdk (lift (addTelemetryInitializer
    {| tag_sessionId := sessionId a; tag_userId := userId a |}));;
  trackDeviceInfo.

(** [setInterval] only refreshes the time-on-page display. *)
Definition startSessionTimer : State World unit := mret tt.

(** [new AnalyticsManager()] in a browser; the [try] around the body of
    the constructor only logs. *)
Definition new_AnalyticsManager (b : Browser) : World :=
  let r1 := generateSessionId b in
  let r2 := getOrCreateUserId r1.2 in
  let r3 := Date_now r2.2 in
  let a :=
    {| sessionId := r1.1; userId := r2.1; pageViewCount := 0;
       sessionStartTime := r3.1;
       currentQuoteId := None; currentApplicationId := None;
       metrics := {| pageViews := 0; quoteRequests := 0; applicationsStarted := 0;
                     applicationsCompleted := 0; policiesSold := 0 |} |} in
  exec (initializeTracking;; startSessionTimer) {| this := a; window := r3.2 |}.

(** *** Web metrics *)

Definition trackPageView (pageName : string) : State World unit :=
  modify_this (λ a, set_pageViewCount (S (pageViewCount a)) a);;
  modify_metrics (λ m, set_pageViews (S (pageViews m)) m);;
  href ← lift (gets location_href);
  now ← lift Date_now;
  a ← gets this;
  let duration := Js.sub_Z now (sessionStartTime a) in
  let isFirstView := (pageViewCount a =? 1)%nat in
  sdk ← lift window_appInsights;
  when sdk (lift (track (TrackPageView pageName href
    [("sessionId", VStr (sessionId a));
     ("pageNumber", VNum (Js.of_nat (pageViewCount a)));
     ("isFirstView", VBool isFirstView)]
    [("timeOnPage", duration)])));;
  lift (modify_document (set_pageViews_text (Js.nat_toString (pageViews (metrics a)))));;
  lift (showStatus ("Page view tracked: " +:+ pageName) "success").

Definition simulateNewVisitor : State World unit :=
  lift (removeItem "app_insights_user_id");;
  lift (removeItem "visitor_type");;
  lift (setItem "visitor_type" "new");;
  _ ← lift new_Date;
  a ← gets this;
  sdk ← lift window_appInsights;
  when sdk (lift (track (TrackEvent "NewVisitorAcquisition"
    [("visitorType", VStr "new"); ("trafficSource", VStr "organic");
     ("sessionId", VStr (sessionId a))]
    [])));;
  lift (showStatus "New visitor simulation tracked" "success").

Definition simulateReturningVisitor : State World unit :=
  lift (setItem "visitor_type" "returning");;
  lastVisit ← lift (getItem "last_visit");
  daysSinceLastVisit ←
    (if Js.truthy lastVisit then
       now ← lift Date_now;
       mret (Js.Math_floor (Js.div_pos
         (Js.sub (Js.of_Z now) (Js.of_integral (Js.parseInt (default "" lastVisit))))
         86400000))
     else mret (Js.Int 0));
  _ ← lift new_Date;
  a ← gets this;
  sdk ← lift window_appInsights;
  when sdk (lift (track (TrackEvent "ReturningVisitorEngagement"
    [("visitorType", VStr "returning"); ("sessionId", VStr (sessionId a))]
    [("daysSinceLastVisit", Js.of_integral daysSinceLastVisit)])));;
  now ← lift Date_now;
  lift (setItem "last_visit" (Js.Z_toString now));;
  lift (showStatus
    ("Returning visitor tracked (" +:+ Js.integral_toString daysSinceLastVisit
       +:+ " days since last visit)") "success").

Definition simulateBounce : State World unit :=
  now ← lift Date_now;
  a ← gets this;
  let timeOnPage := Js.sub_Z now (sessionStartTime a) in
  sdk ← lift window_appInsights;
  when sdk (lift (track (TrackEvent "BounceEvent"
    [("exitReason", VStr "immediate_exit"); ("sessionId", VStr (sessionId a))]
    [("timeOnPageMs", timeOnPage);
     ("pageViewsInSession", Js.of_nat (pageViewCount a))])));;
  lift (showStatus "Bounce event tracked (user left immediately)" "error").

Definition trackTimeOnPage : State World unit :=
  now ← lift Date_now;
  a ← gets this;
  let timeOnPage := Js.sub_Z now (sessionStartTime a) in
  sdk ← lift window_appInsights;
  when sdk (lift (track (TrackMetric "TimeOnPage" timeOnPage
    [("sessionId", VStr (sessionId a)); ("pageName", VStr "Home")])));;
  lift (showStatus
    ("Time on page tracked: "
       +:+ Js.integral_toString (Js.Math_floor (Js.div_pos timeOnPage 1000))
       +:+ " seconds")
    "success").

(** *** Purchase journey *)

Definition submitQuoteRequest : State World unit :=
  customerName ← lift (gets (customerName ∘ document));
  insuranceType ← lift (gets (insuranceType ∘ document));
  coverageAmount ← lift (gets (coverageAmount ∘ document));
  if negb (Js.truthy_string customerName) || negb (Js.truthy_string insuranceType)
     || negb (Js.truthy_string coverageAmount)
  then lift (showStatus "Please fill in all fields" "error")
  else
    now ← lift Date_now;
    let quoteId := "quote_" +:+ Js.Z_toString now in
    modify_this (set_currentQuoteId (Some quoteId));;
    modify_metrics (λ m, set_quoteRequests (S (quoteRequests m)) m);;
    _ ← lift new_Date;
    a ← gets this;
    sdk ← lift window_appInsights;
    when sdk (lift (track (TrackEvent "QuoteRequested"
      [("quoteId", of_nullable (currentQuoteId a));
       ("insuranceType", VStr insuranceType);
       ("sessionId", VStr (sessionId a))]
      [("coverageAmount", Js.parseFloat coverageAmount)])));;
    lift (modify_document (λ d,
      set_startAppBtn false
        (set_applicationId quoteId
           (set_quoteRequests_text (Js.nat_toString (quoteRequests (metrics a))) d))));;
    lift (showStatus ("Quote request submitted: " +:+ quoteId) "success").

Definition startApplication : State World unit :=
  a ← gets this;
  if negb (Js.truthy (currentQuoteId a))
  then lift (showStatus "Please request a quote first" "error")
  else
    now ← lift Date_now;
    modify_this (set_currentApplicationId (Some ("app_" +:+ Js.Z_toString now)));;
    modify_metrics (λ m, set_applicationsStarted (S (applicationsStarted m)) m);;
    _ ← lift new_Date;
    a ← gets this;
    sdk ← lift window_appInsights;
    when sdk (
      lift (track (TrackEvent "ApplicationStarted"
        [("applicationId", of_nullable (currentApplicationId a));
         ("quoteId", of_nullable (currentQuoteId a));
         ("sessionId", VStr (sessionId a))]
        []));;
      lift (track (TrackEvent "FunnelStep"
        [("step", VStr "application_started");
         ("funnelId", of_nullable (currentQuoteId a));
         ("sessionId", VStr (sessionId a))]
        [])));;
    lift (modify_document (λ d,
      set_completeAppBtn false
        (set_applicationsStarted_text
           (Js.nat_toString (applicationsStarted (metrics a))) d)));;
    lift (showStatus "Application started successfully" "success").

Definition completeApplication : State World unit :=
  a ← gets this;
  if negb (Js.truthy (currentApplicationId a))
  then lift (showStatus "Please start an application first" "error")
  else
    personalInfo ← lift (gets (personalInfo ∘ document));
    if negb (Js.truthy_string personalInfo)
    then lift (showStatus "Please fill in personal information" "error")
    else
      modify_metrics (λ m, set_applicationsCompleted (S (applicationsCompleted m)) m);;
      now ← lift Date_now;
      a ← gets this;
      let timeToComplete := Js.sub_Z now (sessionStartTime a) in
      _ ← lift new_Date;
      sdk ← lift window_appInsights;
      when sdk (
        lift (track (TrackEvent "ApplicationCompleted"
          [("applicationId", of_nullable (currentApplicationId a));
           ("quoteId", of_nullable (currentQuoteId a));
           ("sessionId", VStr (sessionId a))]
          [("timeToCompleteMs", timeToComplete)]));;
        lift (track (TrackEvent "FunnelStep"
          [("step", VStr "application_completed");
           ("funnelId", of_nullable (currentQuoteId a));
           ("sessionId", VStr (sessionId a))]
          [])));;
      lift (modify_document (λ d,
        set_purchaseBtn false
          (set_applicationsCompleted_text
             (Js.nat_toString (applicationsCompleted (metrics a))) d)));;
      lift (showStatus "Application completed successfully" "success").

Definition resetPurchaseJourney : State World unit :=
  modify_this (set_currentQuoteId None);;
  modify_this (set_currentApplicationId None);;
  lift (modify_document (λ d,
    set_purchaseBtn true (set_completeAppBtn true (set_startAppBtn true
      (set_personalInfo "" (set_applicationId "" (set_coverageAmount ""
        (set_insuranceType "" (set_customerName "" d))))))))).

Definition purchasePolicy : State World unit :=
  a ← gets this;
  if negb (Js.truthy (currentApplicationId a))
  then lift (showStatus "Please complete an application first" "error")
  else
    now ← lift Date_now;
    let policyId := "policy_" +:+ Js.Z_toString now in
    modify_metrics (λ m, set_policiesSold (S (policiesSold m)) m);;
    now' ← lift Date_now;
    a ← gets this;
    let timeToConvert := Js.sub_Z now' (sessionStartTime a) in
    _ ← lift new_Date;
    sdk ← lift window_appInsights;
    when sdk (
      lift (track (TrackEvent "PolicyPurchased"
        [("policyId", VStr policyId);
         ("applicationId", of_nullable (currentApplicationId a));
         ("quoteId", of_nullable (currentQuoteId a));
         ("sessionId", VStr (sessionId a))]
        [("timeToConvertMs", timeToConvert)]));;
      coverageAmount ← lift (gets (coverageAmount ∘ document));
      lift (track (TrackEvent "Conversion"
        [("conversionType", VStr "policy_purchase");
         ("funnelId", of_nullable (currentQuoteId a));
         ("sessionId", VStr (sessionId a))]
        [("conversionValue", Js.or_zero (Js.parseFloat coverageAmount))]));;
      lift (track (TrackEvent "FunnelStep"
        [("step", VStr "purchase_completed");
         ("funnelId", of_nullable (currentQuoteId a));
         ("sessionId", VStr (sessionId a))]
        [])));;
    lift (modify_document
      (set_policiesSold_text (Js.nat_toString (policiesSold (metrics a)))));;
    resetPurchaseJourney;;
    lift (showStatus ("Policy purchased successfully: " +:+ policyId) "success").

(** *** A/B testing and performance *)

(** [variant === "variant_a" ? 0.15 : 0.22]. *)
Definition conversionRate (variant : string) : Q :=
  if String.eqb variant "variant_a" then Js.literal (15 # 100) else Js.literal (22 # 100).

Definition runABTest (variant : string) : State World unit :=
  _ ← lift new_Date;
  a ← gets this;
  sdk ← lift window_appInsights;
  when sdk (lift (track (TrackEvent "ABTestParticipation"
    [("testName", VStr "homepage_cta_test"); ("variant", VStr variant);
     ("sessionId", VStr (sessionId a))]
    [])));;
  let rate := conversionRate variant in
  r ← lift Math_random;
  let converted := Js.Qltb r rate in
  when converted (
    sdk ← lift window_appInsights;
    when sdk (lift (track (TrackEvent "ABTestConversion"
      [("testName", VStr "homepage_cta_test"); ("variant", VStr variant);
       ("sessionId", VStr (sessionId a))]
      []))));;
  lift (modify_document (set_abTestResults
    {| display := "block";
       className := if converted then "status success" else "status";
       textContent :=
         "A/B Test " +:+ Js.toUpperCase variant +:+ ": "
         +:+ (if converted then "Converted!" else "No conversion")
         +:+ " (Simulated rate: "
         +:+ Js.toFixed 1 (Js.mul (Js.Fin rate) (Js.Fin 100)) +:+ "%)" |})).

Definition measurePageLoad : State World unit :=
  r ← lift Math_random;
  let loadTime := Js.add (Js.mul (Js.Fin r) (Js.Fin 3000)) (Js.Fin 500) in
  a ← gets this;
  href ← lift (gets location_href);
  sdk ← lift window_appInsights;
  when sdk (
    lift (track (TrackMetric "PageLoadTime" loadTime
      [("pageName", VStr "Home"); ("sessionId", VStr (sessionId a))]));;
    lift (track (TrackPageViewPerformance "HomePage" href
      [("duration", loadTime); ("perfTotal", loadTime);
       ("networkConnect", Js.mul loadTime (Js.Fin (Js.literal (1 # 10))));
       ("sentRequest", Js.mul loadTime (Js.Fin (Js.literal (2 # 10))));
       ("receivedResponse", Js.mul loadTime (Js.Fin (Js.literal (3 # 10))));
       ("domProcessing", Js.mul loadTime (Js.Fin (Js.literal (4 # 10))))])));;
  lift (showStatus
    ("Page load time measured: " +:+ Js.toFixed 0 loadTime +:+ "ms") "success").

Definition simulateError : State World unit :=
  _ ← lift new_Date;
  a ← gets this;
  sdk ← lift window_appInsights;
  when sdk (lift (track (TrackException
    "This is a simulated error for demonstration purposes"
    [("errorType", VStr "simulated_client_error");
     ("sessionId", VStr (sessionId a)); ("isSimulated", VBool true)])));;
  lift (showStatus "Error simulation tracked in Application Insights" "error").

(** *** Device and segmentation *)

Definition segments : list string :=
  ["high_value"; "mobile_user"; "enterprise"; "small_business"].

(** [segments[i]], undefined out of range. *)
Definition segment_at (i : Js.integral) : option string :=
  match i with
  | Js.Int z => if (0 <=? z)%Z then segments !! Z.to_nat z else None
  | _ => None
  end.

Definition trackCustomSegment : State World unit :=
  r ← lift Math_random;
  let randomSegment :=
    segment_at (Js.Math_floor (Js.mul (Js.Fin r) (Js.of_nat (length segments)))) in
  a ← gets this;
  sdk ← lift window_appInsights;
  when sdk (lift (track (TrackEvent "UserSegmentation"
    [("segment", from_option VStr VUndefined randomSegment);
     ("sessionId", VStr (sessionId a));
     ("assignmentReason", VStr "behavioral_analysis")]
    [])));;
  lift (showStatus
    ("User assigned to segment: " +:+ default "undefined" randomSegment) "success").

(** *** Cohort analysis *)

(** The identifier of the month that contains a local time value. *)
Definition cohortId_of (localTime : Z) : string :=
  "cohort_" +:+ Js.Z_toString (Js.YearFromTime localTime) +:+ "_"
  +:+ Js.padStart 2 "0" (Js.Z_toString (Js.MonthFromTime localTime + 1)).

Definition getCohortId : State Browser string :=
  now ← new_Date;
  tza ← gets localTZA;
  mret (cohortId_of (now + tza now)).

Definition joinCohort : State World unit :=
  cohortId ← lift getCohortId;
  now ← lift new_Date;
  let joinDate := Js.toISOString now in
  a ← gets this;
  sdk ← lift window_appInsights;
  when sdk (lift (track (TrackEvent "CohortJoin"
    [("cohortId", VStr cohortId); ("joinDate", VStr joinDate);
     ("sessionId", VStr (sessionId a))]
    [])));;
  lift (setItem "user_cohort" cohortId);;
  lift (setItem "cohort_join_date" joinDate);;
  lift (modify_document (set_cohortInfo_display "block"));;
  lift (showStatus ("Joined cohort: " +:+ cohortId) "success").

Definition trackRetention : State World unit :=
  cohortId ← lift (getItem "user_cohort");
  joinDate ← lift (getItem "cohort_join_date");
  if negb (Js.truthy cohortId) || negb (Js.truthy joinDate)
  then lift (showStatus "Please join a cohort first" "error")
  else
    now ← lift Date_now;
    joined ← lift (gets (λ b, Date_parse b (default "" joinDate)));
    let daysSinceJoin :=
      Js.Math_floor (Js.div_pos (Js.sub (Js.of_Z now) joined) 86400000) in
    a ← gets this;
    sdk ← lift window_appInsights;
    when sdk (lift (track (TrackEvent "CohortRetention"
      [("cohortId", of_nullable cohortId); ("sessionId", VStr (sessionId a));
       ("retentionEvent", VStr "active_engagement")]
      [("daysSinceJoin", Js.of_integral daysSinceJoin)])));;
    lift (showStatus
      ("Retention event tracked (Day " +:+ Js.integral_toString daysSinceJoin
         +:+ " since joining cohort)") "success").

Definition viewCohortData : State World unit :=
  cohortId ← lift (getItem "user_cohort");
  if negb (Js.truthy cohortId)
  then lift (showStatus "No cohort data available. Please join a cohort first." "error")
  else
    r1 ← lift Math_random;
    r2 ← lift Math_random;
    r3 ← lift Math_random;
    r4 ← lift Math_random;
    let totalMembers :=
      Js.add (Js.of_integral (Js.Math_floor (Js.mul (Js.Fin r1) (Js.Fin 1000))))
        (Js.Fin 100) in
    let activeMembers :=
      Js.add (Js.of_integral (Js.Math_floor (Js.mul (Js.Fin r2) (Js.Fin 500))))
        (Js.Fin 50) in
    let retentionRate :=
      Js.toFixed 2 (Js.add (Js.mul (Js.Fin r3) (Js.Fin (Js.literal (4 # 10))))
                      (Js.Fin (Js.literal (3 # 10)))) in
    let avgSessionDuration :=
      Js.add (Js.of_integral (Js.Math_floor (Js.mul (Js.Fin r4) (Js.Fin 300))))
        (Js.Fin 120) in
    a ← gets this;
    sdk ← lift window_appInsights;
    when sdk (lift (track (TrackEvent "CohortAnalysisView"
      [("cohortId", of_nullable cohortId); ("sessionId", VStr (sessionId a))]
      [("totalMembers", totalMembers);
       ("activeMembers", activeMembers);
       ("retentionRate", Js.parseFloat retentionRate);
       ("avgSessionDuration", avgSessionDuration)])));;
    lift (modify_document (set_cohortInfo_display "block"));;
    lift (showStatus "Cohort analytics data displayed" "success").

(** ** Sessions *)

(** What can happen on the page: the visitor edits a form field, or one of
    the global functions wired to the buttons is called. *)
Inductive Field := CustomerName | InsuranceType | CoverageAmount | PersonalInfo.

Inductive Op :=
| Input (f : Field) (text : string)
| TrackPageView_ (pageName : string)
| SimulateNewVisitor
| SimulateReturningVisitor
| SimulateBounce
| TrackTimeOnPage
| SubmitQuoteRequest
| StartApplication
| CompleteApplication
| PurchasePolicy
| RunABTest (variant : string)
| MeasurePageLoad
| SimulateError
| TrackDeviceInfo
| TrackCustomSegment
| JoinCohort
| TrackRetention
| ViewCohortData.

(** The values of the options of [#insuranceType]. *)
Definition insuranceType_options : list string := [""; "auto"; "home"; "life"; "health"].

(** The visitor's edit puts [text] in the field; the method later reads the
    [value] the element makes of it. *)
Definition input (f : Field) (text : string) : State World unit :=
  lift (modify_document
    match f with
    | CustomerName => set_customerName (Html.strip_newlines text)
    | InsuranceType => set_insuranceType (Html.select_value insuranceType_options text)
    | CoverageAmount => set_coverageAmount (Html.number_value text)
    | PersonalInfo => set_personalInfo (Html.normalize_newlines text)
    end).

Definition call (op : Op) : State World unit :=
  match op with
  | Input f text => input f text
  | TrackPageView_ pageName => trackPageView pageName
  | SimulateNewVisitor => simulateNewVisitor
  | SimulateReturningVisitor => simulateReturningVisitor
  | SimulateBounce => simulateBounce
  | TrackTimeOnPage => trackTimeOnPage
  | SubmitQuoteRequest => submitQuoteRequest
  | StartApplication => startApplication
  | CompleteApplication => completeApplication
  | PurchasePolicy => purchasePolicy
  | RunABTest variant => runABTest variant
  | MeasurePageLoad => measurePageLoad
  | SimulateError => simulateError
  | TrackDeviceInfo => trackDeviceInfo
  | TrackCustomSegment => trackCustomSegment
  | JoinCohort => joinCohort
  | TrackRetention => trackRetention
  | ViewCohortData => viewCohortData
  end.

Definition step (w : World) (op : Op) : World := exec (call op) w.

(** The state after a sequence of operations. *)
Definition run (w : World) (ops : list Op) : World := fold_left step ops w.

(** *** Loading the page *)

Definition sdk_loaded (b : Browser) : bool :=
  match appInsights b with Some _ => true | None => false end.

(** The inline script of the page runs before the script of the class.  It
    keeps what it finds at [window.appInsights] and otherwise puts the
    loader stub of the SDK there, an object that queues every call made on
    it. *)
Definition snippet : State Browser unit :=
  modify (λ b,
    match appInsights b with
    | Some _ => b
    | None => set_appInsights (Some {| sent := []; initializers := [] |}) b
    end).

(** [initializeAnalytics()], called by the page once the configuration has
    been fetched; the page view it schedules is the operation
    [TrackPageView_ "HomePage"] a second later.  The constructor of the
    model does not throw, so the [catch] is never entered. *)
Definition initializeAnalytics (b : Browser) : World := new_AnalyticsManager b.

(** The handler of [DOMContentLoaded]: the fallback makes a manager only if
    there is none yet and no SDK object either. *)
Definition DOMContentLoaded (analyticsManager : option AnalyticsManager) (b : Browser)
    : option AnalyticsManager * Browser :=
  match analyticsManager with
  | Some a => (Some a, b)
  | None =>
      if negb (sdk_loaded b) then
        let w := new_AnalyticsManager b in (Some (this w), window w)
      else (None, b)
  end.

(** *** What a call reports *)

(** Every path of a funnel method ends in [showStatus]; the class of the
    status line tells the caller whether the call went through. *)
Definition status (w : World) : string := className (statusDisplay (document (window w))).

Definition succeeded (w : World) : bool := String.eqb (status w) "status success".
Definition failed (w : World) : bool := String.eqb (status w) "status error".

(** ** Notions used in the statements *)

Definition is_submitQuoteRequest (op : Op) : bool :=
  match op with SubmitQuoteRequest => true | _ => false end.
Definition is_startApplication (op : Op) : bool :=
  match op with StartApplication => true | _ => false end.
Definition is_completeApplication (op : Op) : bool :=
  match op with CompleteApplication => true | _ => false end.
Definition is_purchasePolicy (op : Op) : bool :=
  match op with PurchasePolicy => true | _ => false end.

(** How many of the calls selected by [sel], in the sequence [ops] run from
    [w], went through. *)
Fixpoint count_successful (sel : Op → bool) (w : World) (ops : list Op) : nat :=
  match ops with
  | [] => 0
  | op :: rest =>
      let w' := step w op in
      (if sel op && succeeded w' then 1 else 0) + count_successful sel w' rest
  end.

(** The counter an operation stands for goes up by one when the call went
    through; page views always count. *)
Definition tally (op : Op) (ok : bool) (m : Metrics) : Metrics :=
  match op with
  | TrackPageView_ _ => set_pageViews (S (pageViews m)) m
  | SubmitQuoteRequest => if ok then set_quoteRequests (S (quoteRequests m)) m else m
  | StartApplication =>
      if ok then set_applicationsStarted (S (applicationsStarted m)) m else m
  | CompleteApplication =>
      if ok then set_applicationsCompleted (S (applicationsCompleted m)) m else m
  | PurchasePolicy => if ok then set_policiesSold (S (policiesSold m)) m else m
  | _ => m
  end.

Definition Metrics_le (m m' : Metrics) : Prop :=
  pageViews m ≤ pageViews m' ∧ quoteRequests m ≤ quoteRequests m' ∧
  applicationsStarted m ≤ applicationsStarted m' ∧
  applicationsCompleted m ≤ applicationsCompleted m' ∧
  policiesSold m ≤ policiesSold m'.

(** [w'] is [w] with at most another text in the status line: the instance,
    the storage, the SDK with the items handed to it, the form, the buttons
    and the sources of time and randomness are the same. *)
Definition same_but_status (w w' : World) : Prop :=
  w' = set_window
         (set_document
            (set_statusDisplay (statusDisplay (document (window w')))
               (document (window w)))
            (window w)) w.

(** The purchase journey invariant of the specification. *)
Definition funnel_invariant (a : AnalyticsManager) : Prop :=
  currentApplicationId a ≠ None → currentQuoteId a ≠ None.

(** The situations in which the three guarded operations are to fail: no
    active quote; no active application or no personal information; no
    cohort membership in the storage. *)
Definition precondition_missing (w : World) (op : Op) : bool :=
  match op with
  | StartApplication => negb (Js.truthy (currentQuoteId (this w)))
  | CompleteApplication =>
      negb (Js.truthy (currentApplicationId (this w)))
      || negb (Js.truthy_string (personalInfo (document (window w))))
  | TrackRetention =>
      negb (Js.truthy (localStorage (window w) !! "user_cohort"))
      || negb (Js.truthy (localStorage (window w) !! "cohort_join_date"))
  | _ => false
  end.

(** Whether the button (if any) behind an operation can be clicked. *)
Definition enabled (w : World) (op : Op) : bool :=
  match op with
  | StartApplication => negb (startAppBtn (document (window w)))
  | CompleteApplication => negb (completeAppBtn (document (window w)))
  | PurchasePolicy => negb (purchaseBtn (document (window w)))
  | _ => true
  end.

(** Every operation of the sequence is behind an enabled button when its
    turn comes. *)
Fixpoint clickable (w : World) (ops : list Op) : bool :=
  match ops with
  | [] => true
  | op :: rest => enabled w op && clickable (step w op) rest
  end.

(** The clock reading and the random draw a method gets next. *)
Definition next_time (b : Browser) : Z := clock b (ticks b).
Definition next_random (b : Browser) : Q := random b (draws b).

(** The random suffix an identifier gets next. *)
Definition next_suffix (b : Browser) : string :=
  Js.substr 2 9 (toString36 b (next_random b)).

(** The identifier [getOrCreateUserId] makes up when none is stored. *)
Definition generated_userId (b : Browser) : string :=
  "user_" +:+ Js.Z_toString (next_time b) +:+ "_" +:+ next_suffix b.

Definition digit (z : Z) : ascii := ascii_of_nat (48 + Z.to_nat z).

(** A month number written with two digits, a year with four. *)
Definition two_digits (z : Z) : string :=
  String (digit (z / 10)) (String (digit (z mod 10)) "").
Definition four_digits (z : Z) : string :=
  String (digit (z / 1000)) (String (digit (z / 100 mod 10))
    (String (digit (z / 10 mod 10)) (String (digit (z mod 10)) ""))).

(** Whether a character occurs in a string. *)
Fixpoint occurs (c : ascii) (s : string) : bool :=
  match s with
  | EmptyString => false
  | String a s' => Ascii.eqb a c || occurs c s'
  end.

(** The two events of a successful [completeApplication]. *)
Definition ApplicationCompleted_event (a : AnalyticsManager) (now : Z) : Telemetry :=
  TrackEvent "ApplicationCompleted"
    [("applicationId", of_nullable (currentApplicationId a));
     ("quoteId", of_nullable (currentQuoteId a));
     ("sessionId", VStr (sessionId a))]
    [("timeToCompleteMs", Js.sub_Z now (sessionStartTime a))].

Definition FunnelStep_event (a : AnalyticsManager) (name : string) : Telemetry :=
  TrackEvent "FunnelStep"
    [("step", VStr name); ("funnelId", of_nullable (currentQuoteId a));
     ("sessionId", VStr (sessionId a))]
    [].

(** What [n] successful calls of [completeApplication] in a row hand to the
    SDK; each call reads the clock twice, the first reading for the event. *)
Fixpoint completion_events (a : AnalyticsManager) (clk : nat → Z) (tick n : nat)
    : list Telemetry :=
  match n with
  | O => []
  | S n' =>
      ApplicationCompleted_event a (clk tick)
      :: FunnelStep_event a "application_completed"
      :: completion_events a clk (S (S tick)) n'
  end.

Definition ABTest_event (a : AnalyticsManager) (name variant : string) : Telemetry :=
  TrackEvent name
    [("testName", VStr "homepage_cta_test"); ("variant", VStr variant);
     ("sessionId", VStr (sessionId a))]
    [].

Definition QuoteRequested_event (a : AnalyticsManager) (quoteId insuranceType : string)
    (coverage : Js.number) : Telemetry :=
  TrackEvent "QuoteRequested"
    [("quoteId", VStr quoteId); ("insuranceType", VStr insuranceType);
     ("sessionId", VStr (sessionId a))]
    [("coverageAmount", coverage)].

(** The operations that start with a test and report an error when it
    fails. *)
Definition guarded (op : Op) : bool :=
  match op with
  | SubmitQuoteRequest | StartApplication | CompleteApplication | PurchasePolicy
  | TrackRetention | ViewCohortData => true
  | _ => false
  end.

(** The operations whose failure the error taxonomy describes. *)
Definition checks_precondition (op : Op) : bool :=
  match op with
  | StartApplication | CompleteApplication | TrackRetention => true
  | _ => false
  end.

Definition zero_metrics : Metrics :=
  {| pageViews := 0; quoteRequests := 0; applicationsStarted := 0;
     applicationsCompleted := 0; policiesSold := 0 |}.

(** *** A concrete browser *)

(** The page as the HTML delivers it. *)
Definition page : Document :=
  {| pageViews_text := "0"; quoteRequests_text := "0"; applicationsStarted_text := "0";
     applicationsCompleted_text := "0"; policiesSold_text := "0";
     customerName := ""; insuranceType := ""; coverageAmount := "";
     applicationId := ""; personalInfo := "";
     startAppBtn := true; completeAppBtn := true; purchaseBtn := true;
     statusDisplay := {| className := ""; textContent := ""; display := "" |};
     abTestResults := {| className := "status"; textContent := ""; display := "none" |};
     deviceInfo_display := "none"; cohortInfo_display := "none" |}.

Definition laptop : Device :=
  {| userAgent := "Mozilla/5.0"; platform := "Linux x86_64"; language := "en-US";
     screenResolution := "1920x1080"; viewport := "1280x720";
     colorDepth := Js.Fin 24; timeZone := "UTC" |}.

(** A first visit on 2024-03-15 (UTC): empty storage, the clock advancing
    by one millisecond per reading, every random draw 1/10. *)
Definition browser (sdk : option Sdk) (clk : nat → Z) : Browser :=
  {| localStorage := ∅; document := page; appInsights := sdk;
     clock := clk; ticks := 0;
     random := λ _, 1 # 10; draws := 0;
     toString36 := λ _, "0.3lllllllllm";
     Date_parse := Js.parse_ISO;
     localTZA := λ _, 0%Z;
     device := laptop; location_href := "http://localhost:3000/" |}.

Definition ticking : nat → Z := λ n, (1710460800000 + Z.of_nat n)%Z.
Definition frozen : nat → Z := λ _, 1710460800000%Z.

Definition loaded_sdk : option Sdk := Some {| sent := []; initializers := [] |}.

(** The visitor fills in the quote form. *)
Definition fill_quote_form (name type coverage : string) : list Op :=
  [Input CustomerName name; Input InsuranceType type; Input CoverageAmount coverage].

(** ** Notions used in the further properties *)

Definition is_trackPageView (op : Op) : bool :=
  match op with TrackPageView_ _ => true | _ => false end.
Definition is_simulateNewVisitor (op : Op) : bool :=
  match op with SimulateNewVisitor => true | _ => false end.

(** How many operations of a sequence [sel] selects. *)
Fixpoint count_ops (sel : Op → bool) (ops : list Op) : nat :=
  match ops with
  | [] => 0
  | op :: rest => (if sel op then 1 else 0) + count_ops sel rest
  end.

(** The same world with no SDK on the page. *)
Definition forget_sdk (w : World) : World :=
  set_window (set_appInsights None (window w)) w.

(** The five counter displays show the five counters. *)
Definition displays_agree (w : World) : Prop :=
  let d := document (window w) in
  let m := metrics (this w) in
  pageViews_text d = Js.nat_toString (pageViews m) ∧
  quoteRequests_text d = Js.nat_toString (quoteRequests m) ∧
  applicationsStarted_text d = Js.nat_toString (applicationsStarted m) ∧
  applicationsCompleted_text d = Js.nat_toString (applicationsCompleted m) ∧
  policiesSold_text d = Js.nat_toString (policiesSold m).

(** The journey controls follow the journey: the start button is enabled
    exactly while a quote is active, the complete button exactly while an
    application is active, the purchase button only while one is, and the
    read-only field shows the active quote identifier. *)
Definition controls_agree (w : World) : Prop :=
  let d := document (window w) in
  startAppBtn d = negb (Js.truthy (currentQuoteId (this w))) ∧
  completeAppBtn d = negb (Js.truthy (currentApplicationId (this w))) ∧
  (purchaseBtn d = false → Js.truthy (currentApplicationId (this w)) = true) ∧
  applicationId d = default "" (currentQuoteId (this w)).

(** The operations that leave the instance alone. *)
Definition reads_instance_only (op : Op) : bool :=
  match op with
  | TrackPageView_ _ | SubmitQuoteRequest | StartApplication | CompleteApplication
  | PurchasePolicy => false
  | _ => true
  end.

(** The storage keys an operation writes or removes. *)
Definition keys_written (op : Op) : list string :=
  match op with
  | SimulateNewVisitor => ["app_insights_user_id"; "visitor_type"]
  | SimulateReturningVisitor => ["visitor_type"; "last_visit"]
  | JoinCohort => ["user_cohort"; "cohort_join_date"]
  | _ => []
  end.

Fixpoint lookup_property (key : string) (props : list (string * value)) : option value :=
  match props with
  | [] => None
  | (k, v) :: rest => if String.eqb k key then Some v else lookup_property key rest
  end.

(** The properties of an item; the page view performance item has none. *)
Definition properties_of (t : Telemetry) : list (string * value) :=
  match t with
  | TrackEvent _ props _ | TrackPageView _ _ props _ | TrackMetric _ _ props
  | TrackException _ props => props
  | TrackPageViewPerformance _ _ _ => []
  end.

Definition session_of (t : Telemetry) : option value :=
  lookup_property "sessionId" (properties_of t).

Definition is_performance (t : Telemetry) : bool :=
  match t with TrackPageViewPerformance _ _ _ => true | _ => false end.

(** How many custom events of a given name a list of items holds. *)
Fixpoint count_events (name : string) (l : list Telemetry) : nat :=
  match l with
  | [] => 0
  | TrackEvent n _ _ :: rest =>
      (if String.eqb n name then 1 else 0) + count_events name rest
  | _ :: rest => count_events name rest
  end.

(** The text of the status line. *)
Definition status_text (w : World) : string :=
  textContent (statusDisplay (document (window w))).

(** The counter displays of a page just loaded. *)
Definition displays_zero (d : Document) : Prop :=
  pageViews_text d = "0" ∧ quoteRequests_text d = "0" ∧
  applicationsStarted_text d = "0" ∧ applicationsCompleted_text d = "0" ∧
  policiesSold_text d = "0".

(** The journey controls of a page just loaded: the three buttons carry the
    [disabled] attribute and the read-only field is empty. *)
Definition controls_off (d : Document) : Prop :=
  startAppBtn d = true ∧ completeAppBtn d = true ∧ purchaseBtn d = true ∧
  applicationId d = "".

(** Whether an operation writes or removes a storage key. *)
Definition writes (op : Op) (key : string) : bool :=
  existsb (String.eqb key) (keys_written op).

(** An item carries the session identifier, or is the page view performance
    item, which has no properties. *)
Definition tagged (sid : string) (t : Telemetry) : Prop :=
  session_of t = Some (VStr sid) ∨ is_performance t = true.

Definition bool_to_nat (c : bool) : nat := if c then 1 else 0.

(** What each operation does to the status line. *)
Definition always_succeeds (op : Op) : bool :=
  match op with
  | TrackPageView_ _ | SimulateNewVisitor | SimulateReturningVisitor | TrackTimeOnPage
  | MeasurePageLoad | TrackCustomSegment | JoinCohort => true
  | _ => false
  end.

Definition always_shows_error (op : Op) : bool :=
  match op with
  | SimulateBounce | SimulateError => true
  | _ => false
  end.

Definition leaves_status (op : Op) : bool :=
  match op with
  | Input _ _ | TrackDeviceInfo | RunABTest _ => true
  | _ => false
  end.

Definition is_joinCohort (op : Op) : bool :=
  match op with JoinCohort => true | _ => false end.

(** Both cohort keys hold something in the storage. *)
Definition cohort_joined (b : Browser) : bool :=
  Js.truthy (localStorage b !! "user_cohort")
  && Js.truthy (localStorage b !! "cohort_join_date").

(** The event of [trackDeviceInfo]. *)
Definition DeviceInfo_event (dev : Device) (sid : string) : Telemetry :=
  TrackEvent "DeviceInfo"
    [("userAgent", VStr (userAgent dev)); ("platform", VStr (platform dev));
     ("language", VStr (language dev));
     ("screenResolution", VStr (screenResolution dev));
     ("viewport", VStr (viewport dev)); ("colorDepth", VNum (colorDepth dev));
     ("timeZone", VStr (timeZone dev)); ("sessionId", VStr sid)]
    [].

(** The initializers registered on the SDK object; none without it. *)
Definition registered (b : Browser) : list Initializer :=
  match appInsights b with
  | Some sdk => initializers sdk
  | None => []
  end.

Fixpoint lookup_measurement (key : string) (l : list (string * Js.number))
    : option Js.number :=
  match l with
  | [] => None
  | (k, v) :: rest => if String.eqb k key then Some v else lookup_measurement key rest
  end.

(** A measurement of a custom event. *)
Definition measurement_of (key : string) (t : Telemetry) : option Js.number :=
  match t with
  | TrackEvent _ _ ms => lookup_measurement key ms
  | _ => None
  end.

Definition is_event (name : string) (t : Telemetry) : bool :=
  match t with
  | TrackEvent n _ _ => String.eqb n name
  | _ => false
  end.

(** A QuoteRequested event carries a coverage amount that is a number. *)
Definition coverage_is_number (t : Telemetry) : Prop :=
  is_event "QuoteRequested" t = true →
  ∃ x, measurement_of "coverageAmount" t = Some x ∧ x ≠ Js.NaN.

(** The number field holds nothing or a valid number. *)
Definition number_field_clean (d : Document) : Prop :=
  coverageAmount d = "" ∨ Html.valid_floating_point_number (coverageAmount d) = true.

Definition is_simulateReturningVisitor (op : Op) : bool :=
  match op with SimulateReturningVisitor => true | _ => false end.

Fixpoint all_digits (s : string) : bool :=
  match s with
  | EmptyString => true
  | String c r => Js.is_digit c && all_digits r
  end.

(** The number that the digits of [s] write after those of [acc]. *)
Fixpoint digits_number (acc : Z) (s : string) : Z :=
  match s with
  | EmptyString => acc
  | String c r => digits_number (10 * acc + Js.digit_value c) r
  end.

(** A clock that advances by a day per reading. *)
Definition daily : nat → Z := λ n, (1710460800000 + 86400000 * Z.of_nat n)%Z.

(** ** Symbolic execution of the methods *)

(** Unfolds the methods, the state threading and the record updates, and
    nothing of the string and number library. *)
Ltac js_cbv :=
  cbv beta iota zeta delta
      [step exec eval call input
       trackPageView simulateNewVisitor simulateReturningVisitor simulateBounce
       trackTimeOnPage submitQuoteRequest startApplication completeApplication
       resetPurchaseJourney purchasePolicy runABTest measurePageLoad simulateError
       trackDeviceInfo trackCustomSegment joinCohort getCohortId trackRetention
       viewCohortData showStatus initializeTracking startSessionTimer
       generateSessionId getOrCreateUserId new_AnalyticsManager
       mbind State_bind mret State_ret gets modify when lift modify_this modify_metrics
       modify_document Date_now new_Date Math_random getItem setItem removeItem
       window_appInsights track addTelemetryInitializer compose option_bind
       set_this set_window set_localStorage set_document set_appInsights set_ticks set_draws
       set_pageViewCount set_currentQuoteId set_currentApplicationId set_metrics
       set_pageViews set_quoteRequests set_applicationsStarted set_applicationsCompleted
       set_policiesSold
       set_pageViews_text set_quoteRequests_text set_applicationsStarted_text
       set_applicationsCompleted_text set_policiesSold_text set_customerName
       set_insuranceType set_coverageAmount set_applicationId set_personalInfo
       set_startAppBtn set_completeAppBtn set_purchaseBtn set_statusDisplay
       set_abTestResults set_deviceInfo_display set_cohortInfo_display
       this window fst snd
       sessionId userId pageViewCount sessionStartTime currentQuoteId currentApplicationId
       metrics
       pageViews quoteRequests applicationsStarted applicationsCompleted policiesSold
       localStorage document appInsights clock ticks random draws toString36 Date_parse
       localTZA device location_href
       pageViews_text quoteRequests_text applicationsStarted_text applicationsCompleted_text
       policiesSold_text customerName insuranceType coverageAmount applicationId personalInfo
       startAppBtn completeAppBtn purchaseBtn statusDisplay abTestResults deviceInfo_display
       cohortInfo_display className textContent display sent initializers
       telemetry status succeeded failed tally same_but_status precondition_missing
       next_time next_random next_suffix generated_userId enabled of_nullable
       QuoteRequested_event ABTest_event ApplicationCompleted_event FunnelStep_event
       is_submitQuoteRequest is_startApplication is_completeApplication is_purchasePolicy].

Ltac case_cond c :=
  lazymatch c with
  | negb ?d => case_cond d
  | orb ?a _ => case_cond a
  | andb ?a _ => case_cond a
  | _ => destruct c eqn:?
  end.

Ltac js_case :=
  match goal with
  | |- context [match ?c with Some _ => _ | None => _ end] => is_var c; destruct c
  | |- context [if ?c then _ else _] =>
      lazymatch c with
      | context [String.eqb] => fail
      | _ => case_cond c
      end
  | |- context [match ?c with Some _ => _ | None => _ end] => destruct c eqn:?
  | |- context [String.eqb ?a ?b] =>
      let v := eval vm_compute in (String.eqb a b) in
      lazymatch v with
      | true => change (String.eqb a b) with true
      | false => change (String.eqb a b) with false
      end
  | |- context [if ?c then _ else _] => case_cond c
  end.

(** Runs the code in the goal, splitting on each test it meets. *)
Ltac js_simpl := js_cbv; repeat (js_case; cbn [negb orb andb]; js_cbv).

Ltac destruct_world w :=
  let a := fresh "a" in
  let b := fresh "b" in
  let d := fresh "d" in
  let m := fresh "m" in
  destruct w as [a b]; destruct a as [? ? ? ? ? ? m]; destruct m;
  destruct b as [? d w_sdk ? ? ? ? ? ? ? ? ?]; destruct d.

(** A variant of [js_case] that always splits on an innermost test. *)
Ltac js_case_inner :=
  match goal with
  | |- context [match ?c with Some _ => _ | None => _ end] => is_var c; destruct c
  | |- context [if ?c then _ else _] =>
      lazymatch c with
      | context [if _ then _ else _] => fail
      | context [match _ with Some _ => _ | None => _ end] => fail
      | context [String.eqb] => fail
      | _ => case_cond c
      end
  | |- context [match ?c with Some _ => _ | None => _ end] =>
      lazymatch c with
      | context [if _ then _ else _] => fail
      | context [match _ with Some _ => _ | None => _ end] => fail
      | _ => destruct c eqn:?
      end
  | |- context [String.eqb ?a ?b] =>
      lazymatch a with
      | context [if _ then _ else _] => fail
      | _ =>
          let v := eval vm_compute in (String.eqb a b) in
          lazymatch v with
          | true => change (String.eqb a b) with true
          | false => change (String.eqb a b) with false
          end
      end
  | |- context [if ?c then _ else _] =>
      lazymatch c with
      | context [if _ then _ else _] => fail
      | _ => case_cond c
      end
  end.

Ltac js_run := js_cbv; repeat (js_case_inner; cbn [negb orb andb]; js_cbv).

(** Runs one state expression of the goal, however often it occurs. *)
Ltac js_run_on t :=
  let Q := fresh "Q" in
  pattern t;
  match goal with |- ?P _ => set (Q := P) end;
  js_run; subst Q; cbv beta; js_cbv.

Ltac destruct_op op :=
  destruct op; try match goal with f : Field |- _ => destruct f end.

(** [destruct_world] with names of its own for every field. *)
Ltac destruct_state w :=
  let a := fresh "a" in
  let b := fresh "b" in
  let d := fresh "d" in
  let m := fresh "m" in
  destruct w as [a b];
  destruct a as [a_session a_user a_views a_start a_quote a_application m];
  destruct m as [m_views m_quotes m_started m_completed m_sold];
  destruct b as [b_storage d w_sdk b_clock b_ticks b_random b_draws b_radix b_parse
                 b_tza b_device b_href];
  destruct d as [d_views d_quotes d_started d_completed d_sold d_name d_type d_coverage
                 d_quote d_info d_start d_complete d_purchase d_status d_abtest
                 d_device d_cohort].

(** ** The effect of one operation *)

Lemma metrics_step (w : World) (op : Op) :
  metrics (this (step w op)) = tally op (succeeded (step w op)) (metrics (this w)).
Proof. destruct_world w. destruct op; js_simpl; reflexivity. Qed.

(** Only three operations write the two journey identifiers. *)
Lemma currentQuoteId_step (w : World) (op : Op) :
  currentQuoteId (this (step w op)) =
  match op with
  | SubmitQuoteRequest =>
      if succeeded (step w op)
      then Some ("quote_" +:+ Js.Z_toString (next_time (window w)))
      else currentQuoteId (this w)
  | PurchasePolicy => if succeeded (step w op) then None else currentQuoteId (this w)
  | _ => currentQuoteId (this w)
  end.
Proof. destruct_world w. destruct op; js_simpl; reflexivity. Qed.

Lemma currentApplicationId_step (w : World) (op : Op) :
  currentApplicationId (this (step w op)) =
  match op with
  | StartApplication =>
      if succeeded (step w op)
      then Some ("app_" +:+ Js.Z_toString (next_time (window w)))
      else currentApplicationId (this w)
  | PurchasePolicy =>
      if succeeded (step w op) then None else currentApplicationId (this w)
  | _ => currentApplicationId (this w)
  end.
Proof. destruct_world w. destruct op; js_simpl; reflexivity. Qed.

(** When the four journey operations go through. *)
Lemma submitQuoteRequest_succeeded (w : World) :
  succeeded (step w SubmitQuoteRequest) =
  Js.truthy_string (customerName (document (window w)))
  && Js.truthy_string (insuranceType (document (window w)))
  && Js.truthy_string (coverageAmount (document (window w))).
Proof. destruct_world w. js_simpl; reflexivity. Qed.

Lemma startApplication_succeeded (w : World) :
  succeeded (step w StartApplication) = Js.truthy (currentQuoteId (this w)).
Proof. destruct_world w. js_simpl; reflexivity. Qed.

Lemma completeApplication_succeeded (w : World) :
  succeeded (step w CompleteApplication) =
  Js.truthy (currentApplicationId (this w))
  && Js.truthy_string (personalInfo (document (window w))).
Proof. destruct_world w. js_simpl; reflexivity. Qed.

Lemma purchasePolicy_succeeded (w : World) :
  succeeded (step w PurchasePolicy) = Js.truthy (currentApplicationId (this w)).
Proof. destruct_world w. js_simpl; reflexivity. Qed.

(** A guarded operation reports either an error or a success. *)
Lemma guarded_failed (w : World) (op : Op) :
  guarded op = true → failed (step w op) = negb (succeeded (step w op)).
Proof.
  intros Hop. destruct_world w.
  destruct op; try discriminate Hop; js_simpl; reflexivity.
Qed.

Lemma failed_iff_precondition_missing (w : World) (op : Op) :
  checks_precondition op = true → failed (step w op) = precondition_missing w op.
Proof.
  intros Hop. destruct_world w.
  destruct op; try discriminate Hop; js_simpl; reflexivity.
Qed.

(** A guarded operation that reports an error has changed nothing but the
    status line. *)
Lemma failed_same_but_status (w : World) (op : Op) :
  guarded op = true → failed (step w op) = true → same_but_status w (step w op).
Proof.
  intros Hop. destruct_world w.
  destruct op; try discriminate Hop; js_simpl; intros; (reflexivity || discriminate).
Qed.

Lemma same_but_status_frame (w w' : World) :
  same_but_status w w' →
  this w' = this w ∧ localStorage (window w') = localStorage (window w) ∧
  appInsights (window w') = appInsights (window w) ∧
  telemetry (window w') = telemetry (window w).
Proof. intros ->. by destruct_world w. Qed.

(** ** Runs of a session *)

Lemma run_app (w : World) (ops ops' : list Op) :
  run w (ops ++ ops') = run (run w ops) ops'.
Proof. apply fold_left_app. Qed.

Lemma run_snoc (w : World) (ops : list Op) (op : Op) :
  run w (ops ++ [op]) = step (run w ops) op.
Proof. by rewrite run_app. Qed.

(** A fresh session starts with empty counters and no journey. *)
Lemma fresh_session (b : Browser) :
  metrics (this (new_AnalyticsManager b)) = zero_metrics ∧
  currentQuoteId (this (new_AnalyticsManager b)) = None ∧
  currentApplicationId (this (new_AnalyticsManager b)) = None.
Proof. destruct b as [? d ? ? ? ? ? ? ? ? ? ?]; destruct d. js_simpl; done. Qed.

Lemma Metrics_le_refl (m : Metrics) : Metrics_le m m.
Proof. by repeat split. Qed.

Lemma Metrics_le_trans (m1 m2 m3 : Metrics) :
  Metrics_le m1 m2 → Metrics_le m2 m3 → Metrics_le m1 m3.
Proof. unfold Metrics_le. lia. Qed.

Lemma tally_le (op : Op) (ok : bool) (m : Metrics) : Metrics_le m (tally op ok m).
Proof. destruct m, op, ok; unfold Metrics_le; simpl; lia. Qed.

Lemma metrics_step_le (w : World) (op : Op) :
  Metrics_le (metrics (this w)) (metrics (this (step w op))).
Proof. rewrite metrics_step. apply tally_le. Qed.

Lemma metrics_run_le (ops : list Op) (w : World) :
  Metrics_le (metrics (this w)) (metrics (this (run w ops))).
Proof.
  revert w. induction ops as [|op ops IH]; intros w; [apply Metrics_le_refl|].
  eapply Metrics_le_trans; [apply (metrics_step_le w op)|apply IH].
Qed.

(** The status line cannot show an error and a success at once. *)
Lemma failed_not_succeeded (w : World) : failed w = true → succeeded w = false.
Proof.
  unfold failed, succeeded. intros H%String.eqb_eq. by rewrite H.
Qed.

Lemma trackPageView_not_failed (w : World) (pageName : string) :
  failed (step w (TrackPageView_ pageName)) = false.
Proof. destruct_world w. js_simpl; reflexivity. Qed.

Lemma failed_metrics (w : World) (op : Op) :
  failed (step w op) = true → metrics (this (step w op)) = metrics (this w).
Proof.
  intros Hf. rewrite metrics_step, (failed_not_succeeded _ Hf).
  destruct op; try reflexivity.
  by rewrite trackPageView_not_failed in Hf.
Qed.

(** Counting along a run, for a counter [c] that the selected operation
    alone increments, and only when it goes through. *)
Lemma counter_run (c : Metrics → nat) (sel : Op → bool) :
  (∀ op ok m, c (tally op ok m) = c m + (if sel op && ok then 1 else 0)) →
  ∀ ops w, c (metrics (this (run w ops))) = c (metrics (this w)) + count_successful sel w ops.
Proof.
  intros Hc. induction ops as [|op ops IH]; intros w; simpl; [lia|].
  rewrite IH, metrics_step, Hc. lia.
Qed.

(** The example scenario of the specification. *)
Example example_scenario :
  let w0 := new_AnalyticsManager (browser loaded_sdk ticking) in
  let w1 := run w0 (fill_quote_form "Alice" "auto" "50000" ++ [SubmitQuoteRequest]) in
  let w2 := step w1 StartApplication in
  let w3 := run w2 [Input PersonalInfo "Alice Smith, 123 Main St"; CompleteApplication] in
  let w4 := step w3 PurchasePolicy in
  quoteRequests (metrics (this w1)) = 1 ∧
  currentQuoteId (this w1) = Some "quote_1710460800003" ∧
  applicationsStarted (metrics (this w2)) = 1 ∧
  applicationsCompleted (metrics (this w3)) = 1 ∧
  policiesSold (metrics (this w4)) = 1 ∧
  currentQuoteId (this w4) = None ∧ currentApplicationId (this w4) = None.
Proof. vm_compute. repeat split; reflexivity. Qed.

(** C2. From a fresh session and for every sequence of operations, each of
    the four journey counters equals the number of calls of its operation
    that went through; along the session no counter ever decreases, and a
    call that reports an error leaves all counters as they were. *)
Theorem counters_count_successful_calls (b : Browser) (ops : list Op) :
  let w0 := new_AnalyticsManager b in
  let m := metrics (this (run w0 ops)) in
  (quoteRequests m = count_successful is_submitQuoteRequest w0 ops ∧
   applicationsStarted m = count_successful is_startApplication w0 ops ∧
   applicationsCompleted m = count_successful is_completeApplication w0 ops ∧
   policiesSold m = count_successful is_purchasePolicy w0 ops) ∧
  (∀ pre post, ops = pre ++ post →
     Metrics_le (metrics (this (run w0 pre))) m) ∧
  (∀ pre op post, ops = pre ++ op :: post →
     failed (step (run w0 pre) op) = true →
     metrics (this (step (run w0 pre) op)) = metrics (this (run w0 pre))).
Proof.
  intros w0 m. split; [|split].
  - destruct (fresh_session b) as (Hm & _ & _). fold w0 in Hm. subst m.
    repeat split.
    + rewrite (counter_run quoteRequests is_submitQuoteRequest), Hm; [done|].
      intros [] [] []; simpl; lia.
    + rewrite (counter_run applicationsStarted is_startApplication), Hm; [done|].
      intros [] [] []; simpl; lia.
    + rewrite (counter_run applicationsCompleted is_completeApplication), Hm; [done|].
      intros [] [] []; simpl; lia.
    + rewrite (counter_run policiesSold is_purchasePolicy), Hm; [done|].
      intros [] [] []; simpl; lia.
  - intros pre post ->. subst m. rewrite run_app. apply metrics_run_le.
  - intros pre op post _ Hf. by apply failed_metrics.
Qed.

(** The witness of C2: the journey of the example scenario, with one
    purchase attempt too early. *)
Lemma counters_count_successful_calls_witness :
  let w0 := new_AnalyticsManager (browser loaded_sdk ticking) in
  let ops := PurchasePolicy :: fill_quote_form "Alice" "auto" "50000" ++
             [SubmitQuoteRequest; StartApplication;
              Input PersonalInfo "Alice Smith, 123 Main St";
              CompleteApplication; PurchasePolicy] in
  metrics (this (run w0 ops)) =
    {| pageViews := 0; quoteRequests := 1; applicationsStarted := 1;
       applicationsCompleted := 1; policiesSold := 1 |} ∧
  policiesSold (metrics (this (run w0 ops))) = count_successful is_purchasePolicy w0 ops ∧
  failed (step w0 PurchasePolicy) = true ∧
  metrics (this (step w0 PurchasePolicy)) = metrics (this w0).
Proof.
  intros w0 ops.
  destruct (counters_count_successful_calls (browser loaded_sdk ticking) ops)
    as ((_ & _ & _ & Hsold) & _ & Hfail).
  split; [vm_compute; reflexivity|].
  split; [exact Hsold|].
  split; [vm_compute; reflexivity|].
  apply (Hfail [] PurchasePolicy (tl ops)); [reflexivity|vm_compute; reflexivity].
Defined.

(** ** The purchase journey *)

Lemma funnel_invariant_step (w : World) (op : Op) :
  funnel_invariant (this w) → funnel_invariant (this (step w op)).
Proof.
  unfold funnel_invariant.
  rewrite currentQuoteId_step, currentApplicationId_step. intros Hinv.
  destruct op; try assumption.
  - (* submitQuoteRequest *) destruct (succeeded _); [done|assumption].
  - (* startApplication *)
    rewrite startApplication_succeeded.
    destruct (currentQuoteId (this w)) as [q|]; [done|]. simpl. assumption.
  - (* purchasePolicy *) destruct (succeeded _); [done|assumption].
Qed.

Lemma funnel_invariant_run (ops : list Op) (w : World) :
  funnel_invariant (this w) → funnel_invariant (this (run w ops)).
Proof.
  revert w. induction ops as [|op ops IH]; intros w Hinv; [assumption|].
  simpl. apply IH. by apply funnel_invariant_step.
Qed.

Lemma purchasePolicy_resets (w : World) :
  succeeded (step w PurchasePolicy) = true →
  currentQuoteId (this (step w PurchasePolicy)) = None ∧
  currentApplicationId (this (step w PurchasePolicy)) = None.
Proof.
  intros Hok. by rewrite currentQuoteId_step, currentApplicationId_step, Hok.
Qed.

(** C9. In every state a sequence of operations reaches from a fresh
    session, an application identifier is set only if a quote identifier
    is, and a purchase that goes through clears the two together. *)
Theorem funnel_invariant_reachable (b : Browser) (ops : list Op) :
  let w := run (new_AnalyticsManager b) ops in
  funnel_invariant (this w) ∧
  (succeeded (step w PurchasePolicy) = true →
   currentQuoteId (this (step w PurchasePolicy)) = None ∧
   currentApplicationId (this (step w PurchasePolicy)) = None).
Proof.
  intros w. split; [|apply purchasePolicy_resets].
  apply funnel_invariant_run. destruct (fresh_session b) as (_ & _ & Happ).
  intros Hne. by rewrite Happ in Hne.
Qed.

Lemma funnel_invariant_reachable_witness :
  let w := run (new_AnalyticsManager (browser loaded_sdk ticking))
             (fill_quote_form "Alice" "auto" "50000" ++
              [SubmitQuoteRequest; StartApplication]) in
  currentQuoteId (this w) = Some "quote_1710460800003" ∧
  currentApplicationId (this w) = Some "app_1710460800005" ∧
  funnel_invariant (this w) ∧
  succeeded (step w PurchasePolicy) = true ∧
  currentQuoteId (this (step w PurchasePolicy)) = None ∧
  currentApplicationId (this (step w PurchasePolicy)) = None.
Proof.
  intros w.
  destruct (funnel_invariant_reachable (browser loaded_sdk ticking)
              (fill_quote_form "Alice" "auto" "50000" ++
               [SubmitQuoteRequest; StartApplication])) as [Hinv Hreset].
  split; [vm_compute; reflexivity|].
  split; [vm_compute; reflexivity|].
  split; [exact Hinv|].
  split; [vm_compute; reflexivity|].
  apply Hreset. vm_compute; reflexivity.
Defined.

(** Without a quote, the quote identifier stays unset until a quote request
    goes through. *)
Lemma no_quote_run (ops : list Op) (w : World) :
  currentQuoteId (this w) = None →
  count_successful is_submitQuoteRequest w ops = 0 →
  currentQuoteId (this (run w ops)) = None.
Proof.
  revert w. induction ops as [|op ops IH]; intros w Hq Hcount; [assumption|].
  simpl in *. apply IH; [|lia].
  rewrite currentQuoteId_step.
  destruct op; try assumption.
  - simpl in Hcount. destruct (succeeded _); [lia|assumption].
  - by destruct (succeeded _).
Qed.

(** A quote request that goes through opens the way again. *)
Lemma startApplication_after_quote (w : World) :
  succeeded (step w SubmitQuoteRequest) = true →
  succeeded (step (step w SubmitQuoteRequest) StartApplication) = true.
Proof.
  intros Hok. by rewrite startApplication_succeeded, currentQuoteId_step, Hok.
Qed.

(** C3. Right after a purchase that went through, the quote and the
    application identifier are both null, and from there every call of
    startApplication fails, whatever else is called in between, as long as
    no new quote request has gone through. *)
Theorem purchase_ends_journey (w : World) (ops : list Op) :
  succeeded (step w PurchasePolicy) = true →
  let w' := step w PurchasePolicy in
  currentQuoteId (this w') = None ∧ currentApplicationId (this w') = None ∧
  (count_successful is_submitQuoteRequest w' ops = 0 →
   failed (step (run w' ops) StartApplication) = true ∧
   this (step (run w' ops) StartApplication) = this (run w' ops)).
Proof.
  intros Hok w'. destruct (purchasePolicy_resets w Hok) as [Hq Ha].
  split; [exact Hq|]. split; [exact Ha|]. intros Hcount.
  assert (failed (step (run w' ops) StartApplication) = true) as Hf.
  { rewrite guarded_failed, startApplication_succeeded by reflexivity.
    by rewrite (no_quote_run ops w' Hq Hcount). }
  split; [exact Hf|].
  eapply same_but_status_frame, failed_same_but_status; [reflexivity|exact Hf].
Qed.

Lemma purchase_ends_journey_witness :
  let w := run (new_AnalyticsManager (browser loaded_sdk ticking))
             (fill_quote_form "Alice" "auto" "50000" ++
              [SubmitQuoteRequest; StartApplication]) in
  let ops := [TrackPageView_ "Home"; StartApplication; CompleteApplication;
              SubmitQuoteRequest; JoinCohort] in
  let w' := step w PurchasePolicy in
  succeeded w' = true ∧
  currentQuoteId (this w') = None ∧ currentApplicationId (this w') = None ∧
  failed (step (run w' ops) StartApplication) = true ∧
  this (step (run w' ops) StartApplication) = this (run w' ops).
Proof.
  intros w ops w'.
  assert (succeeded (step w PurchasePolicy) = true) as Hok
    by (vm_compute; reflexivity).
  destruct (purchase_ends_journey w ops Hok) as (Hq & Ha & Hstart).
  split; [exact Hok|]. split; [exact Hq|]. split; [exact Ha|].
  apply Hstart. vm_compute; reflexivity.
Defined.

(** ** Failing operations *)

(** C5. When startApplication finds no active quote, completeApplication no
    active application or no personal information, or trackRetention no
    cohort membership in the storage, the call reports an error and leaves
    everything but the status line as it was: the instance with its counters
    and identifiers, the storage, and the items handed to the SDK.  These
    are the only situations in which the three operations fail. *)
Theorem failing_operations_are_atomic (w : World) (op : Op) :
  checks_precondition op = true →
  failed (step w op) = precondition_missing w op ∧
  (precondition_missing w op = true →
   same_but_status w (step w op) ∧
   this (step w op) = this w ∧
   localStorage (window (step w op)) = localStorage (window w) ∧
   telemetry (window (step w op)) = telemetry (window w)).
Proof.
  intros Hop.
  pose proof (failed_iff_precondition_missing w op Hop) as Hf.
  split; [exact Hf|]. intros Hmiss. rewrite Hmiss in Hf.
  assert (same_but_status w (step w op)) as Hsame.
  { apply failed_same_but_status; [|exact Hf]. by destruct op. }
  split; [exact Hsame|]. by destruct (same_but_status_frame _ _ Hsame) as (? & ? & _ & ?).
Qed.

Lemma failing_operations_are_atomic_witness :
  let w := new_AnalyticsManager (browser loaded_sdk ticking) in
  (failed (step w StartApplication) = true ∧
   this (step w StartApplication) = this w ∧
   telemetry (window (step w StartApplication)) = telemetry (window w)) ∧
  (failed (step w TrackRetention) = true ∧
   localStorage (window (step w TrackRetention)) = localStorage (window w) ∧
   telemetry (window (step w TrackRetention)) = telemetry (window w)).
Proof.
  intros w. split.
  - destruct (failing_operations_are_atomic w StartApplication eq_refl) as [Hf Hframe].
    destruct Hframe as (_ & Hthis & _ & Htel); [vm_compute; reflexivity|].
    split; [rewrite Hf; vm_compute; reflexivity|]. by split.
  - destruct (failing_operations_are_atomic w TrackRetention eq_refl) as [Hf Hframe].
    destruct Hframe as (_ & _ & Hls & Htel); [vm_compute; reflexivity|].
    split; [rewrite Hf; vm_compute; reflexivity|]. by split.
Defined.

(** purchasePolicy looks at the application identifier only: it fails, and
    then changes nothing but the status line, exactly when no application
    has been started since the last purchase. *)
Lemma purchasePolicy_without_application (w : World) :
  Js.truthy (currentApplicationId (this w)) = false →
  failed (step w PurchasePolicy) = true ∧ same_but_status w (step w PurchasePolicy).
Proof.
  intros Hno.
  assert (failed (step w PurchasePolicy) = true) as Hf
    by (rewrite guarded_failed, purchasePolicy_succeeded, Hno by reflexivity; done).
  split; [exact Hf|]. apply failed_same_but_status; [reflexivity|exact Hf].
Qed.

(** C1 (the code departs from the claim).  As soon as startApplication has
    gone through, purchasePolicy goes through as well: it does not wait for
    completeApplication, although its error message asks to complete an
    application first.  The policy is counted while the count of completed
    applications stays where it was. *)
Theorem purchase_without_completion (w : World) :
  succeeded (step w StartApplication) = true →
  let w' := step w StartApplication in
  succeeded (step w' PurchasePolicy) = true ∧
  policiesSold (metrics (this (step w' PurchasePolicy)))
    = S (policiesSold (metrics (this w'))) ∧
  applicationsCompleted (metrics (this (step w' PurchasePolicy)))
    = applicationsCompleted (metrics (this w)).
Proof.
  intros Hstart w'.
  assert (succeeded (step w' PurchasePolicy) = true) as Hok.
  { rewrite purchasePolicy_succeeded. unfold w'.
    by rewrite currentApplicationId_step, Hstart. }
  split; [exact Hok|].
  rewrite (metrics_step w'), Hok. unfold w'. rewrite (metrics_step w), Hstart.
  by destruct (metrics (this w)).
Qed.

Lemma purchase_without_completion_witness :
  let w := run (new_AnalyticsManager (browser loaded_sdk ticking))
             (fill_quote_form "Alice" "auto" "50000" ++ [SubmitQuoteRequest]) in
  let w' := step w StartApplication in
  applicationsCompleted (metrics (this w')) = 0 ∧
  succeeded (step w' PurchasePolicy) = true ∧
  policiesSold (metrics (this (step w' PurchasePolicy))) = 1 ∧
  applicationsCompleted (metrics (this (step w' PurchasePolicy))) = 0.
Proof.
  intros w w'.
  destruct (purchase_without_completion w) as (Hok & Hsold & Hdone);
    [vm_compute; reflexivity|].
  fold w' in Hok, Hsold, Hdone.
  split; [vm_compute; reflexivity|]. split; [exact Hok|].
  split; [rewrite Hsold; vm_compute; reflexivity|].
  rewrite Hdone. vm_compute; reflexivity.
Defined.

(** The same through the buttons of the page alone: once one application
    has been completed the purchase button stays enabled, a second
    application can be started, and it is purchased without having been
    completed. *)
Example purchase_without_completion_by_clicks :
  let w0 := new_AnalyticsManager (browser loaded_sdk ticking) in
  let ops := fill_quote_form "Alice" "auto" "50000" ++
             [SubmitQuoteRequest; StartApplication;
              Input PersonalInfo "Alice Smith, 123 Main St"; CompleteApplication;
              StartApplication; PurchasePolicy] in
  clickable w0 ops = true ∧
  succeeded (run w0 ops) = true ∧
  metrics (this (run w0 ops)) =
    {| pageViews := 0; quoteRequests := 1; applicationsStarted := 2;
       applicationsCompleted := 1; policiesSold := 1 |} ∧
  last (telemetry (window (run w0 (removelast ops)))) =
    Some (FunnelStep_event (this (run w0 (removelast ops))) "application_started") ∧
  currentApplicationId (this (run w0 (removelast ops))) = Some "app_1710460800009".
Proof. vm_compute. repeat split; reflexivity. Qed.

(** ** What the operations leave alone *)

(** No operation loads or unloads the SDK. *)
Lemma sdk_loaded_step (w : World) (op : Op) :
  sdk_loaded (window (step w op)) = sdk_loaded (window w).
Proof.
  destruct_world w. destruct w_sdk as [[]|]; destruct op; unfold sdk_loaded;
    js_run; reflexivity.
Qed.

Lemma sdk_loaded_run (ops : list Op) (w : World) :
  sdk_loaded (window (run w ops)) = sdk_loaded (window w).
Proof.
  revert w. induction ops as [|op ops IH]; intros w; simpl; [done|].
  by rewrite IH, sdk_loaded_step.
Qed.

(** No operation changes who the instance is. *)
Lemma identity_step (w : World) (op : Op) :
  sessionId (this (step w op)) = sessionId (this w) ∧
  userId (this (step w op)) = userId (this w) ∧
  sessionStartTime (this (step w op)) = sessionStartTime (this w).
Proof. destruct_world w. destruct op; js_simpl; done. Qed.

Lemma identity_run (ops : list Op) (w : World) :
  sessionId (this (run w ops)) = sessionId (this w) ∧
  userId (this (run w ops)) = userId (this w) ∧
  sessionStartTime (this (run w ops)) = sessionStartTime (this w).
Proof.
  revert w. induction ops as [|op ops IH]; intros w; simpl; [done|].
  destruct (IH (step w op)) as (-> & -> & ->). apply identity_step.
Qed.

(** An operation leaves every storage key but its own as it was. *)
Lemma storage_step (w : World) (op : Op) (key : string) :
  writes op key = false →
  localStorage (window (step w op)) !! key = localStorage (window w) !! key.
Proof.
  intros Hkey. destruct_world w.
  destruct op; js_simpl; try reflexivity.
  all: unfold writes in Hkey; simpl in Hkey.
  all: repeat (apply orb_false_elim in Hkey as [?%String.eqb_neq Hkey]).
  all: rewrite ?lookup_insert_ne, ?lookup_delete_ne by done; reflexivity.
Qed.

(** ** Quote requests *)

(** What a quote request does to the instance, the storage and the SDK. *)
Lemma submitQuoteRequest_effect (w : World) :
  let d := document (window w) in
  let w' := step w SubmitQuoteRequest in
  let quoteId := "quote_" +:+ Js.Z_toString (next_time (window w)) in
  if succeeded w' then
    this w' = set_metrics
                (set_quoteRequests (S (quoteRequests (metrics (this w)))) (metrics (this w)))
                (set_currentQuoteId (Some quoteId) (this w)) ∧
    localStorage (window w') = localStorage (window w) ∧
    telemetry (window w') =
      match appInsights (window w) with
      | Some sdk =>
          sent sdk ++ [QuoteRequested_event (this w) quoteId (insuranceType d)
                         (Js.parseFloat (coverageAmount d))]
      | None => []
      end
  else same_but_status w w'.
Proof. destruct_world w. js_simpl; repeat split; reflexivity. Qed.

(** *** What the form gives the method *)

Lemma round_double_not_NaN (q : Q) : Js.round_double q ≠ Js.NaN.
Proof. unfold Js.round_double. cbv zeta. repeat case_match; discriminate. Qed.

Lemma digit_or_full_stop (c : ascii) :
  Js.is_digit c = true ∨ c = "."%char →
  Js.is_space c = false ∧ Ascii.eqb c "-" = false ∧ Ascii.eqb c "+" = false ∧
  Ascii.eqb "I" c = false.
Proof.
  destruct c as [[] [] [] [] [] [] [] []]; vm_compute;
    intros [?|?]; try discriminate; done.
Qed.

(** A valid number starts with a digit or a full stop. *)
Lemma valid_unsigned_head (s : string) :
  Html.valid_unsigned s = true →
  ∃ c r, s = String c r ∧ (Js.is_digit c = true ∨ c = "."%char).
Proof.
  destruct s as [|c r]; [discriminate|]. intros Hv. exists c, r. split; [done|].
  unfold Html.valid_unsigned in Hv. simpl in Hv.
  destruct (Js.is_digit c); [by left|]. right.
  destruct (Ascii.eqb_spec c "."); [done|discriminate].
Qed.

(** The literal of a valid number is a number. *)
Lemma valid_unsigned_literal (neg : bool) (s : string) :
  Html.valid_unsigned s = true → Js.unsigned_literal neg s ≠ Js.NaN.
Proof.
  intros Hv. destruct (valid_unsigned_head s Hv) as (c & r & -> & Hc).
  apply digit_or_full_stop in Hc as (_ & _ & _ & HI).
  unfold Js.unsigned_literal.
  assert (Js.starts_with "Infinity" (String c r) = false) as ->
    by (cbn [Js.starts_with]; by rewrite HI).
  unfold Html.valid_unsigned in Hv.
  destruct (Js.span_digits (String c r)) as [ip r1].
  unfold Js.fraction_part.
  destruct r1 as [|c1 r1].
  - destruct ip; [discriminate|]. simpl. apply round_double_not_NaN.
  - destruct (Ascii.eqb c1 ".").
    + destruct (Js.span_digits r1) as [fp r2]. destruct fp; [discriminate|].
      destruct ip; simpl; apply round_double_not_NaN.
    + destruct ip; [discriminate|]. simpl. apply round_double_not_NaN.
Qed.

(** What the number field lets through, [parseFloat] reads as a number. *)
Lemma valid_number_parses (s : string) :
  Html.valid_floating_point_number s = true → Js.parseFloat s ≠ Js.NaN.
Proof.
  destruct s as [|c r]; [discriminate|]. unfold Html.valid_floating_point_number.
  destruct (Ascii.eqb_spec c "-") as [->|Hminus]; intros Hv.
  - apply (valid_unsigned_literal true r Hv).
  - destruct (valid_unsigned_head _ Hv) as (c' & r' & [= <- <-] & Hc).
    apply digit_or_full_stop in Hc as (Hspace & Hm & Hp & _).
    unfold Js.parseFloat. simpl. rewrite Hspace. simpl. rewrite Hm, Hp.
    apply (valid_unsigned_literal false _ Hv).
Qed.

Lemma number_value_truthy (text : string) :
  Js.truthy_string (Html.number_value text) = Html.valid_floating_point_number text.
Proof.
  unfold Html.number_value.
  destruct (Html.valid_floating_point_number text) eqn:Hv; [|done].
  by destruct text.
Qed.

Lemma fill_quote_form_effect (w : World) (name type coverage : string) :
  run w (fill_quote_form name type coverage) =
  set_window
    (set_document
       (set_coverageAmount (Html.number_value coverage)
          (set_insuranceType (Html.select_value insuranceType_options type)
             (set_customerName (Html.strip_newlines name) (document (window w)))))
       (window w)) w.
Proof. destruct_world w. unfold run, fill_quote_form. simpl. js_cbv. reflexivity. Qed.

(** C4.  Whatever the visitor puts in the three fields of the quote form,
    submitQuoteRequest goes through exactly when the name is not empty, an
    insurance type is chosen and the coverage amount is a valid number.  If
    one of the three texts is empty, or the coverage amount does not parse
    as a number, the call reports an error and changes nothing but the
    status line: no counter, no identifier and no item for the SDK.  When
    the call goes through, the new quote is counted and the SDK gets one
    QuoteRequested event whose coverageAmount measurement is the parsed
    coverage amount, a number and never NaN. *)
Theorem submitQuoteRequest_validation (w : World) (name type coverage : string) :
  sdk_loaded (window w) = true →
  let w1 := run w (fill_quote_form name type coverage) in
  let w' := step w1 SubmitQuoteRequest in
  let quoteId := "quote_" +:+ Js.Z_toString (next_time (window w)) in
  let accepted :=
    Js.truthy_string (Html.strip_newlines name)
    && Js.truthy_string (Html.select_value insuranceType_options type)
    && Html.valid_floating_point_number coverage in
  succeeded w' = accepted ∧ failed w' = negb accepted ∧
  (name = "" ∨ type = "" ∨ coverage = "" ∨ Js.parseFloat coverage = Js.NaN →
   accepted = false) ∧
  (accepted = false →
   same_but_status w1 w' ∧ this w' = this w ∧
   telemetry (window w') = telemetry (window w)) ∧
  (accepted = true →
   Js.parseFloat coverage ≠ Js.NaN ∧
   currentQuoteId (this w') = Some quoteId ∧
   quoteRequests (metrics (this w')) = S (quoteRequests (metrics (this w))) ∧
   telemetry (window w') =
     telemetry (window w)
     ++ [QuoteRequested_event (this w) quoteId type (Js.parseFloat coverage)]).
Proof.
  intros Hsdk w1 w' quoteId accepted.
  pose proof (submitQuoteRequest_succeeded w1) as Hs.
  pose proof (submitQuoteRequest_effect w1) as He. cbv zeta in He.
  pose proof (fill_quote_form_effect w name type coverage) as Hw1. fold w1 in Hw1.
  assert (this w1 = this w ∧ telemetry (window w1) = telemetry (window w) ∧
          appInsights (window w1) = appInsights (window w) ∧
          next_time (window w1) = next_time (window w) ∧
          customerName (document (window w1)) = Html.strip_newlines name ∧
          insuranceType (document (window w1))
            = Html.select_value insuranceType_options type ∧
          coverageAmount (document (window w1)) = Html.number_value coverage)
    as (Hthis & Htel & Happ & Htime & Hname & Htype & Hcov).
  { rewrite Hw1. clear. destruct_world w. js_cbv. done. }
  rewrite Hname, Htype, Hcov, number_value_truthy in Hs. fold w' accepted in Hs.
  fold w' in He. rewrite Hs in He.
  split; [exact Hs|].
  split; [unfold w'; by rewrite guarded_failed, <- Hs by reflexivity|].
  split.
  { intros [->|[->|[->|Hnan]]]; subst accepted; simpl.
    - done.
    - by rewrite andb_false_r.
    - by rewrite andb_false_r.
    - destruct (Html.valid_floating_point_number coverage) eqn:Hv;
        [by apply valid_number_parses in Hv|by rewrite andb_false_r]. }
  split; intros Hacc; rewrite Hacc in He.
  - split; [exact He|].
    destruct (same_but_status_frame _ _ He) as (-> & _ & _ & ->). by rewrite Hthis, Htel.
  - subst accepted.
    apply andb_prop in Hacc as [Hacc Hvalid]. apply andb_prop in Hacc as [_ Hopt].
    split; [by apply valid_number_parses|].
    destruct He as (Ht & _ & Hsent). rewrite Ht, Hsent, Hthis, Happ, Htime, Htype, Hcov.
    split; [done|]. split; [done|].
    unfold Html.number_value. rewrite Hvalid.
    unfold Html.select_value in Hopt |- *.
    destruct (existsb _ _); [|discriminate Hopt].
    unfold telemetry, sdk_loaded in *. by destruct (appInsights (window w)).
Qed.

Lemma submitQuoteRequest_validation_witness :
  let w0 := new_AnalyticsManager (exec snippet (browser None ticking)) in
  let w := run w0 (fill_quote_form "Alice" "auto" "50000") in
  (failed (step (run w0 (fill_quote_form "Alice" "auto" "abc")) SubmitQuoteRequest) = true ∧
   quoteRequests
     (metrics (this (step (run w0 (fill_quote_form "Alice" "auto" "abc"))
                       SubmitQuoteRequest))) = 0 ∧
   telemetry (window (step (run w0 (fill_quote_form "Alice" "auto" "abc"))
                        SubmitQuoteRequest)) = telemetry (window w0)) ∧
  (succeeded (step w SubmitQuoteRequest) = true ∧
   currentQuoteId (this (step w SubmitQuoteRequest)) = Some "quote_1710460800003" ∧
   quoteRequests (metrics (this (step w SubmitQuoteRequest))) = 1 ∧
   telemetry (window (step w SubmitQuoteRequest)) =
     telemetry (window w0)
     ++ [QuoteRequested_event (this w0) "quote_1710460800003" "auto" (Js.Fin 50000)]).
Proof.
  intros w0 w. split.
  - destruct (submitQuoteRequest_validation w0 "Alice" "auto" "abc")
      as (_ & Hfail & Hnan & Hframe & _); [vm_compute; reflexivity|].
    assert (Js.truthy_string (Html.strip_newlines "Alice")
            && Js.truthy_string (Html.select_value insuranceType_options "auto")
            && Html.valid_floating_point_number "abc" = false) as Hrej
      by (apply Hnan; right; right; right; vm_compute; reflexivity).
    destruct (Hframe Hrej) as (_ & Hthis & Htel).
    split; [rewrite Hfail, Hrej; reflexivity|].
    split; [rewrite Hthis; vm_compute; reflexivity|exact Htel].
  - destruct (submitQuoteRequest_validation w0 "Alice" "auto" "50000")
      as (Hok & _ & _ & _ & Hacc); [vm_compute; reflexivity|].
    fold w in Hok, Hacc.
    destruct Hacc as (_ & Hq & Hn & Htel); [vm_compute; reflexivity|].
    split; [rewrite Hok; vm_compute; reflexivity|].
    split; [rewrite Hq; vm_compute; reflexivity|].
    split; [rewrite Hn; vm_compute; reflexivity|].
    rewrite Htel. do 2 f_equal; vm_compute; reflexivity.
Defined.

(** The method itself only tests the three values for emptiness; that a
    text which is no number never reaches it is the doing of the number
    field.  Were the field to hold such a text, the request would go
    through with NaN as the measurement. *)
Example submitQuoteRequest_relies_on_the_field :
  let w0 := new_AnalyticsManager (exec snippet (browser None ticking)) in
  let w := run w0 (fill_quote_form "Alice" "auto" "50000") in
  let d := document (window w) in
  let text_field := set_window (set_document (set_coverageAmount "abc" d) (window w)) w in
  coverageAmount (document (window (step w (Input CoverageAmount "abc")))) = "" ∧
  succeeded (step text_field SubmitQuoteRequest) = true ∧
  last (telemetry (window (step text_field SubmitQuoteRequest))) =
    Some (QuoteRequested_event (this w) "quote_1710460800003" "auto" Js.NaN).
Proof. vm_compute. repeat split; reflexivity. Qed.

(** ** The A/B test *)

Lemma Qltb_lt (a b : Q) : Js.Qltb a b = true ↔ (a < b)%Q.
Proof. unfold Js.Qltb, Qlt. apply Z.ltb_lt. Qed.

Lemma conversionRate_other (variant : string) :
  variant ≠ "variant_a" → conversionRate variant = Js.literal (22 # 100).
Proof.
  intros Hne. unfold conversionRate.
  destruct (String.eqb variant "variant_a") eqn:E; [|reflexivity].
  by apply String.eqb_eq in E.
Qed.

(** The doubles the literals [0.15] and [0.22] stand for. *)
Lemma conversion_rates :
  Js.literal (15 # 100) = 5404319552844595 # 36028797018963968 ∧
  Js.literal (22 # 100) = 7926335344172073 # 36028797018963968.
Proof. split; vm_compute; reflexivity. Qed.

(** C6.  For every variant label and every draw, the conversion probability
    is 0.15 for the label "variant_a" and 0.22 for every other label (the
    doubles these literals stand for); the call hands the SDK of the page
    an ABTestParticipation event whatever the draw, followed by an
    ABTestConversion event if and only if the draw is strictly below the
    probability, and nothing else.  The instance is not changed. *)
Theorem runABTest_events (w : World) (variant : string) :
  sdk_loaded (window w) = true →
  let r := next_random (window w) in
  let rate := conversionRate variant in
  let w' := step w (RunABTest variant) in
  (variant = "variant_a" → rate = Js.literal (15 # 100)) ∧
  (variant ≠ "variant_a" → rate = Js.literal (22 # 100)) ∧
  (Js.literal (15 # 100) = 5404319552844595 # 36028797018963968 ∧
   Js.literal (22 # 100) = 7926335344172073 # 36028797018963968) ∧
  (Js.Qltb r rate = true ↔ (r < rate)%Q) ∧
  this w' = this w ∧
  telemetry (window w') =
    telemetry (window w)
    ++ ABTest_event (this w) "ABTestParticipation" variant
       :: (if Js.Qltb r rate
           then [ABTest_event (this w) "ABTestConversion" variant] else []).
Proof.
  intros Hsdk r rate w'.
  split; [by intros ->|]. split; [apply conversionRate_other|].
  split; [exact conversion_rates|]. split; [apply Qltb_lt|].
  subst r rate w'. revert Hsdk. destruct_world w.
  destruct w_sdk as [[]|]; [intros _|discriminate].
  js_simpl; split; try reflexivity.
  all: by rewrite <- app_assoc.
Qed.

Lemma runABTest_events_witness :
  let w := new_AnalyticsManager (exec snippet (browser None ticking)) in
  conversionRate "variant_a" = 5404319552844595 # 36028797018963968 ∧
  conversionRate "variant_b" = 7926335344172073 # 36028797018963968 ∧
  telemetry (window (step w (RunABTest "variant_a"))) =
    telemetry (window w) ++
    [ABTest_event (this w) "ABTestParticipation" "variant_a";
     ABTest_event (this w) "ABTestConversion" "variant_a"].
Proof.
  intros w.
  destruct (runABTest_events w "variant_a") as (Ha & _ & (Hx & Hy) & _ & _ & Htel);
    [vm_compute; reflexivity|].
  destruct (runABTest_events w "variant_b") as (_ & Hb & _); [vm_compute; reflexivity|].
  split; [rewrite Ha by done; exact Hx|]. split; [rewrite Hb by done; exact Hy|].
  rewrite Htel.
  assert (Js.Qltb (next_random (window w)) (conversionRate "variant_a") = true) as ->
    by (vm_compute; reflexivity).
  reflexivity.
Defined.

(** A draw equal to the probability does not convert. *)
Example runABTest_draw_at_the_rate :
  let b := exec snippet (browser None ticking) in
  let w := new_AnalyticsManager b in
  let at_rate := set_window
    {| localStorage := localStorage (window w); document := document (window w);
       appInsights := appInsights (window w); clock := clock (window w);
       ticks := ticks (window w); random := λ _, conversionRate "variant_a";
       draws := draws (window w); toString36 := toString36 (window w);
       Date_parse := Date_parse (window w); localTZA := localTZA (window w);
       device := device (window w); location_href := location_href (window w) |} w in
  event_name <$> drop 1 (telemetry (window (step at_rate (RunABTest "variant_a"))))
    = ["ABTestParticipation"] ∧
  textContent (abTestResults (document (window (step at_rate (RunABTest "variant_a")))))
    = "A/B Test VARIANT_A: No conversion (Simulated rate: 15.0%)".
Proof. vm_compute. split; reflexivity. Qed.

(** ** Completing an application *)

Lemma completeApplication_effect (w : World) :
  Js.truthy (currentApplicationId (this w)) = true →
  Js.truthy_string (personalInfo (document (window w))) = true →
  let w' := step w CompleteApplication in
  succeeded w' = true ∧
  this w' = set_metrics
              (set_applicationsCompleted (S (applicationsCompleted (metrics (this w))))
                 (metrics (this w))) (this w) ∧
  personalInfo (document (window w')) = personalInfo (document (window w)) ∧
  clock (window w') = clock (window w) ∧
  ticks (window w') = S (S (ticks (window w))) ∧
  appInsights (window w') =
    (sdk ← appInsights (window w);
     Some {| sent := sent sdk ++
                     [ApplicationCompleted_event (this w) (next_time (window w));
                      FunnelStep_event (this w) "application_completed"];
             initializers := initializers sdk |}).
Proof.
  destruct_world w. destruct w_sdk as [[]|].
  all: js_cbv; intros Happ Hinfo.
  all: rewrite Happ; cbn [negb]; js_cbv; rewrite Hinfo; cbn [negb]; js_cbv.
  all: repeat split; try reflexivity.
  all: by rewrite <- app_assoc.
Qed.

Lemma completion_events_set_metrics (m : Metrics) (a : AnalyticsManager)
    (clk : nat → Z) (n tick : nat) :
  completion_events (set_metrics m a) clk tick n = completion_events a clk tick n.
Proof. revert tick. induction n as [|n IH]; intros tick; simpl; [done|by rewrite IH]. Qed.

(** C10.  A successful completeApplication leaves the application
    identifier (and the quote identifier) set and no marker records the
    completion; so with an active application and personal information in
    the form, [n] calls in a row all go through, each one counts one more
    completed application, and each one hands the SDK of the page an
    ApplicationCompleted event with that same application identifier,
    followed by a FunnelStep event. *)
Theorem completeApplication_repeatable (w : World) (n : nat) :
  sdk_loaded (window w) = true →
  Js.truthy (currentApplicationId (this w)) = true →
  Js.truthy_string (personalInfo (document (window w))) = true →
  let calls := replicate n CompleteApplication in
  let w' := run w calls in
  currentApplicationId (this w') = currentApplicationId (this w) ∧
  currentQuoteId (this w') = currentQuoteId (this w) ∧
  applicationsCompleted (metrics (this w')) = applicationsCompleted (metrics (this w)) + n ∧
  count_successful is_completeApplication w calls = n ∧
  telemetry (window w') =
    telemetry (window w)
    ++ completion_events (this w) (clock (window w)) (ticks (window w)) n.
Proof.
  revert w. induction n as [|n IH]; intros w Hsdk Happ Hinfo; simpl.
  { repeat split; try lia. by rewrite app_nil_r. }
  destruct (completeApplication_effect w Happ Hinfo)
    as (Hok & Hthis & Hinfo' & Hclk & Hticks & Hnew).
  assert (sdk_loaded (window (step w CompleteApplication)) = true ∧
          telemetry (window (step w CompleteApplication)) =
            telemetry (window w)
            ++ [ApplicationCompleted_event (this w) (next_time (window w));
                FunnelStep_event (this w) "application_completed"]) as [Hsdk' Htel'].
  { unfold sdk_loaded, telemetry in *. rewrite Hnew.
    by destruct (appInsights (window w)). }
  destruct (IH (step w CompleteApplication)) as (Ha & Hq & Hn & Hc & Htel).
  { exact Hsdk'. }
  { by rewrite Hthis. }
  { by rewrite Hinfo'. }
  rewrite Ha, Hq, Hn, Hc, Htel, Htel', Hok, Hthis, Hclk, Hticks.
  rewrite completion_events_set_metrics.
  repeat split; [simpl; lia|]. by rewrite <- app_assoc.
Qed.

Lemma completeApplication_repeatable_witness :
  let w0 := new_AnalyticsManager (exec snippet (browser None ticking)) in
  let w := run w0 (fill_quote_form "Alice" "auto" "50000" ++
                   [SubmitQuoteRequest; StartApplication;
                    Input PersonalInfo "Alice Smith, 123 Main St"]) in
  let w' := run w (replicate 3 CompleteApplication) in
  currentApplicationId (this w') = Some "app_1710460800005" ∧
  applicationsCompleted (metrics (this w')) = 3 ∧
  drop 4 (telemetry (window w')) =
    [ApplicationCompleted_event (this w) 1710460800007;
     FunnelStep_event (this w) "application_completed";
     ApplicationCompleted_event (this w) 1710460800009;
     FunnelStep_event (this w) "application_completed";
     ApplicationCompleted_event (this w) 1710460800011;
     FunnelStep_event (this w) "application_completed"] ∧
  lookup_property "applicationId" (properties_of (ApplicationCompleted_event (this w) 0))
    = Some (VStr "app_1710460800005").
Proof.
  intros w0 w w'.
  destruct (completeApplication_repeatable w 3) as (Ha & _ & Hn & _ & Htel);
    [vm_compute; reflexivity..|].
  fold w' in Ha, Hn, Htel.
  split; [rewrite Ha; vm_compute; reflexivity|].
  split; [rewrite Hn; vm_compute; reflexivity|].
  split; [rewrite Htel; vm_compute; reflexivity|].
  vm_compute; reflexivity.
Defined.

(** ** Cohort identifiers *)

Lemma pretty_N_char_digit (x : N) : (x < 10)%N → pretty_N_char x = digit (Z.of_N x).
Proof.
  intros Hx.
  assert (x = 0 ∨ x = 1 ∨ x = 2 ∨ x = 3 ∨ x = 4 ∨ x = 5 ∨ x = 6 ∨ x = 7 ∨ x = 8 ∨ x = 9)%N
    as Hcases by lia.
  repeat (destruct Hcases as [->|Hcases]; [reflexivity|]). by subst.
Qed.

(** One decimal digit, printed. *)
Lemma pretty_N_go_digit (x : N) (s : string) :
  (0 < x)%N →
  pretty_N_go x s = pretty_N_go (x `div` 10) (String (digit (Z.of_N (x `mod` 10))) s).
Proof.
  intros Hx. rewrite pretty_N_go_step by done.
  by rewrite pretty_N_char_digit by (apply N.mod_lt; lia).
Qed.

Lemma Z_toString_two_digits (z : Z) :
  (10 ≤ z ≤ 99)%Z → Js.Z_toString z = two_digits z.
Proof.
  intros Hz. unfold Js.Z_toString, two_digits.
  destruct z as [|p|p]; try lia.
  change (pretty (Z.pos p)) with (pretty (N.pos p)).
  unfold pretty, pretty_N. rewrite decide_False by done.
  rewrite pretty_N_go_digit by lia.
  rewrite pretty_N_go_digit by (apply N.div_str_pos; lia).
  assert ((N.pos p `div` 10) `div` 10 = 0)%N as ->
    by (rewrite N.Div0.div_div; apply N.div_small; lia).
  rewrite pretty_N_go_0.
  rewrite !N2Z.inj_mod, !N2Z.inj_div. simpl Z.of_N.
  repeat f_equal. rewrite Z.mod_small; [done|].
  split; [apply Z.div_pos; lia|apply Z.div_lt_upper_bound; lia].
Qed.

Lemma Z_toString_one_digit (z : Z) :
  (0 ≤ z ≤ 9)%Z → Js.Z_toString z = String (digit z) "".
Proof.
  intros Hz.
  assert (z = 0 ∨ z = 1 ∨ z = 2 ∨ z = 3 ∨ z = 4 ∨ z = 5 ∨ z = 6 ∨ z = 7 ∨ z = 8 ∨ z = 9)%Z
    as Hcases by lia.
  repeat (destruct Hcases as [->|Hcases]; [reflexivity|]). by subst.
Qed.

Lemma Z_toString_four_digits (z : Z) :
  (1000 ≤ z ≤ 9999)%Z → Js.Z_toString z = four_digits z.
Proof.
  intros Hz. unfold Js.Z_toString, four_digits.
  destruct z as [|p|p]; try lia.
  change (pretty (Z.pos p)) with (pretty (N.pos p)).
  unfold pretty, pretty_N. rewrite decide_False by done.
  rewrite pretty_N_go_digit by lia.
  rewrite pretty_N_go_digit by (apply N.div_str_pos; lia).
  rewrite pretty_N_go_digit
    by (rewrite N.Div0.div_div; apply N.div_str_pos; lia).
  rewrite pretty_N_go_digit
    by (rewrite !N.Div0.div_div; apply N.div_str_pos; lia).
  assert ((((N.pos p `div` 10) `div` 10) `div` 10) `div` 10 = 0)%N as ->
    by (rewrite !N.Div0.div_div; apply N.div_small; lia).
  rewrite pretty_N_go_0.
  rewrite !N.Div0.div_div. simpl (_ * _)%N.
  rewrite !N2Z.inj_mod, !N2Z.inj_div. simpl Z.of_N.
  repeat f_equal. rewrite Z.mod_small; [done|].
  split; [apply Z.div_pos; lia|apply Z.div_lt_upper_bound; lia].
Qed.

(** A month written by [padStart(2, "0")]. *)
Lemma padStart_month (m : Z) :
  (1 ≤ m ≤ 12)%Z → Js.padStart 2 "0" (Js.Z_toString m) = two_digits m.
Proof.
  intros Hm. destruct (decide (m ≤ 9)%Z).
  - rewrite Z_toString_one_digit by lia. unfold two_digits.
    rewrite Z.div_small, Z.mod_small by lia. reflexivity.
  - by rewrite Z_toString_two_digits by lia.
Qed.

(** The month of the calendar algorithm is a month. *)
Lemma civil_month_range (days : Z) :
  (1 ≤ (Js.civil_from_days days).1.2 ≤ 12)%Z.
Proof.
  unfold Js.civil_from_days. cbv zeta. cbn [fst snd].
  set (z := (days + 719468)%Z).
  set (doe := (z - z `div` 146097 * 146097)%Z).
  assert (0 ≤ doe < 146097)%Z as Hdoe.
  { subst doe. pose proof (Z.mod_pos_bound z 146097 eq_refl) as Hmod.
    rewrite Z.mod_eq in Hmod by lia. lia. }
  clearbody doe. clear z.
  set (yoe := ((doe - doe `div` 1460 + doe `div` 36524 - doe `div` 146096) `div` 365)%Z).
  set (doy := (doe - (365 * yoe + yoe `div` 4 - yoe `div` 100))%Z).
  assert (0 ≤ doy ≤ 365)%Z as Hdoy.
  { subst doy yoe. Z.div_mod_to_equations. lia. }
  clearbody doy. clear yoe.
  set (mp := ((5 * doy + 2) `div` 153)%Z).
  assert (0 ≤ mp ≤ 11)%Z as Hmp by (subst mp; Z.div_mod_to_equations; lia).
  clearbody mp. destruct (mp <? 10)%Z eqn:E; [apply Z.ltb_lt in E|apply Z.ltb_ge in E]; lia.
Qed.

Lemma month_range (t : Z) : (1 ≤ Js.MonthFromTime t + 1 ≤ 12)%Z.
Proof.
  unfold Js.MonthFromTime.
  pose proof (civil_month_range (t `div` Js.msPerDay)). lia.
Qed.

(** The days of March 2024. *)
Lemma civil_march_2024 (days : Z) :
  (19783 ≤ days ≤ 19813)%Z →
  (Js.civil_from_days days).1.1 = 2024%Z ∧ (Js.civil_from_days days).1.2 = 3%Z.
Proof.
  intros Hd. unfold Js.civil_from_days. cbv zeta. cbn [fst snd].
  assert ((days + 719468) `div` 146097 = 5)%Z as -> by (Z.div_mod_to_equations; lia).
  set (doe := (days + 719468 - 5 * 146097)%Z).
  assert (8766 ≤ doe ≤ 8796)%Z as Hdoe by (subst doe; lia). clearbody doe.
  assert (doe `div` 1460 = 6)%Z as -> by (Z.div_mod_to_equations; lia).
  assert (doe `div` 36524 = 0)%Z as -> by (Z.div_mod_to_equations; lia).
  assert (doe `div` 146096 = 0)%Z as -> by (Z.div_mod_to_equations; lia).
  assert ((doe - 6 + 0 - 0) `div` 365 = 24)%Z as -> by (Z.div_mod_to_equations; lia).
  change (24 `div` 4)%Z with 6%Z. change (24 `div` 100)%Z with 0%Z.
  assert ((5 * (doe - (365 * 24 + 6 - 0)) + 2) `div` 153 = 0)%Z as ->
    by (Z.div_mod_to_equations; lia).
  done.
Qed.

Lemma cohortId_of_march_2024 (localTime : Z) :
  (1709251200000 ≤ localTime < 1711929600000)%Z →
  cohortId_of localTime = "cohort_2024_03".
Proof.
  intros Ht. unfold cohortId_of, Js.YearFromTime, Js.MonthFromTime.
  destruct (civil_march_2024 (localTime `div` Js.msPerDay)) as [-> ->];
    [|reflexivity].
  unfold Js.msPerDay. Z.div_mod_to_equations. lia.
Qed.

(** C7.  getCohortId returns "cohort_", the year of the current local date
    in decimal, an underscore, and the month of that date (1 to 12) written
    with two digits, a leading zero for January to September; the year takes
    four digits for the years 1000 to 9999.  On every date of March 2024 the
    result is exactly "cohort_2024_03". *)
Theorem getCohortId_format (b : Browser) :
  let localTime := (next_time b + localTZA b (next_time b))%Z in
  let year := Js.YearFromTime localTime in
  let month := (Js.MonthFromTime localTime + 1)%Z in
  (1 ≤ month ≤ 12)%Z ∧
  eval getCohortId b = "cohort_" +:+ Js.Z_toString year +:+ "_" +:+ two_digits month ∧
  ((1000 ≤ year ≤ 9999)%Z →
   eval getCohortId b = "cohort_" +:+ four_digits year +:+ "_" +:+ two_digits month) ∧
  ((1709251200000 ≤ localTime < 1711929600000)%Z →
   eval getCohortId b = "cohort_2024_03").
Proof.
  intros localTime year month.
  assert (eval getCohortId b = cohortId_of localTime) as -> by reflexivity.
  pose proof (month_range localTime) as Hm. fold month in Hm.
  assert (cohortId_of localTime
          = "cohort_" +:+ Js.Z_toString year +:+ "_" +:+ two_digits month) as Hfmt.
  { unfold cohortId_of. fold year month. by rewrite padStart_month. }
  split; [exact Hm|]. split; [exact Hfmt|]. split.
  - intros Hy. by rewrite Hfmt, Z_toString_four_digits.
  - apply cohortId_of_march_2024.
Qed.

(** The join date of the specification, 2024-03-15, in a browser on UTC. *)
Lemma getCohortId_format_witness :
  let b := browser loaded_sdk ticking in
  Js.toISOString (next_time b) = "2024-03-15T00:00:00.000Z" ∧
  eval getCohortId b = "cohort_" +:+ four_digits 2024 +:+ "_" +:+ two_digits 3 ∧
  eval getCohortId b = "cohort_2024_03".
Proof.
  intros b. destruct (getCohortId_format b) as (_ & _ & Hyear & Hmarch).
  split; [vm_compute; reflexivity|].
  split; [|apply Hmarch; vm_compute; split; [discriminate|reflexivity]].
  etrans; [apply Hyear|vm_compute; reflexivity].
  vm_compute. split; discriminate.
Defined.

(** ** The persistent user identifier *)

Lemma getOrCreateUserId_stored (b : Browser) :
  Js.truthy (localStorage b !! "app_insights_user_id") = true →
  localStorage b !! "app_insights_user_id" = Some (eval getOrCreateUserId b) ∧
  exec getOrCreateUserId b = b.
Proof.
  destruct b as [? d ? ? ? ? ? ? ? ? ? ?]. js_cbv. intros Hstored.
  rewrite Hstored. cbn [negb]. js_cbv.
  destruct (_ !! _) as [s|]; [done|discriminate].
Qed.

Lemma getOrCreateUserId_generated (b : Browser) :
  Js.truthy (localStorage b !! "app_insights_user_id") = false →
  eval getOrCreateUserId b = generated_userId b ∧
  exec getOrCreateUserId b =
    set_localStorage (<["app_insights_user_id" := generated_userId b]> (localStorage b))
      (set_draws (S (draws b)) (set_ticks (S (ticks b)) b)).
Proof.
  destruct b as [? d ? ? ? ? ? ? ? ? ? ?]. js_cbv. intros Hstored.
  rewrite Hstored. cbn [negb]. js_cbv. done.
Qed.

Lemma generated_userId_truthy (b : Browser) : Js.truthy (Some (generated_userId b)) = true.
Proof. reflexivity. Qed.

(** The identifier is never empty, and it is in the storage afterwards. *)
Lemma getOrCreateUserId_result (b : Browser) :
  Js.truthy (Some (eval getOrCreateUserId b)) = true ∧
  localStorage (exec getOrCreateUserId b) !! "app_insights_user_id"
    = Some (eval getOrCreateUserId b).
Proof.
  destruct (Js.truthy (localStorage b !! "app_insights_user_id")) eqn:Hstored.
  - destruct (getOrCreateUserId_stored b Hstored) as [Hid ->].
    split; [by rewrite <- Hid|exact Hid].
  - destruct (getOrCreateUserId_generated b Hstored) as [-> ->].
    split; [reflexivity|]. destruct b. apply lookup_insert_eq.
Qed.

(** simulateNewVisitor removes the stored identifier. *)
Lemma simulateNewVisitor_resets (w : World) :
  localStorage (window (step w SimulateNewVisitor)) !! "app_insights_user_id" = None.
Proof.
  destruct_world w. js_simpl.
  all: rewrite lookup_insert_ne by done.
  all: rewrite lookup_delete_ne by done.
  all: apply lookup_delete_eq.
Qed.

Lemma occurs_append (c : ascii) (s1 s2 : string) :
  occurs c (s1 +:+ s2) = occurs c s1 || occurs c s2.
Proof. induction s1 as [|a s1 IH]; simpl; [done|]. by rewrite IH, orb_assoc. Qed.

(** The decimal digits of a number hold no underscore. *)
Lemma pretty_N_go_underscore (x : N) (s : string) :
  occurs "_" s = false → occurs "_" (pretty_N_go x s) = false.
Proof.
  revert s. induction (N.lt_wf_0 x) as [x _ IH]; intros s Hs.
  assert (x = 0 ∨ 0 < x)%N as [->|Hx] by lia; [by rewrite pretty_N_go_0|].
  rewrite pretty_N_go_step by done. apply IH; [by apply N.div_lt|].
  simpl. rewrite Hs. unfold pretty_N_char. by repeat case_match.
Qed.

Lemma Z_toString_underscore (z : Z) : occurs "_" (Js.Z_toString z) = false.
Proof.
  assert (∀ p, occurs "_" (pretty (N.pos p)) = false) as Hpos.
  { intros p. unfold pretty, pretty_N. rewrite decide_False by done.
    by apply pretty_N_go_underscore. }
  destruct z as [|p|p]; [done|apply Hpos|].
  change (Js.Z_toString (Z.neg p)) with ("-" +:+ pretty (N.pos p)).
  by rewrite occurs_append, Hpos.
Qed.

(** Two strings cut at their first underscore. *)
Lemma append_underscore_inj (a b x y : string) :
  occurs "_" a = false → occurs "_" b = false →
  a +:+ String "_" x = b +:+ String "_" y → a = b.
Proof.
  revert b. induction a as [|c a IH]; intros [|c' b]; simpl; intros Ha Hb Heq.
  - done.
  - injection Heq as <- _. by rewrite Ascii.eqb_refl in Hb.
  - injection Heq as -> _. by rewrite Ascii.eqb_refl in Ha.
  - injection Heq as -> Heq. apply orb_false_elim in Ha as [_ Ha].
    apply orb_false_elim in Hb as [_ Hb]. f_equal. by apply IH.
Qed.

(** Two identifiers made up are the same exactly when the clock reading and
    the random suffix are. *)
Lemma generated_userId_inj (b1 b2 : Browser) :
  generated_userId b1 = generated_userId b2 ↔
  next_time b1 = next_time b2 ∧ next_suffix b1 = next_suffix b2.
Proof.
  unfold generated_userId. split; [|by intros [-> ->]].
  intros Heq. apply (inj (String.append "user_")) in Heq.
  assert (Js.Z_toString (next_time b1) = Js.Z_toString (next_time b2)) as Ht
    by (eapply append_underscore_inj; eauto using Z_toString_underscore).
  rewrite Ht in Heq. apply (inj (String.append _)) in Heq. injection Heq as Hs.
  split; [by apply (inj pretty) in Ht|exact Hs].
Qed.

(** *** The identifier of a session *)

(** What the parts of the constructor leave of the browser they find. *)
Lemma generateSessionId_exec (b : Browser) :
  exec generateSessionId b = set_draws (S (draws b)) (set_ticks (S (ticks b)) b).
Proof. by destruct b. Qed.

Lemma getOrCreateUserId_frame (b : Browser) :
  document (exec getOrCreateUserId b) = document b ∧
  appInsights (exec getOrCreateUserId b) = appInsights b.
Proof.
  destruct (Js.truthy (localStorage b !! "app_insights_user_id")) eqn:Hstored.
  - by destruct (getOrCreateUserId_stored b Hstored) as [_ ->].
  - destruct (getOrCreateUserId_generated b Hstored) as [_ ->]. by destruct b.
Qed.

Lemma initializeTracking_exec (w : World) :
  this (exec (initializeTracking;; startSessionTimer) w) = this w ∧
  document (window (exec (initializeTracking;; startSessionTimer) w))
    = set_deviceInfo_display "block" (document (window w)) ∧
  localStorage (window (exec (initializeTracking;; startSessionTimer) w))
    = localStorage (window w) ∧
  sdk_loaded (window (exec (initializeTracking;; startSessionTimer) w))
    = sdk_loaded (window w).
Proof.
  destruct_world w. destruct w_sdk as [[]|]; unfold sdk_loaded; js_run; done.
Qed.

(** The constructor takes the identifier that getOrCreateUserId returns
    after the session identifier has been made, and leaves it stored. *)
Lemma new_AnalyticsManager_userId (b : Browser) :
  let b1 := exec generateSessionId b in
  userId (this (new_AnalyticsManager b)) = eval getOrCreateUserId b1 ∧
  localStorage (window (new_AnalyticsManager b)) !! "app_insights_user_id"
    = Some (eval getOrCreateUserId b1) ∧
  localStorage b1 = localStorage b.
Proof.
  intros b1. unfold new_AnalyticsManager. cbv zeta.
  match goal with |- context [exec _ ?w] =>
    destruct (initializeTracking_exec w) as (-> & _ & -> & _) end.
  cbn [this window userId].
  change ((generateSessionId b).2) with b1.
  change ((getOrCreateUserId b1).1) with (eval getOrCreateUserId b1).
  change ((getOrCreateUserId b1).2) with (exec getOrCreateUserId b1).
  destruct (getOrCreateUserId_result b1) as [_ Hstored].
  split; [reflexivity|]. split; [|by destruct b].
  rewrite <- Hstored. by destruct (exec getOrCreateUserId b1).
Qed.

(** Only simulateNewVisitor touches the stored identifier, and it removes
    it. *)
Lemma stored_userId_run (ops : list Op) (w : World) :
  existsb is_simulateNewVisitor ops = false →
  localStorage (window (run w ops)) !! "app_insights_user_id"
    = localStorage (window w) !! "app_insights_user_id".
Proof.
  revert w. induction ops as [|op ops IH]; intros w Hops; simpl in *; [done|].
  apply orb_false_elim in Hops as [Hop Hops]. rewrite IH by done.
  apply storage_step. by destruct op.
Qed.

Lemma removed_userId_run (ops : list Op) (w : World) :
  localStorage (window w) !! "app_insights_user_id" = None →
  localStorage (window (run w ops)) !! "app_insights_user_id" = None.
Proof.
  revert w. induction ops as [|op ops IH]; intros w Hw; simpl; [done|].
  apply IH. destruct (is_simulateNewVisitor op) eqn:Hop.
  - destruct op; try discriminate Hop. apply simulateNewVisitor_resets.
  - rewrite storage_step; [done|by destruct op].
Qed.

(** C8, as the code has it.  getOrCreateUserId never returns the empty
    string, and calling it again on the storage it leaves returns the same
    identifier and changes nothing; in a session the identifier of the
    instance is what every further call returns, and what the next
    instance made in that browser gets, as long as simulateNewVisitor is
    not called.  After simulateNewVisitor has removed the stored
    identifier, the next call makes up a new one from the clock reading and
    the random draw it gets, whatever was stored before.  Two identifiers
    made up are equal exactly when both the clock reading and the random
    suffix coincide: the one after the reset differs from the one before
    whenever the clock reading or the suffix differs, and only then. *)
Theorem getOrCreateUserId_identity (b : Browser) :
  let id := eval getOrCreateUserId b in
  let b' := exec getOrCreateUserId b in
  (id ≠ "" ∧ eval getOrCreateUserId b' = id ∧ exec getOrCreateUserId b' = b') ∧
  (Js.truthy (localStorage b !! "app_insights_user_id") = false →
   id = generated_userId b) ∧
  (∀ b1 b2, generated_userId b1 = generated_userId b2 ↔
            next_time b1 = next_time b2 ∧ next_suffix b1 = next_suffix b2) ∧
  (∀ ops, existsb is_simulateNewVisitor ops = false →
     let w := run (new_AnalyticsManager b) ops in
     userId (this w) ≠ "" ∧
     eval getOrCreateUserId (window w) = userId (this w) ∧
     exec getOrCreateUserId (window w) = window w ∧
     userId (this (new_AnalyticsManager (window w))) = userId (this w)) ∧
  (∀ ops ops',
     let w := run (new_AnalyticsManager b) ops in
     let reset := run (step w SimulateNewVisitor) ops' in
     let b1 := exec generateSessionId b in
     let b2 := exec generateSessionId (window reset) in
     eval getOrCreateUserId (window reset) = generated_userId (window reset) ∧
     userId (this (new_AnalyticsManager (window reset))) = generated_userId b2 ∧
     (Js.truthy (localStorage b !! "app_insights_user_id") = false →
      userId (this w) = generated_userId b1 ∧
      (userId (this (new_AnalyticsManager (window reset))) = userId (this w) ↔
       next_time b2 = next_time b1 ∧ next_suffix b2 = next_suffix b1))).
Proof.
  intros id b'. destruct (getOrCreateUserId_result b) as [Hne Hstored].
  fold id in Hne, Hstored. fold b' in Hstored.
  assert (Js.truthy (localStorage b' !! "app_insights_user_id") = true) as Htruthy
    by (by rewrite Hstored).
  destruct (getOrCreateUserId_stored b' Htruthy) as [Hsame Hfix].
  split.
  { split; [by intros E; rewrite E in Hne|].
    split; [rewrite Hstored in Hsame; by injection Hsame|exact Hfix]. }
  split; [intros Hnone; by destruct (getOrCreateUserId_generated b Hnone)|].
  split; [apply generated_userId_inj|].
  pose proof (new_AnalyticsManager_userId b) as H0. cbv zeta in H0.
  destruct H0 as (Hid0 & Hls0 & Hb1).
  destruct (getOrCreateUserId_result (exec generateSessionId b)) as [Hne0 _].
  rewrite <- Hid0 in Hne0, Hls0.
  split.
  - intros ops Hops w.
    assert (userId (this w) = userId (this (new_AnalyticsManager b))) as Hid
      by apply identity_run.
    assert (localStorage (window w) !! "app_insights_user_id" = Some (userId (this w)))
      as Hls by (rewrite Hid; unfold w; by rewrite stored_userId_run).
    assert (Js.truthy (localStorage (window w) !! "app_insights_user_id") = true) as Ht
      by (rewrite Hls, Hid; exact Hne0).
    destruct (getOrCreateUserId_stored (window w) Ht) as [Hret Hsame'].
    rewrite Hls in Hret. injection Hret as Hret.
    split; [rewrite Hid; by intros E; rewrite E in Hne0|].
    split; [done|]. split; [done|].
    pose proof (new_AnalyticsManager_userId (window w)) as H1. cbv zeta in H1.
    destruct H1 as (-> & _ & Hls').
    assert (Js.truthy (localStorage (exec generateSessionId (window w))
                         !! "app_insights_user_id") = true) as Ht'
      by (by rewrite Hls').
    destruct (getOrCreateUserId_stored _ Ht') as [Hret' _].
    rewrite Hls', Hls in Hret'. by injection Hret'.
  - intros ops ops' w reset b1 b2.
    assert (localStorage (window reset) !! "app_insights_user_id" = None) as Hnone
      by (apply removed_userId_run, simulateNewVisitor_resets).
    assert (Js.truthy (localStorage (window reset) !! "app_insights_user_id") = false)
      as Hf by (by rewrite Hnone).
    destruct (getOrCreateUserId_generated _ Hf) as [Hgen _].
    pose proof (new_AnalyticsManager_userId (window reset)) as H2. cbv zeta in H2.
    destruct H2 as (Hid2 & _ & Hls2). fold b2 in Hid2, Hls2.
    assert (Js.truthy (localStorage b2 !! "app_insights_user_id") = false) as Hf2
      by (by rewrite Hls2).
    destruct (getOrCreateUserId_generated _ Hf2) as [Hgen2 _].
    split; [exact Hgen|]. split; [by rewrite Hid2|].
    intros Hfirst.
    assert (userId (this w) = generated_userId b1) as Hold.
    { unfold w. rewrite (proj1 (proj2 (identity_run _ _))), Hid0.
      apply getOrCreateUserId_generated. unfold b1. by rewrite Hb1. }
    split; [exact Hold|]. rewrite Hid2, Hgen2, Hold. apply generated_userId_inj.
Qed.

Lemma getOrCreateUserId_identity_witness :
  let b := exec snippet (browser None ticking) in
  let w := run (new_AnalyticsManager b) [TrackPageView_ "HomePage"] in
  let reset := step w SimulateNewVisitor in
  userId (this w) = "user_1710460800001_3llllllll" ∧
  eval getOrCreateUserId (window w) = "user_1710460800001_3llllllll" ∧
  userId (this (new_AnalyticsManager (window w))) = "user_1710460800001_3llllllll" ∧
  userId (this (new_AnalyticsManager (window reset))) = "user_1710460800006_3llllllll" ∧
  userId (this (new_AnalyticsManager (window reset))) ≠ userId (this w).
Proof.
  intros b w reset.
  destruct (getOrCreateUserId_identity b) as (_ & _ & _ & Hsession & Hreset).
  destruct (Hsession [TrackPageView_ "HomePage"] eq_refl) as (_ & Hcall & _ & Hnext).
  pose proof (Hreset [TrackPageView_ "HomePage"] []) as Hafter. cbv zeta in Hafter.
  change (run (new_AnalyticsManager b) [TrackPageView_ "HomePage"]) with w in Hafter.
  change (run (step w SimulateNewVisitor) []) with reset in Hafter.
  destruct Hafter as (_ & Hnew & Hfirst).
  destruct Hfirst as (Hold & Hiff); [vm_compute; reflexivity|].
  fold w in Hcall, Hnext.
  assert (userId (this w) = "user_1710460800001_3llllllll") as Hid
    by (rewrite Hold; vm_compute; reflexivity).
  split; [exact Hid|]. split; [by rewrite Hcall|]. split; [by rewrite Hnext|].
  split; [rewrite Hnew; vm_compute; reflexivity|].
  intros Heq. apply Hiff in Heq as [Htime _]. vm_compute in Htime. discriminate Htime.
Defined.

(** C8 as stated does not hold: the identifier after the reset need not
    differ.  With the clock standing still and the same random draw, the
    identifier the next instance gets after simulateNewVisitor is the one
    of before. *)
Lemma getOrCreateUserId_same_after_reset :
  let w := new_AnalyticsManager (exec snippet (browser None frozen)) in
  let reset := step w SimulateNewVisitor in
  userId (this w) = "user_1710460800000_3llllllll" ∧
  localStorage (window w) !! "app_insights_user_id" = Some (userId (this w)) ∧
  localStorage (window reset) !! "app_insights_user_id" = None ∧
  eval getOrCreateUserId (window reset) = userId (this w) ∧
  userId (this (new_AnalyticsManager (window reset))) = userId (this w).
Proof. vm_compute. repeat split; reflexivity. Qed.

(** ** Further properties of the class *)

(** *** Page views *)

Lemma pageViews_step (w : World) (op : Op) :
  pageViewCount (this (step w op))
    = pageViewCount (this w) + (if is_trackPageView op then 1 else 0) ∧
  pageViews (metrics (this (step w op)))
    = pageViews (metrics (this w)) + (if is_trackPageView op then 1 else 0).
Proof. destruct_world w. destruct op; cbn [is_trackPageView]; js_simpl; lia. Qed.

Lemma pageViews_run (ops : list Op) (w : World) :
  pageViewCount (this (run w ops))
    = pageViewCount (this w) + count_ops is_trackPageView ops ∧
  pageViews (metrics (this (run w ops)))
    = pageViews (metrics (this w)) + count_ops is_trackPageView ops.
Proof.
  revert w. induction ops as [|op ops IH]; intros w; simpl; [lia|].
  destruct (IH (step w op)) as [-> ->].
  destruct (pageViews_step w op) as [-> ->]. lia.
Qed.

Lemma new_AnalyticsManager_window (b : Browser) :
  sdk_loaded (window (new_AnalyticsManager b)) = sdk_loaded b ∧
  document (window (new_AnalyticsManager b)) = set_deviceInfo_display "block" (document b) ∧
  pageViewCount (this (new_AnalyticsManager b)) = 0.
Proof.
  unfold new_AnalyticsManager. cbv zeta.
  match goal with |- context [exec _ ?w] =>
    destruct (initializeTracking_exec w) as (-> & -> & _ & ->) end.
  cbn [this window pageViewCount].
  change ((generateSessionId b).2) with (exec generateSessionId b).
  change ((getOrCreateUserId (exec generateSessionId b)).2)
    with (exec getOrCreateUserId (exec generateSessionId b)).
  destruct (getOrCreateUserId_frame (exec generateSessionId b)) as [Hdoc Hsdk].
  rewrite generateSessionId_exec in Hdoc, Hsdk |- *.
  unfold sdk_loaded, Date_now. cbn [snd appInsights document set_ticks].
  rewrite Hdoc, Hsdk. by destruct b.
Qed.

(** X1.  In a session the two page view counters of the instance move
    together: after any sequence of operations both equal the number of
    trackPageView calls made, each of which goes through. *)
Theorem page_views_counted (b : Browser) (ops : list Op) :
  let w := run (new_AnalyticsManager b) ops in
  pageViewCount (this w) = count_ops is_trackPageView ops ∧
  pageViews (metrics (this w)) = count_ops is_trackPageView ops ∧
  (∀ pageName, succeeded (step w (TrackPageView_ pageName)) = true).
Proof.
  intros w.
  destruct (pageViews_run ops (new_AnalyticsManager b)) as [Hc Hm]. fold w in Hc, Hm.
  destruct (new_AnalyticsManager_window b) as (_ & _ & Hc0).
  destruct (fresh_session b) as (Hm0 & _ & _).
  rewrite Hc, Hm, Hc0, Hm0. split; [reflexivity|]. split; [reflexivity|].
  intros pageName. generalize w. clear. intros w.
  destruct_world w. js_simpl; reflexivity.
Qed.




(** *** The page follows the instance *)

Lemma displays_agree_step (w : World) (op : Op) :
  displays_agree w → displays_agree (step w op).
Proof.
  destruct_world w. destruct_op op.
  all: match goal with |- context [step ?w ?op] => js_run_on (step w op) end.
  all: unfold displays_agree; js_cbv.
  all: intros (? & ? & ? & ? & ?); repeat split; first [assumption|reflexivity].
Qed.

(** X3.  On a page whose counter displays start at "0", after any sequence
    of operations each of the five displays shows the decimal value of its
    counter of the instance. *)
Theorem displays_show_counters (b : Browser) (ops : list Op) :
  displays_zero (document b) →
  displays_agree (run (new_AnalyticsManager b) ops).
Proof.
  intros Hzero.
  assert (displays_agree (new_AnalyticsManager b)) as Hnew.
  { unfold displays_agree. destruct (fresh_session b) as (-> & _ & _).
    destruct (new_AnalyticsManager_window b) as (_ & -> & _).
    destruct Hzero as (? & ? & ? & ? & ?). by destruct (document b). }
  generalize dependent (new_AnalyticsManager b). clear.
  induction ops as [|op ops IH]; intros w Hw; [assumption|].
  simpl. by apply IH, displays_agree_step.
Qed.

Lemma displays_show_counters_witness :
  let w := run (new_AnalyticsManager (browser loaded_sdk ticking))
             (TrackPageView_ "HomePage" :: fill_quote_form "Alice" "auto" "50000" ++
              [SubmitQuoteRequest; StartApplication; StartApplication]) in
  pageViews_text (document (window w)) = "1" ∧
  quoteRequests_text (document (window w)) = "1" ∧
  applicationsStarted_text (document (window w)) = "2" ∧
  applicationsStarted (metrics (this w)) = 2.
Proof.
  intros w.
  destruct (displays_show_counters (browser loaded_sdk ticking)
              (TrackPageView_ "HomePage" :: fill_quote_form "Alice" "auto" "50000" ++
               [SubmitQuoteRequest; StartApplication; StartApplication]))
    as (Hp & Hq & Hs & _ & _); [by repeat split|].
  fold w in Hp, Hq, Hs.
  split; [rewrite Hp; vm_compute; reflexivity|].
  split; [rewrite Hq; vm_compute; reflexivity|].
  split; [rewrite Hs; vm_compute; reflexivity|vm_compute; reflexivity].
Defined.

Lemma controls_agree_step (w : World) (op : Op) :
  controls_agree w → controls_agree (step w op).
Proof.
  destruct_world w. destruct_op op.
  all: match goal with |- context [step ?w ?op] => js_run_on (step w op) end.
  all: unfold controls_agree; js_cbv.
  all: intros (? & ? & ? & ?); repeat split;
    first [assumption|reflexivity|discriminate|congruence|auto].
Qed.

(** X4.  On a page delivered with the three journey buttons disabled and
    the read-only field empty, the controls follow the journey in every
    state a session reaches: the start button is enabled exactly while a
    quote is active, the complete button exactly while an application is
    active, and the field shows the active quote identifier.  So a click on
    an enabled start or purchase button always goes through, and a click on
    an enabled complete button fails only for want of personal
    information. *)
Theorem controls_follow_journey (b : Browser) (ops : list Op) :
  controls_off (document b) →
  let w := run (new_AnalyticsManager b) ops in
  controls_agree w ∧
  (enabled w StartApplication = true → succeeded (step w StartApplication) = true) ∧
  (enabled w PurchasePolicy = true → succeeded (step w PurchasePolicy) = true) ∧
  (enabled w CompleteApplication = true →
   succeeded (step w CompleteApplication)
     = Js.truthy_string (personalInfo (document (window w)))).
Proof.
  intros Hoff w.
  assert (controls_agree w) as Hw.
  { assert (controls_agree (new_AnalyticsManager b)) as Hnew.
    { unfold controls_agree. destruct (fresh_session b) as (_ & -> & ->).
      destruct (new_AnalyticsManager_window b) as (_ & -> & _).
      destruct Hoff as (? & ? & ? & ?). destruct (document b); simpl in *; subst.
      repeat split; try done. }
    subst w. generalize dependent (new_AnalyticsManager b). clear.
    induction ops as [|op ops IH]; intros w Hw; [assumption|].
    simpl. by apply IH, controls_agree_step. }
  split; [exact Hw|]. destruct Hw as (Hstart & Hcomplete & Hpurchase & _).
  unfold enabled. rewrite startApplication_succeeded, purchasePolicy_succeeded,
    completeApplication_succeeded.
  split; [|split].
  - cbv zeta in Hstart. rewrite Hstart, negb_involutive. done.
  - intros Hen. apply Hpurchase. by apply negb_true_iff.
  - cbv zeta in Hcomplete. rewrite Hcomplete, negb_involutive. by intros ->.
Qed.

Lemma controls_follow_journey_witness :
  let w0 := new_AnalyticsManager (browser loaded_sdk ticking) in
  let w := run w0 (fill_quote_form "Alice" "auto" "50000" ++ [SubmitQuoteRequest]) in
  enabled w0 StartApplication = false ∧
  enabled w StartApplication = true ∧
  succeeded (step w StartApplication) = true ∧
  applicationId (document (window w)) = "quote_1710460800003".
Proof.
  intros w0 w.
  destruct (controls_follow_journey (browser loaded_sdk ticking)
              (fill_quote_form "Alice" "auto" "50000" ++ [SubmitQuoteRequest]))
    as ((_ & _ & _ & Hfield) & Hstart & _); [by repeat split|].
  cbv zeta in Hfield.
  split; [vm_compute; reflexivity|]. split; [vm_compute; reflexivity|].
  split; [apply Hstart; vm_compute; reflexivity|].
  unfold w, w0. rewrite Hfield. vm_compute; reflexivity.
Defined.

(** *** After a purchase *)

Lemma resetPurchaseJourney_idempotent (w : World) :
  exec resetPurchaseJourney (exec resetPurchaseJourney w) = exec resetPurchaseJourney w.
Proof. destruct_world w. js_cbv. reflexivity. Qed.

(** X5.  A purchase that goes through leaves the page as
    resetPurchaseJourney makes it: the five form values empty and the three
    journey buttons disabled.  Resetting again changes nothing, and a quote
    request right after the purchase is refused until the form is filled in
    again. *)
Theorem purchase_clears_form (w : World) :
  succeeded (step w PurchasePolicy) = true →
  let w' := step w PurchasePolicy in
  let d := document (window w') in
  (customerName d = "" ∧ insuranceType d = "" ∧ coverageAmount d = "" ∧
   applicationId d = "" ∧ personalInfo d = "") ∧
  (startAppBtn d = true ∧ completeAppBtn d = true ∧ purchaseBtn d = true) ∧
  exec resetPurchaseJourney w' = w' ∧
  failed (step w' SubmitQuoteRequest) = true ∧
  this (step w' SubmitQuoteRequest) = this w'.
Proof.
  intros Hok w' d.
  assert (failed (step w' SubmitQuoteRequest) = true →
          this (step w' SubmitQuoteRequest) = this w') as Hframe.
  { intros Hf. by eapply same_but_status_frame, failed_same_but_status. }
  revert Hok Hframe. subst d w'. rewrite purchasePolicy_succeeded.
  rewrite (guarded_failed _ SubmitQuoteRequest), submitQuoteRequest_succeeded
    by reflexivity.
  destruct_world w. destruct w_sdk as [[]|].
  all: match goal with |- context [step ?w ?op] => js_run_on (step w op) end.
  all: intros Happ Hframe; try congruence.
  all: repeat split; try reflexivity; by apply Hframe.
Qed.

Lemma purchase_clears_form_witness :
  let w := run (new_AnalyticsManager (browser loaded_sdk ticking))
             (fill_quote_form "Alice" "auto" "50000" ++
              [SubmitQuoteRequest; StartApplication]) in
  let w' := step w PurchasePolicy in
  customerName (document (window w)) = "Alice" ∧
  customerName (document (window w')) = "" ∧
  purchaseBtn (document (window w')) = true ∧
  failed (step w' SubmitQuoteRequest) = true.
Proof.
  intros w w'.
  destruct (purchase_clears_form w) as ((Hname & _) & (_ & _ & Hbtn) & _ & Hfail & _);
    [vm_compute; reflexivity|].
  split; [vm_compute; reflexivity|]. by repeat split.
Defined.

(** *** What the operations leave alone, over a session *)

(** X6.  No operation changes the session identifier, the user identifier
    or the start time of the instance.  In particular simulateNewVisitor
    removes the stored user identifier but the instance keeps its own. *)
Theorem session_identity_fixed (w : World) (ops : list Op) :
  (sessionId (this (run w ops)) = sessionId (this w) ∧
   userId (this (run w ops)) = userId (this w) ∧
   sessionStartTime (this (run w ops)) = sessionStartTime (this w)) ∧
  (userId (this (step w SimulateNewVisitor)) = userId (this w) ∧
   localStorage (window (step w SimulateNewVisitor)) !! "app_insights_user_id" = None).
Proof.
  split; [apply identity_run|].
  split; [apply identity_step|apply simulateNewVisitor_resets].
Qed.

(** X7.  The operations other than trackPageView and the four journey
    operations leave the whole instance as it is: counters, journey
    identifiers and page view count. *)
Theorem instance_untouched (w : World) (op : Op) :
  reads_instance_only op = true → this (step w op) = this w.
Proof.
  intros Hop. destruct_world w.
  destruct op; try discriminate Hop; js_simpl; reflexivity.
Qed.

Lemma instance_untouched_witness :
  let w := run (new_AnalyticsManager (browser loaded_sdk ticking))
             (fill_quote_form "Alice" "auto" "50000" ++ [SubmitQuoteRequest]) in
  this (step w SimulateBounce) = this w ∧
  this (step w (RunABTest "variant_a")) = this w ∧
  currentQuoteId (this (step w ViewCohortData)) = Some "quote_1710460800003".
Proof.
  intros w.
  split; [by apply (instance_untouched w SimulateBounce)|].
  split; [by apply (instance_untouched w (RunABTest "variant_a"))|].
  rewrite (instance_untouched w ViewCohortData) by reflexivity.
  vm_compute; reflexivity.
Defined.

(** X8.  The operations change the local storage only at their own keys:
    simulateNewVisitor at the user identifier and the visitor type,
    simulateReturningVisitor at the visitor type and the last visit,
    joinCohort at the cohort and its join date.  A key that no operation of
    a sequence writes holds after the sequence what it held before; the
    purchase journey writes no key at all. *)
Theorem storage_written_at_own_keys (w : World) (ops : list Op) (key : string) :
  existsb (λ op, writes op key) ops = false →
  localStorage (window (run w ops)) !! key = localStorage (window w) !! key.
Proof.
  revert w. induction ops as [|op ops IH]; intros w Hops; simpl in *; [done|].
  apply orb_false_elim in Hops as [Hop Hops]. rewrite IH by done.
  by apply storage_step.
Qed.

Lemma storage_written_at_own_keys_witness :
  let w := run (new_AnalyticsManager (browser loaded_sdk ticking)) [JoinCohort] in
  let journey := fill_quote_form "Alice" "auto" "50000" ++
                 [SubmitQuoteRequest; StartApplication; PurchasePolicy] in
  localStorage (window (run w (SimulateNewVisitor :: journey))) !! "user_cohort"
    = Some "cohort_2024_03" ∧
  localStorage (window (run w journey)) !! "app_insights_user_id"
    = Some "user_1710460800001_3llllllll".
Proof.
  intros w journey. split.
  - rewrite (storage_written_at_own_keys w (SimulateNewVisitor :: journey) "user_cohort")
      by reflexivity. vm_compute; reflexivity.
  - rewrite (storage_written_at_own_keys w journey "app_insights_user_id")
      by reflexivity. vm_compute; reflexivity.
Defined.

(** *** What reaches the SDK *)

Lemma step_appends_tagged (w : World) (op : Op) :
  ∃ new, telemetry (window (step w op)) = telemetry (window w) ++ new ∧
         Forall (tagged (sessionId (this w))) new.
Proof.
  destruct_world w. destruct w_sdk as [[]|]; destruct op; js_run.
  all: first
    [ by (exists []; split; [by rewrite app_nil_r|constructor])
    | eexists; split; [rewrite <- ?app_assoc; reflexivity|]; simpl;
      repeat constructor; first [by left|by right] ].
Qed.

(** X9.  The operations only ever add to the end of what was handed to the
    SDK; nothing is removed or reordered.  Every item added carries the
    session identifier of the instance as its sessionId property, except the
    page view performance item of measurePageLoad, which has no
    properties. *)
Theorem telemetry_appended_and_tagged (w : World) (ops : list Op) :
  ∃ new, telemetry (window (run w ops)) = telemetry (window w) ++ new ∧
         Forall (tagged (sessionId (this w))) new.
Proof.
  revert w. induction ops as [|op ops IH]; intros w; simpl.
  { exists []. split; [by rewrite app_nil_r|constructor]. }
  destruct (IH (step w op)) as (new2 & -> & Htag2).
  destruct (step_appends_tagged w op) as (new1 & -> & Htag1).
  rewrite (proj1 (identity_step w op)) in Htag2.
  exists (new1 ++ new2). split; [by rewrite app_assoc|by apply Forall_app].
Qed.

(** *** The journey does not depend on the SDK *)

Lemma forget_sdk_step (w : World) (op : Op) :
  forget_sdk (step w op) = step (forget_sdk w) op.
Proof.
  destruct_state w. destruct w_sdk as [[]|]; destruct_op op.
  all: match goal with |- _ = step (forget_sdk ?w0) _ =>
         let y := eval cbv beta iota delta
                    [forget_sdk set_window set_appInsights window this localStorage
                     document clock ticks random draws toString36 Date_parse localTZA
                     device location_href] in (forget_sdk w0) in
         change (forget_sdk w0) with y
       end.
  all: match goal with |- forget_sdk ?a = _ =>
         let Q := fresh "Q" in
         pattern a; match goal with |- ?P _ => set (Q := P) end;
         js_run; subst Q; cbv beta
       end.
  all: match goal with |- _ = ?b => js_run_on b end.
  all: try congruence; unfold forget_sdk; js_cbv; reflexivity.
Qed.

(** X10.  Whether or not the SDK is loaded makes no difference to anything
    but the SDK: after the same sequence of operations the instance, the
    storage, the page and the clock and random draws consumed are the
    same. *)
Theorem journey_independent_of_sdk (w : World) (ops : list Op) :
  forget_sdk (run w ops) = run (forget_sdk w) ops.
Proof.
  revert w. induction ops as [|op ops IH]; intros w; simpl; [done|].
  by rewrite IH, forget_sdk_step.
Qed.

(** *** Events and counters *)

Lemma count_events_app (name : string) (l1 l2 : list Telemetry) :
  count_events name (l1 ++ l2) = count_events name l1 + count_events name l2.
Proof.
  induction l1 as [|t l1 IH]; simpl; [done|]. destruct t; rewrite IH; lia.
Qed.

Lemma count_events_step (w : World) (op : Op) :
  sdk_loaded (window w) = true →
  let ok := succeeded (step w op) in
  let old := telemetry (window w) in
  let new := telemetry (window (step w op)) in
  count_events "QuoteRequested" new
    = count_events "QuoteRequested" old + bool_to_nat (is_submitQuoteRequest op && ok) ∧
  count_events "ApplicationStarted" new
    = count_events "ApplicationStarted" old + bool_to_nat (is_startApplication op && ok) ∧
  count_events "ApplicationCompleted" new
    = count_events "ApplicationCompleted" old
      + bool_to_nat (is_completeApplication op && ok) ∧
  count_events "PolicyPurchased" new
    = count_events "PolicyPurchased" old + bool_to_nat (is_purchasePolicy op && ok) ∧
  count_events "Conversion" new
    = count_events "Conversion" old + bool_to_nat (is_purchasePolicy op && ok) ∧
  count_events "FunnelStep" new
    = count_events "FunnelStep" old
      + bool_to_nat ((is_startApplication op || is_completeApplication op
                      || is_purchasePolicy op) && ok).
Proof.
  destruct_world w. destruct w_sdk as [[]|]; [|discriminate]. intros _.
  destruct op; cbv zeta.
  all: match goal with |- context [step ?w ?op] => js_run_on (step w op) end.
  all: rewrite ?count_events_app; simpl; repeat split; lia.
Qed.

Lemma tally_counters (op : Op) (ok : bool) (m : Metrics) :
  quoteRequests (tally op ok m)
    = quoteRequests m + bool_to_nat (is_submitQuoteRequest op && ok) ∧
  applicationsStarted (tally op ok m)
    = applicationsStarted m + bool_to_nat (is_startApplication op && ok) ∧
  applicationsCompleted (tally op ok m)
    = applicationsCompleted m + bool_to_nat (is_completeApplication op && ok) ∧
  policiesSold (tally op ok m)
    = policiesSold m + bool_to_nat (is_purchasePolicy op && ok).
Proof. destruct m, op, ok; simpl; lia. Qed.

(** X11.  With the SDK loaded, over any sequence of operations the number
    of events of each funnel step handed to the SDK is the increase of the
    counter of that step: one QuoteRequested per counted quote, one
    ApplicationStarted per counted start, one ApplicationCompleted per
    counted completion, one PolicyPurchased and one Conversion per counted
    sale, and one FunnelStep for each counted start, completion and sale. *)
Theorem events_match_counters (w : World) (ops : list Op) :
  sdk_loaded (window w) = true →
  let w' := run w ops in
  let before name := count_events name (telemetry (window w)) in
  let after name := count_events name (telemetry (window w')) in
  let m := metrics (this w) in
  let m' := metrics (this w') in
  after "QuoteRequested" + quoteRequests m = before "QuoteRequested" + quoteRequests m' ∧
  after "ApplicationStarted" + applicationsStarted m
    = before "ApplicationStarted" + applicationsStarted m' ∧
  after "ApplicationCompleted" + applicationsCompleted m
    = before "ApplicationCompleted" + applicationsCompleted m' ∧
  after "PolicyPurchased" + policiesSold m = before "PolicyPurchased" + policiesSold m' ∧
  after "Conversion" + policiesSold m = before "Conversion" + policiesSold m' ∧
  after "FunnelStep" + (applicationsStarted m + applicationsCompleted m + policiesSold m)
    = before "FunnelStep"
      + (applicationsStarted m' + applicationsCompleted m' + policiesSold m').
Proof.
  cbv zeta. revert w. induction ops as [|op ops IH]; intros w Hsdk; simpl; [lia|].
  specialize (IH (step w op)). rewrite sdk_loaded_step in IH. specialize (IH Hsdk).
  pose proof (count_events_step w op Hsdk) as Hstep. cbv zeta in Hstep.
  rewrite metrics_step in IH.
  pose proof (tally_counters op (succeeded (step w op)) (metrics (this w))) as Hm.
  destruct Hm as (Hq & Hs & Hc & Hp). rewrite Hq, Hs, Hc, Hp in IH. clear Hq Hs Hc Hp.
  destruct Hstep as (H1 & H2 & H3 & H4 & H5 & H6).
  rewrite H1, H2, H3, H4, H5, H6 in IH. clear H1 H2 H3 H4 H5 H6.
  assert (bool_to_nat ((is_startApplication op || is_completeApplication op
                        || is_purchasePolicy op) && succeeded (step w op))
          = bool_to_nat (is_startApplication op && succeeded (step w op))
            + bool_to_nat (is_completeApplication op && succeeded (step w op))
            + bool_to_nat (is_purchasePolicy op && succeeded (step w op))) as H
    by (by destruct (succeeded (step w op)), op).
  rewrite H in IH. lia.
Qed.

Lemma events_match_counters_witness :
  let w := run (new_AnalyticsManager (browser loaded_sdk ticking))
             (fill_quote_form "Alice" "auto" "50000" ++
              [SubmitQuoteRequest; StartApplication; StartApplication; PurchasePolicy;
               PurchasePolicy]) in
  count_events "QuoteRequested" (telemetry (window w)) = 1 ∧
  count_events "ApplicationStarted" (telemetry (window w)) = 2 ∧
  count_events "PolicyPurchased" (telemetry (window w)) = 1 ∧
  count_events "FunnelStep" (telemetry (window w)) = 3.
Proof.
  intros w.
  destruct (events_match_counters (new_AnalyticsManager (browser loaded_sdk ticking))
              (fill_quote_form "Alice" "auto" "50000" ++
               [SubmitQuoteRequest; StartApplication; StartApplication; PurchasePolicy;
                PurchasePolicy]))
    as (Hq & Hs & _ & Hp & _ & Hf); [vm_compute; reflexivity|].
  fold w in Hq, Hs, Hp, Hf.
  assert (metrics (this w) =
          {| pageViews := 0; quoteRequests := 1; applicationsStarted := 2;
             applicationsCompleted := 0; policiesSold := 1 |}) as Hm
    by (vm_compute; reflexivity).
  rewrite Hm in Hq, Hs, Hp, Hf.
  destruct (fresh_session (browser loaded_sdk ticking)) as (Hz & _ & _).
  rewrite Hz in Hq, Hs, Hp, Hf.
  assert (telemetry (window (new_AnalyticsManager (browser loaded_sdk ticking)))
          = [TrackEvent "DeviceInfo"
               [("userAgent", VStr "Mozilla/5.0"); ("platform", VStr "Linux x86_64");
                ("language", VStr "en-US"); ("screenResolution", VStr "1920x1080");
                ("viewport", VStr "1280x720"); ("colorDepth", VNum (Js.Fin 24));
                ("timeZone", VStr "UTC");
                ("sessionId", VStr "session_1710460800000_3llllllll")] []]) as Ht
    by (vm_compute; reflexivity).
  rewrite Ht in Hq, Hs, Hp, Hf.
  change (count_events "QuoteRequested" [_]) with 0 in Hq.
  change (count_events "ApplicationStarted" [_]) with 0 in Hs.
  change (count_events "PolicyPurchased" [_]) with 0 in Hp.
  change (count_events "FunnelStep" [_]) with 0 in Hf.
  cbn [quoteRequests applicationsStarted applicationsCompleted policiesSold
       zero_metrics] in Hq, Hs, Hp, Hf.
  repeat split; lia.
Defined.

(** *** Loading the page *)

(** Without the SDK object nothing reaches the SDK. *)
Lemma telemetry_without_sdk (w : World) :
  sdk_loaded (window w) = false → telemetry (window w) = [].
Proof. unfold sdk_loaded, telemetry. by destruct (appInsights (window w)). Qed.

(** X12.  The inline script of the page leaves an SDK object at
    window.appInsights whatever it finds there.  So the fallback of the
    script of the class, run when the document has loaded, makes no
    manager, and in a session started by initializeAnalytics the SDK object
    is present at every operation: every emission guard of the class
    passes.  Only where the inline script has not run does the fallback
    make a manager, and then no operation hands anything to an SDK. *)
Theorem page_keeps_sdk (b : Browser) (ops : list Op) :
  let b1 := exec snippet b in
  (sdk_loaded b1 = true ∧
   DOMContentLoaded None b1 = (None, b1) ∧
   sdk_loaded (window (run (initializeAnalytics b1) ops)) = true) ∧
  (sdk_loaded b = false →
   DOMContentLoaded None b = (Some (this (new_AnalyticsManager b)),
                              window (new_AnalyticsManager b)) ∧
   telemetry (window (run (new_AnalyticsManager b) ops)) = []).
Proof.
  intros b1.
  assert (sdk_loaded b1 = true) as Hsdk.
  { unfold b1, snippet, sdk_loaded, exec, modify. simpl.
    destruct b as [? ? [sdk|] ? ? ? ? ? ? ? ? ?]; reflexivity. }
  split.
  - split; [exact Hsdk|]. split; [unfold DOMContentLoaded; by rewrite Hsdk|].
    unfold initializeAnalytics.
    by rewrite sdk_loaded_run, (proj1 (new_AnalyticsManager_window b1)).
  - intros Hnone. split; [unfold DOMContentLoaded; by rewrite Hnone|].
    apply telemetry_without_sdk.
    by rewrite sdk_loaded_run, (proj1 (new_AnalyticsManager_window b)).
Qed.

Lemma page_keeps_sdk_witness :
  let b := browser None ticking in
  sdk_loaded b = false ∧
  DOMContentLoaded None (exec snippet b) = (None, exec snippet b) ∧
  telemetry (window (run (new_AnalyticsManager b)
                       (fill_quote_form "Alice" "auto" "50000" ++ [SubmitQuoteRequest])))
    = [] ∧
  sdk_loaded (window (run (initializeAnalytics (exec snippet b))
                        (fill_quote_form "Alice" "auto" "50000" ++ [SubmitQuoteRequest])))
    = true.
Proof.
  intros b.
  destruct (page_keeps_sdk b (fill_quote_form "Alice" "auto" "50000" ++ [SubmitQuoteRequest]))
    as ((_ & Hfallback & Hkept) & Hwithout).
  destruct Hwithout as [_ Hsilent]; [reflexivity|].
  split; [reflexivity|]. split; [exact Hfallback|]. split; [exact Hsilent|exact Hkept].
Defined.

(** *** What each operation reports *)

(** X13.  Seven operations always report success; simulateBounce and
    simulateError always show their message in the error style although
    they change nothing of the instance and hand their item to the SDK;
    editing a field, trackDeviceInfo and runABTest leave the status line as
    it is; the six guarded operations report either success or an error.
    Every operation is of one of these four kinds. *)
Theorem status_of_each_operation (w : World) (op : Op) :
  (always_succeeds op = true → succeeded (step w op) = true) ∧
  (always_shows_error op = true →
   failed (step w op) = true ∧ this (step w op) = this w ∧
   (sdk_loaded (window w) = true →
    length (telemetry (window (step w op))) = S (length (telemetry (window w))))) ∧
  (leaves_status op = true →
   statusDisplay (document (window (step w op))) = statusDisplay (document (window w))) ∧
  (guarded op = true → failed (step w op) = negb (succeeded (step w op))) ∧
  always_succeeds op || always_shows_error op || leaves_status op || guarded op = true.
Proof.
  split; [|split; [|split; [|split]]].
  - intros Hop. destruct_world w. destruct op; try discriminate Hop; js_simpl; reflexivity.
  - intros Hop. destruct_world w.
    destruct w_sdk as [[]|]; destruct op; try discriminate Hop; unfold sdk_loaded.
    all: js_run; repeat split; try done.
    all: intros _; rewrite length_app; simpl; lia.
  - intros Hop. destruct_world w. destruct_op op; try discriminate Hop.
    all: js_simpl; reflexivity.
  - apply guarded_failed.
  - by destruct op.
Qed.

Lemma status_of_each_operation_witness :
  let w := new_AnalyticsManager (exec snippet (browser None ticking)) in
  succeeded (step w JoinCohort) = true ∧
  failed (step w SimulateBounce) = true ∧
  length (telemetry (window (step w SimulateBounce))) = 2 ∧
  status (step (step w JoinCohort) (RunABTest "variant_b")) = "status success" ∧
  failed (step w ViewCohortData) = true.
Proof.
  intros w.
  destruct (status_of_each_operation w JoinCohort) as (Hjoin & _).
  destruct (status_of_each_operation w SimulateBounce) as (_ & Hbounce & _).
  destruct (status_of_each_operation (step w JoinCohort) (RunABTest "variant_b"))
    as (_ & _ & Hsilent & _).
  destruct (status_of_each_operation w ViewCohortData) as (_ & _ & _ & Hguard & _).
  destruct (Hbounce eq_refl) as (Hfailed & _ & Hlen).
  split; [by apply Hjoin|]. split; [exact Hfailed|].
  split; [rewrite Hlen by (vm_compute; reflexivity); vm_compute; reflexivity|].
  split.
  - unfold status. rewrite Hsilent by reflexivity.
    specialize (Hjoin eq_refl). unfold succeeded, status in Hjoin.
    by apply String.eqb_eq in Hjoin.
  - rewrite Hguard by reflexivity. vm_compute; reflexivity.
Defined.

(** *** Cohort membership *)

Lemma append_truthy (s1 s2 : string) (c : ascii) :
  Js.truthy_string (s1 +:+ String c s2) = true.
Proof. by destruct s1. Qed.

Lemma toISOString_truthy (t : Z) : Js.truthy_string (Js.toISOString t) = true.
Proof.
  unfold Js.toISOString. destruct (Js.civil_from_days _) as [[y m] d].
  apply append_truthy.
Qed.

Lemma joinCohort_joins (w : World) : cohort_joined (window (step w JoinCohort)) = true.
Proof.
  destruct_world w. unfold cohort_joined. js_simpl.
  all: rewrite lookup_insert_ne, !lookup_insert_eq by done.
  all: cbn [Js.truthy]; by rewrite toISOString_truthy.
Qed.

Lemma cohort_joined_step (w : World) (op : Op) :
  cohort_joined (window w) = true → cohort_joined (window (step w op)) = true.
Proof.
  intros Hw. destruct (is_joinCohort op) eqn:Hop.
  - destruct op; try discriminate Hop. apply joinCohort_joins.
  - unfold cohort_joined in *. rewrite !storage_step; [done|by destruct op..].
Qed.

Lemma viewCohortData_succeeded (w : World) :
  succeeded (step w ViewCohortData) = Js.truthy (localStorage (window w) !! "user_cohort").
Proof. destruct_world w. js_simpl; reflexivity. Qed.

(** X14.  Cohort membership is never lost in a session: once joinCohort has
    been called, after any further operations trackRetention and
    viewCohortData go through, and as long as joinCohort is not called
    again the storage holds the cohort identifier and the join date that
    call wrote. *)
Theorem cohort_membership_persists (w : World) (ops : list Op) :
  let joined := step w JoinCohort in
  let w' := run joined ops in
  succeeded (step w' TrackRetention) = true ∧
  succeeded (step w' ViewCohortData) = true ∧
  (existsb is_joinCohort ops = false →
   localStorage (window w') !! "user_cohort"
     = localStorage (window joined) !! "user_cohort" ∧
   localStorage (window w') !! "cohort_join_date"
     = localStorage (window joined) !! "cohort_join_date").
Proof.
  intros joined w'.
  assert (cohort_joined (window w') = true) as Hw'.
  { unfold w'. generalize (joinCohort_joins w). fold joined. generalize joined. clear.
    induction ops as [|op ops IH]; intros w0 Hw; simpl; [done|].
    by apply IH, cohort_joined_step. }
  unfold cohort_joined in Hw'. apply andb_prop in Hw' as [Hc Hd].
  split.
  { pose proof (guarded_failed w' TrackRetention eq_refl) as Hg.
    rewrite (failed_iff_precondition_missing w' TrackRetention eq_refl) in Hg.
    simpl in Hg. rewrite Hc, Hd in Hg. simpl in Hg.
    by destruct (succeeded (step w' TrackRetention)). }
  split; [by rewrite viewCohortData_succeeded|].
  intros Hops. unfold w'. clear -Hops. revert Hops. generalize joined.
  induction ops as [|op ops IH]; intros w0 Hops; simpl in *; [done|].
  apply orb_false_elim in Hops as [Hop Hops].
  destruct (IH (step w0 op) Hops) as [-> ->].
  split; apply storage_step; by destruct op.
Qed.

Lemma cohort_membership_persists_witness :
  let w := new_AnalyticsManager (exec snippet (browser None ticking)) in
  let w' := run (step w JoinCohort)
              [SimulateNewVisitor; SimulateReturningVisitor; TrackPageView_ "Home"] in
  failed (step w TrackRetention) = true ∧
  succeeded (step w' TrackRetention) = true ∧
  localStorage (window w') !! "user_cohort" = Some "cohort_2024_03" ∧
  localStorage (window w') !! "cohort_join_date" = Some "2024-03-15T00:00:00.004Z".
Proof.
  intros w w'.
  destruct (cohort_membership_persists w
              [SimulateNewVisitor; SimulateReturningVisitor; TrackPageView_ "Home"])
    as (Hretention & _ & Hkept).
  destruct Hkept as [Hc Hd]; [reflexivity|]. fold w' in Hretention, Hc, Hd.
  split; [vm_compute; reflexivity|]. split; [exact Hretention|].
  split; [rewrite Hc|rewrite Hd]; vm_compute; reflexivity.
Defined.

(** *** The constructor and the SDK *)

Lemma initializeTracking_sdk (w : World) :
  appInsights (window (exec (initializeTracking;; startSessionTimer) w)) =
  (sdk ← appInsights (window w);
   Some {| sent := sent sdk ++ [DeviceInfo_event (device (window w)) (sessionId (this w))];
           initializers := initializers sdk ++
                           [{| tag_sessionId := sessionId (this w);
                               tag_userId := userId (this w) |}] |}).
Proof. destruct_world w. destruct w_sdk as [[]|]; js_run; reflexivity. Qed.

(** No operation registers an initializer. *)
Lemma registered_step (w : World) (op : Op) :
  registered (window (step w op)) = registered (window w).
Proof.
  destruct_world w. destruct w_sdk as [[]|]; destruct op; unfold registered;
    js_run; reflexivity.
Qed.

(** The SDK object the constructor leaves. *)
Lemma new_AnalyticsManager_sdk (b : Browser) :
  let w0 := new_AnalyticsManager b in
  sessionId (this w0)
    = "session_" +:+ Js.Z_toString (next_time b) +:+ "_" +:+ next_suffix b ∧
  appInsights (window w0) =
  (sdk ← appInsights b;
   Some {| sent := sent sdk ++ [DeviceInfo_event (device b) (sessionId (this w0))];
           initializers := initializers sdk ++
                           [{| tag_sessionId := sessionId (this w0);
                               tag_userId := userId (this w0) |}] |}).
Proof.
  unfold new_AnalyticsManager. cbv zeta.
  match goal with |- context [exec _ ?w] =>
    rewrite (initializeTracking_sdk w);
    destruct (initializeTracking_exec w) as (-> & _) end.
  cbn [this window sessionId userId].
  change ((generateSessionId b).2) with (exec generateSessionId b).
  change ((getOrCreateUserId (exec generateSessionId b)).2)
    with (exec getOrCreateUserId (exec generateSessionId b)).
  destruct (getOrCreateUserId_frame (exec generateSessionId b)) as [_ Hsdk].
  assert (device (exec getOrCreateUserId (exec generateSessionId b)) = device b) as Hdev.
  { destruct (Js.truthy (localStorage (exec generateSessionId b)
                           !! "app_insights_user_id")) eqn:Hstored.
    - destruct (getOrCreateUserId_stored _ Hstored) as [_ ->]. by destruct b.
    - destruct (getOrCreateUserId_generated _ Hstored) as [_ ->]. by destruct b. }
  unfold Date_now. cbn [snd appInsights device set_ticks].
  rewrite Hsdk, Hdev. split; by destruct b.
Qed.

(** X15.  The constructor makes the session identifier from the first
    clock reading and the first random draw, shows the device panel, and,
    when the SDK object is there, registers one telemetry initializer
    carrying the session and user identifiers of the instance and hands the
    SDK one DeviceInfo event.  No later operation registers another
    initializer, and the session identifier stays. *)
Theorem constructor_registers_once (b : Browser) (ops : list Op) :
  let w0 := new_AnalyticsManager b in
  let w := run w0 ops in
  let tags := {| tag_sessionId := sessionId (this w); tag_userId := userId (this w) |} in
  sessionId (this w)
    = "session_" +:+ Js.Z_toString (next_time b) +:+ "_" +:+ next_suffix b ∧
  registered (window w) = registered b ++ (if sdk_loaded b then [tags] else []) ∧
  telemetry (window w0)
    = telemetry b
      ++ (if sdk_loaded b then [DeviceInfo_event (device b) (sessionId (this w))] else []) ∧
  deviceInfo_display (document (window w0)) = "block".
Proof.
  intros w0 w tags. subst tags.
  destruct (identity_run ops w0) as (Hs & Hu & _). fold w in Hs, Hu. rewrite Hs, Hu.
  pose proof (new_AnalyticsManager_sdk b) as Hnew. cbv zeta in Hnew. fold w0 in Hnew.
  destruct Hnew as [Hid Hsdk].
  split; [exact Hid|].
  assert (registered (window w) = registered (window w0)) as ->.
  { unfold w. generalize w0. clear. induction ops as [|op ops IH]; intros w; simpl; [done|].
    by rewrite IH, registered_step. }
  unfold registered, telemetry, sdk_loaded. rewrite Hsdk.
  split; [|split].
  - by destruct (appInsights b).
  - by destruct (appInsights b).
  - unfold w0. rewrite (proj1 (proj2 (new_AnalyticsManager_window b))). by destruct (document b).
Qed.

(** *** Coverage amounts *)

Lemma number_value_clean (text : string) :
  Html.number_value text = "" ∨
  Html.valid_floating_point_number (Html.number_value text) = true.
Proof.
  unfold Html.number_value.
  destruct (Html.valid_floating_point_number text) eqn:Hv; [by right|by left].
Qed.

Lemma clean_truthy_parses (s : string) :
  s = "" ∨ Html.valid_floating_point_number s = true →
  Js.truthy_string s = true → Js.parseFloat s ≠ Js.NaN.
Proof. intros [->|Hv] Ht; [discriminate Ht|by apply valid_number_parses]. Qed.

Lemma other_event_coverage (name : string) props ms :
  String.eqb name "QuoteRequested" = false → coverage_is_number (TrackEvent name props ms).
Proof. intros Hname Hev. simpl in Hev. by rewrite Hname in Hev. Qed.

Lemma coverage_step (w : World) (op : Op) :
  number_field_clean (document (window w)) →
  number_field_clean (document (window (step w op))) ∧
  ∃ new, telemetry (window (step w op)) = telemetry (window w) ++ new ∧
         Forall coverage_is_number new.
Proof.
  destruct_state w. destruct w_sdk as [[]|]; destruct_op op.
  all: unfold number_field_clean.
  all: match goal with |- context [step ?w ?op] => js_run_on (step w op) end.
  all: intros Hclean.
  all: split; [first [exact Hclean|by left|apply number_value_clean]|].
  all: first
    [ by (exists []; split; [by rewrite app_nil_r|constructor])
    | eexists; split; [rewrite <- ?app_assoc; reflexivity|] ].
  all: repeat constructor.
  all: try (apply other_event_coverage; reflexivity).
  all: try (intros Hev; discriminate Hev).
  all: intros _; eexists; split; [reflexivity|].
  all: by apply clean_truthy_parses.
Qed.

(** X16.  On the page the number field holds nothing or a valid number at
    every moment of a session, so no QuoteRequested event ever carries NaN
    as its coverage amount, whatever the visitor types and in whatever
    order the operations are called. *)
Theorem quote_events_carry_numbers (b : Browser) (ops : list Op) :
  number_field_clean (document b) →
  let w := run (new_AnalyticsManager b) ops in
  number_field_clean (document (window w)) ∧
  ∃ new, telemetry (window w) = telemetry b ++ new ∧ Forall coverage_is_number new.
Proof.
  intros Hb w.
  assert (number_field_clean (document (window (new_AnalyticsManager b))) ∧
          ∃ new, telemetry (window (new_AnalyticsManager b)) = telemetry b ++ new ∧
                 Forall coverage_is_number new) as Hnew.
  { pose proof (new_AnalyticsManager_sdk b) as [_ Hsdk]. cbv zeta in Hsdk.
    rewrite (proj1 (proj2 (new_AnalyticsManager_window b))).
    split; [by destruct (document b)|].
    unfold telemetry. rewrite Hsdk. destruct (appInsights b) as [sdk|]; simpl.
    - eexists. split; [reflexivity|]. repeat constructor.
      by apply other_event_coverage.
    - exists []. by split. }
  subst w. revert Hnew. generalize (new_AnalyticsManager b). generalize (telemetry b).
  clear. intros old. induction ops as [|op ops IH]; intros w Hw; simpl; [exact Hw|].
  apply IH. destruct Hw as (Hclean & new & Htel & Hnew).
  destruct (coverage_step w op Hclean) as (Hclean' & new' & Htel' & Hnew').
  split; [exact Hclean'|]. exists (new ++ new').
  split; [by rewrite Htel', Htel, app_assoc|by apply Forall_app].
Qed.

Lemma quote_events_carry_numbers_witness :
  let w := run (new_AnalyticsManager (exec snippet (browser None ticking)))
             (fill_quote_form "Alice" "auto" "1e3" ++
              [SubmitQuoteRequest; Input CoverageAmount "12abc"; SubmitQuoteRequest]) in
  coverageAmount (document (window w)) = "" ∧
  count_events "QuoteRequested" (telemetry (window w)) = 1 ∧
  Forall coverage_is_number (telemetry (window w)) ∧
  measurement_of "coverageAmount" <$> last (telemetry (window w))
    = Some (Some (Js.Fin 1000)).
Proof.
  intros w.
  destruct (quote_events_carry_numbers (exec snippet (browser None ticking))
              (fill_quote_form "Alice" "auto" "1e3" ++
               [SubmitQuoteRequest; Input CoverageAmount "12abc"; SubmitQuoteRequest]))
    as (_ & new & Htel & Hnew); [by left|].
  fold w in Htel. change (telemetry _ ++ new) with new in Htel.
  split; [vm_compute; reflexivity|]. split; [vm_compute; reflexivity|].
  split; [by rewrite Htel|vm_compute; reflexivity].
Defined.

(** *** The A/B test panel *)


(** *** Returning visitors *)

Lemma digit_not_radix (c : ascii) :
  Js.is_digit c = true → Ascii.eqb "x" c = false ∧ Ascii.eqb "X" c = false.
Proof. destruct c as [[] [] [] [] [] [] [] []]; vm_compute; intros ?; done. Qed.

Lemma digit_is_digit (k : N) :
  (k < 10)%N →
  Js.is_digit (digit (Z.of_N k)) = true ∧ Js.digit_value (digit (Z.of_N k)) = Z.of_N k.
Proof.
  intros Hk.
  assert (k = 0 ∨ k = 1 ∨ k = 2 ∨ k = 3 ∨ k = 4 ∨ k = 5 ∨ k = 6 ∨ k = 7 ∨ k = 8 ∨ k = 9)%N
    as Hcases by lia.
  repeat (destruct Hcases as [->|Hcases]; [by vm_compute|]). subst. by vm_compute.
Qed.

Lemma span_all_digits (s : string) :
  all_digits s = true → Js.span_digits s = (String.list_ascii_of_string s, "").
Proof.
  induction s as [|c r IH]; simpl; [done|]. intros [Hc Hr]%andb_prop.
  by rewrite Hc, IH.
Qed.

Lemma digits_value_number (s : string) (acc : Z) :
  fold_left (λ acc d, (10 * acc + Js.digit_value d)%Z) (String.list_ascii_of_string s) acc
  = digits_number acc s.
Proof. revert acc. induction s as [|c r IH]; intros acc; simpl; [done|apply IH]. Qed.

Lemma digits_number_acc (s : string) (acc : Z) :
  digits_number acc s = (acc * 10 ^ Z.of_nat (String.length s) + digits_number 0 s)%Z.
Proof.
  revert acc. induction s as [|c r IH]; intros acc.
  - simpl. lia.
  - cbn [digits_number String.length]. rewrite IH, (IH (10 * 0 + _)%Z).
    rewrite Nat2Z.inj_succ, Z.pow_succ_r by lia. lia.
Qed.

(** What the digits printed for a number write. *)
Lemma pretty_N_go_number (x : N) (s : string) :
  all_digits s = true →
  all_digits (pretty_N_go x s) = true ∧
  digits_number 0 (pretty_N_go x s)
    = (Z.of_N x * 10 ^ Z.of_nat (String.length s) + digits_number 0 s)%Z.
Proof.
  revert s. induction (N.lt_wf_0 x) as [x _ IH]; intros s Hs.
  assert (x = 0 ∨ 0 < x)%N as [->|Hx] by lia.
  { rewrite pretty_N_go_0. split; [done|]. simpl. lia. }
  rewrite pretty_N_go_digit by done.
  destruct (digit_is_digit (x `mod` 10)) as [Hd Hv]; [apply N.mod_lt; lia|].
  destruct (IH (x `div` 10)%N) with (s := String (digit (Z.of_N (x `mod` 10))) s)
    as [Hall Hnum]; [apply N.div_lt; lia|cbn [all_digits]; by rewrite Hd, Hs|].
  split; [exact Hall|]. rewrite Hnum.
  cbn [digits_number String.length]. rewrite digits_number_acc, Hv.
  rewrite Nat2Z.inj_succ, Z.pow_succ_r by lia.
  rewrite (N.div_mod x 10) at 3 by lia. rewrite N2Z.inj_add, N2Z.inj_mul. simpl Z.of_N.
  lia.
Qed.

(** [parseInt] of a string of digits. *)
Lemma parseInt_digits (s : string) (neg : bool) :
  all_digits s = true → s ≠ "" →
  Js.parseInt (if neg then "-" +:+ s else s)
  = Js.round_integral (if neg then - digits_number 0 s else digits_number 0 s).
Proof.
  intros Hs Hne. destruct s as [|c r]; [done|].
  pose proof Hs as [Hc Hr]%andb_prop.
  destruct (digit_or_full_stop c (or_introl Hc)) as (Hspace & Hminus & Hplus & _).
  assert (Js.take_sign (Js.trimStart (if neg then "-" +:+ String c r else String c r))
          = (neg, String c r)) as Hsign.
  { destruct neg; [reflexivity|]. simpl. rewrite Hspace. simpl. by rewrite Hminus, Hplus. }
  unfold Js.parseInt. rewrite Hsign.
  assert (Js.starts_with "0x" (String c r) || Js.starts_with "0X" (String c r) = false)
    as ->.
  { cbn [Js.starts_with]. destruct r as [|c2 r2]; [by rewrite !andb_false_r|].
    apply andb_prop in Hr as [Hc2 _].
    destruct (digit_not_radix c2 Hc2) as [-> ->]. by rewrite !andb_false_r. }
  rewrite (span_all_digits _ Hs). cbn [fst String.list_ascii_of_string].
  unfold Js.digits_value.
  change (c :: String.list_ascii_of_string r)
    with (String.list_ascii_of_string (String c r)).
  by rewrite digits_value_number.
Qed.

(** Reading back a number that was written in decimal gives the double next
    to it. *)
Lemma parseInt_Z_toString (z : Z) : Js.parseInt (Js.Z_toString z) = Js.round_integral z.
Proof.
  assert (∀ p, all_digits (pretty (N.pos p)) = true ∧ pretty (N.pos p) ≠ "" ∧
               digits_number 0 (pretty (N.pos p)) = Z.pos p) as Hpos.
  { intros p. unfold pretty, pretty_N. rewrite decide_False by done.
    destruct (pretty_N_go_number (N.pos p) "" eq_refl) as [Hall Hnum].
    simpl in Hnum. split; [exact Hall|]. split; [|lia].
    intros Hempty. rewrite Hempty in Hnum. simpl in Hnum. lia. }
  destruct z as [|p|p]; [reflexivity| |].
  - destruct (Hpos p) as (Hall & Hne & Hnum).
    change (Js.Z_toString (Z.pos p)) with (pretty (N.pos p)).
    by rewrite (parseInt_digits _ false Hall Hne), Hnum.
  - destruct (Hpos p) as (Hall & Hne & Hnum).
    change (Js.Z_toString (Z.neg p)) with ("-" +:+ pretty (N.pos p)).
    by rewrite (parseInt_digits _ true Hall Hne), Hnum.
Qed.

Lemma simulateReturningVisitor_effect (w : World) :
  let last := localStorage (window w) !! "last_visit" in
  let w' := step w SimulateReturningVisitor in
  let days :=
    if Js.truthy last then
      Js.Math_floor (Js.div_pos
        (Js.sub (Js.of_Z (next_time (window w)))
           (Js.of_integral (Js.parseInt (default "" last)))) 86400000)
    else Js.Int 0 in
  status_text w' =
    "Returning visitor tracked (" +:+ Js.integral_toString days
    +:+ " days since last visit)" ∧
  localStorage (window w') !! "last_visit" =
    Some (Js.Z_toString
            (clock (window w) (ticks (window w) + (if Js.truthy last then 2 else 1)))).
Proof.
  destruct_world w. unfold status_text.
  match goal with |- context [step ?w ?op] => js_run_on (step w op) end.
  all: rewrite lookup_insert_eq.
  all: rewrite ?lookup_insert_ne in * by done.
  all: match goal with H : Js.truthy _ = _ |- _ => rewrite H end.
  all: split; [reflexivity|]; repeat f_equal; lia.
Qed.

(** X18.  simulateReturningVisitor stores the clock reading of its last
    call in decimal and reads it back with parseInt, which gives the double
    next to that reading.  So with no earlier visit stored the call reports
    0 days, and every later call, whatever other operations were called in
    between, reports the whole days from the stored reading to its own
    clock reading. *)
Theorem returning_visitor_round_trip (w : World) (ops : list Op) :
  existsb is_simulateReturningVisitor ops = false →
  let last := localStorage (window w) !! "last_visit" in
  let stored := clock (window w) (ticks (window w) + (if Js.truthy last then 2 else 1)) in
  let w1 := step w SimulateReturningVisitor in
  let w2 := run w1 ops in
  (Js.truthy last = false →
   status_text w1 = "Returning visitor tracked (0 days since last visit)") ∧
  localStorage (window w2) !! "last_visit" = Some (Js.Z_toString stored) ∧
  Js.parseInt (Js.Z_toString stored) = Js.round_integral stored ∧
  status_text (step w2 SimulateReturningVisitor) =
    "Returning visitor tracked ("
    +:+ Js.integral_toString
          (Js.Math_floor (Js.div_pos
             (Js.sub (Js.of_Z (next_time (window w2)))
                (Js.of_integral (Js.round_integral stored))) 86400000))
    +:+ " days since last visit)".
Proof.
  intros Hops last stored w1 w2.
  pose proof (simulateReturningVisitor_effect w) as H1. cbv zeta in H1.
  fold last w1 stored in H1. destruct H1 as [Hstatus Hstored].
  assert (localStorage (window w2) !! "last_visit" = Some (Js.Z_toString stored)) as H2.
  { rewrite <- Hstored. unfold w2. clear -Hops. revert Hops. generalize w1.
    induction ops as [|op ops IH]; intros w0 Hops; simpl in *; [done|].
    apply orb_false_elim in Hops as [Hop Hops]. rewrite IH by done.
    apply storage_step. by destruct op. }
  split; [intros Hnone; by rewrite Hnone in Hstatus|].
  split; [exact H2|]. split; [apply parseInt_Z_toString|].
  pose proof (simulateReturningVisitor_effect w2) as H3. cbv zeta in H3.
  destruct H3 as [-> _]. rewrite H2. cbn [default from_option id Js.truthy].
  assert (Js.truthy_string (Js.Z_toString stored) = true) as ->.
  { destruct stored as [|p|p]; [done| |done].
    change (Js.Z_toString (Z.pos p)) with (pretty (N.pos p)).
    unfold pretty, pretty_N. rewrite decide_False by done.
    destruct (pretty_N_go (N.pos p) "") eqn:E; [|done].
    destruct (pretty_N_go_number (N.pos p) "" eq_refl) as [_ Hnum].
    rewrite E in Hnum. simpl in Hnum. lia. }
  by rewrite parseInt_Z_toString.
Qed.

Lemma returning_visitor_round_trip_witness :
  let w := new_AnalyticsManager (exec snippet (browser None daily)) in
  let w1 := step w SimulateReturningVisitor in
  let w2 := run w1 [TrackPageView_ "Home"; SimulateNewVisitor] in
  status_text w1 = "Returning visitor tracked (0 days since last visit)" ∧
  localStorage (window w2) !! "last_visit" = Some "1710806400000" ∧
  status_text (step w2 SimulateReturningVisitor)
    = "Returning visitor tracked (3 days since last visit)".
Proof.
  intros w w1 w2.
  destruct (returning_visitor_round_trip w [TrackPageView_ "Home"; SimulateNewVisitor])
    as (Hfirst & Hstored & _ & Hdays); [reflexivity|].
  fold w1 in Hfirst. fold w1 w2 in Hstored, Hdays.
  split; [apply Hfirst; vm_compute; reflexivity|].
  split; [rewrite Hstored; vm_compute; reflexivity|].
  rewrite Hdays. vm_compute; reflexivity.
Defined.
